(** * Tapo camera video exporter: a shallow embedding of [main.py]

    The development follows the layout of the script: the Python runtime
    pieces the script calls ([str] formatting, [os.path.join],
    [datetime.fromtimestamp], [strftime], [os.makedirs], true division
    on integers), then the script's own functions under their own names
    ([format_filename], [get_date_folder], [extract_dates],
    [extract_recordings], [download_recording], [try_delete_recording],
    [download_all_videos], [main]), then the properties.

    Conventions.
    - Python integers are [Z]; strings are [string]; a dictionary read in
      insertion order is an association list; the file system is a
      finite map from path strings to nodes.
    - Paths follow the POSIX flavour of [os.path] ([os.sep] is ["/"]).
    - The interpreter is CPython on Linux: [time_t] has 64 bits, the
      C [int] has 32, and [strftime] is the C library's.
    - Memory is not bounded: a string is never too long to be built,
      unless its length is no index at all.
    - The camera, the streaming downloader and the local time zone are
      the environment: they are variables of the sections below. *)

From Stdlib Require Import ZArith String Ascii List Lia Bool.
From Stdlib Require Import Floats.SpecFloat.
From stdpp Require Import gmap strings.

Import ListNotations.
Open Scope Z_scope.

#[global] Arguments String.append : simpl nomatch.

(** ** Exceptions and results *)

(** The exception classes that can leave the modelled code. All of them
    derive from [Exception]. *)
Inductive exn : Type :=
  | KeyError (key : string)
  | TypeError
  | ValueError
  | OverflowError
  | OSError
  | CameraError (reason : string).

Inductive res (A : Type) : Type :=
  | Ok (a : A)
  | Raise (e : exn).
Arguments Ok {A} a.
Arguments Raise {A} e.

Definition res_bind {A B} (r : res A) (k : A -> res B) : res B :=
  match r with
  | Ok a => k a
  | Raise e => Raise e
  end.

(** ** Python strings *)

Module PyStr.

(** The character of a decimal digit. *)
Definition digit_char (d : Z) : ascii := ascii_of_nat (48 + Z.to_nat d).

(** The decimal digits of a non-negative [n], least significant first,
    pushed in front of [acc]; [fuel] bounds the number of digits. *)
Fixpoint dec_digits (fuel : nat) (n : Z) (acc : string) : string :=
  match fuel with
  | O => acc
  | S k =>
      let acc' := String (digit_char (n mod 10)) acc in
      if n / 10 =? 0 then acc' else dec_digits k (n / 10) acc'
  end.

(** [str(n)] and [f"{n}"] for an integer. A number has no more decimal
    digits than binary ones, which is the fuel given. *)
Definition dec (n : Z) : string :=
  if n <? 0 then String "-" (dec_digits (S (Z.to_nat (Z.log2 (- n)))) (- n) "")
  else dec_digits (S (Z.to_nat (Z.log2 n))) n "".

(** [c * n] for a one-character string. *)
Fixpoint repeat_char (c : ascii) (n : nat) : string :=
  match n with
  | O => ""
  | S k => String c (repeat_char c k)
  end.

(** [sys.maxsize], the largest index. *)
Definition PY_SSIZE_T_MAX : Z := 2 ^ 63 - 1.

(** The length of [c * n] for a one-character string [c] and an integer
    [n]: a count below 1 gives the empty string, and a count that is no
    index raises [OverflowError]. *)
Definition repeat_length (n : Z) : res Z :=
  if ((n <? - PY_SSIZE_T_MAX - 1) || (PY_SSIZE_T_MAX <? n))%bool
  then Raise OverflowError
  else Ok (Z.max 0 n).

(** [s.zfill(w)] for the digit strings of non-negative numbers, which is
    what the C conversion [%0wd] prints. *)
Definition zfill (w : nat) (s : string) : string :=
  repeat_char "0" (w - String.length s)%nat +:+ s.

(** [s.startswith(p)]. *)
Definition startswith (p s : string) : bool := String.prefix p s.

Definition is_sep (c : ascii) : bool := Ascii.eqb c "/".

Definition starts_with_sep (s : string) : bool :=
  match s with
  | String c _ => is_sep c
  | EmptyString => false
  end.

Fixpoint ends_with_sep (s : string) : bool :=
  match s with
  | EmptyString => false
  | String c EmptyString => is_sep c
  | String _ rest => ends_with_sep rest
  end.

(** [s.replace("/", "\\")]. *)
Fixpoint replace_sep (s : string) : string :=
  match s with
  | EmptyString => EmptyString
  | String c rest =>
      String (if is_sep c then "\"%char else c) (replace_sep rest)
  end.

End PyStr.

(** ** [os.path] (POSIX) *)

Module PyPath.
Import PyStr.

(** [posixpath.join(a, b)]: an absolute [b] discards [a]; otherwise one
    separator is inserted unless [a] is empty or already ends with one. *)
Definition join (a b : string) : string :=
  if starts_with_sep b then b
  else if (String.eqb a "" || ends_with_sep a)%bool then a +:+ b
  else a +:+ "/" +:+ b.

(** The proper prefixes of [rest] that end just before a separator,
    shortest first; [pre] is the part of the path already walked. These
    are the directories a path lies under. *)
Fixpoint parents_from (pre rest : string) : list string :=
  match rest with
  | EmptyString => []
  | String c rest' =>
      (if (is_sep c && negb (String.eqb pre ""))%bool then [pre] else [])
        ++ parents_from (pre +:+ String c "") rest'
  end.

Definition ancestors (p : string) : list string := parents_from "" p.

End PyPath.

(** ** [datetime] *)

Module PyTime.
Import PyStr.

(** The fields of a [datetime] that the script formats. *)
Record datetime : Type := mk_datetime {
  year : Z; month : Z; day : Z;
  hour : Z; minute : Z; second : Z
}.

Definition DI400Y : Z := 146097.
Definition DI100Y : Z := 36524.
Definition DI4Y : Z := 1461.

(** [_DAYS_IN_MONTH] and [_DAYS_BEFORE_MONTH] of CPython's [datetime]. *)
Definition DAYS_IN_MONTH (m : Z) : Z :=
  nth (Z.to_nat m) [-1; 31; 28; 31; 30; 31; 30; 31; 31; 30; 31; 30; 31] 0.
Definition DAYS_BEFORE_MONTH (m : Z) : Z :=
  nth (Z.to_nat m) [-1; 0; 31; 59; 90; 120; 151; 181; 212; 243; 273; 304; 334] 0.

Definition b2z (b : bool) : Z := if b then 1 else 0.

(** Month and day from the zero-based day of the year and the leap flag:
    the tail of CPython's [_ord2ymd]. *)
Definition month_day (n : Z) (leapyear : bool) : Z * Z :=
  let month := Z.shiftr (n + 50) 5 in
  let preceding := DAYS_BEFORE_MONTH month + b2z ((2 <? month) && leapyear) in
  if n <? preceding then
    let month' := month - 1 in
    let preceding' :=
      preceding - (DAYS_IN_MONTH month' + b2z ((month' =? 2) && leapyear)) in
    (month', n - preceding' + 1)
  else (month, n - preceding + 1).

(** CPython's [_ord2ymd]: proleptic Gregorian ordinal (1 is 0001-01-01)
    to year, month, day. *)
Definition ord2ymd (ordinal : Z) : Z * Z * Z :=
  let n := ordinal - 1 in
  let n400 := n / DI400Y in
  let n := n mod DI400Y in
  let n100 := n / DI100Y in
  let n := n mod DI100Y in
  let n4 := n / DI4Y in
  let n := n mod DI4Y in
  let n1 := n / 365 in
  let n := n mod 365 in
  let y := n400 * 400 + 1 + n100 * 100 + n4 * 4 + n1 in
  if ((n1 =? 4) || (n100 =? 4))%bool then (y - 1, 12, 31)
  else
    let leapyear := ((n1 =? 3) && (negb (n4 =? 24) || (n100 =? 3)))%bool in
    let '(m, d) := month_day n leapyear in
    (y, m, d).

(** [is_leap], [days_before_year], [days_before_month] and [ymd_to_ord]
    of CPython's [_datetimemodule.c]: the ordinal of a date whose year is
    at least 1. *)
Definition is_leap (y : Z) : bool :=
  (y mod 4 =? 0) && (negb (y mod 100 =? 0) || (y mod 400 =? 0)).

Definition days_before_year (y : Z) : Z :=
  let y' := y - 1 in y' * 365 + y' / 4 - y' / 100 + y' / 400.

Definition days_before_month (y m : Z) : Z :=
  DAYS_BEFORE_MONTH m + b2z ((2 <? m) && is_leap y).

Definition ymd2ord (ymd : Z * Z * Z) : Z :=
  let '(y, m, d) := ymd in
  days_before_year y + days_before_month y m + d.

(** Ordinal of 1970-01-01. *)
Definition EPOCH_ORDINAL : Z := 719163.

Definition MINYEAR : Z := 1.
Definition MAXYEAR : Z := 9999.

(** [epoch] and [max_fold_seconds] of [_datetimemodule.c]. *)
Definition epoch : Z := 719163 * 24 * 60 * 60.
Definition max_fold_seconds : Z := 24 * 3600.

(** The values of a [time_t] and of a C [int]. *)
Definition fits_time_t (t : Z) : bool :=
  (- 2 ^ 63 <=? t) && (t <=? 2 ^ 63 - 1).
Definition fits_int (n : Z) : bool :=
  (- 2 ^ 31 <=? n) && (n <=? 2 ^ 31 - 1).

(** [utc_to_seconds]: seconds since 0001-01-01 minus one day, [ValueError]
    for a year outside [MINYEAR..MAXYEAR]. *)
Definition utc_to_seconds (tm : datetime) : res Z :=
  if ((year tm <? MINYEAR) || (MAXYEAR <? year tm))%bool then Raise ValueError
  else Ok (((ymd2ord (year tm, month tm, day tm) * 24 + hour tm) * 60
            + minute tm) * 60 + second tm).

Section LocalTime.
(** The local time zone: seconds east of UTC in force at a given
    instant. *)
Variable utcoffset : Z -> Z.

(** [_PyTime_localtime], the C library's [localtime_r]: the broken-down
    local time, with the year and the month counted as [datetime] counts
    them. It fails ([OSError], EOVERFLOW) when the year does not fit
    [tm_year]. *)
Definition localtime (t : Z) : res datetime :=
  let seconds := t + utcoffset t in
  let days := seconds / 86400 in
  let secs := seconds mod 86400 in
  let '(y, m, d) := ord2ymd (days + EPOCH_ORDINAL) in
  if fits_int (y - 1900) then
    Ok {| year := y; month := m; day := d;
          hour := secs / 3600;
          minute := (secs mod 3600) / 60;
          second := secs mod 60 |}
  else Raise OSError.

(** [local(u)] of [_datetimemodule.c]: the local time at [u] seconds
    after 0001-01-01 minus one day, in seconds on the same scale. *)
Definition local (u : Z) : res Z :=
  let t := u - epoch in
  if fits_time_t t then res_bind (localtime t) utc_to_seconds
  else Raise OverflowError.

(** [datetime.fromtimestamp(t)] for an integer [t] and no [tz]:
    [_PyLong_AsTime_t], then [datetime_from_timet_and_us]. The local
    time is broken down, and the times one day earlier and, after a
    backward step of the clock, at that step are probed to set [fold];
    each of them must be a time [datetime] can hold. [OverflowError]
    when [t] is no [time_t], [OSError] when [localtime_r] fails,
    [ValueError] when a year leaves [MINYEAR..MAXYEAR]. *)
Definition fromtimestamp (t : Z) : res datetime :=
  if fits_time_t t then
    res_bind (localtime t) (fun tm =>
    res_bind (utc_to_seconds tm) (fun result_seconds =>
    res_bind (local (epoch + t - max_fold_seconds)) (fun probe_seconds =>
    let transition := result_seconds - probe_seconds - max_fold_seconds in
    res_bind (if transition <? 0 then local (epoch + t + transition)
              else Ok probe_seconds) (fun _ =>
    Ok tm))))
  else Raise OverflowError.
End LocalTime.

(** One [strftime] directive, as the C library writes it: [%Y] is the
    year in decimal, not padded (a year below 1000 has fewer than four
    digits); the others are two-digit fields. The script uses no
    directive beyond these six; any other character is kept as it
    stands. *)
Definition directive (dt : datetime) (c : ascii) : string :=
  if Ascii.eqb c "Y" then dec (year dt)
  else if Ascii.eqb c "m" then zfill 2 (dec (month dt))
  else if Ascii.eqb c "d" then zfill 2 (dec (day dt))
  else if Ascii.eqb c "H" then zfill 2 (dec (hour dt))
  else if Ascii.eqb c "M" then zfill 2 (dec (minute dt))
  else if Ascii.eqb c "S" then zfill 2 (dec (second dt))
  else String "%" (String c "").

(** [dt.strftime(fmt)]. *)
Fixpoint strftime (dt : datetime) (fmt : string) : string :=
  match fmt with
  | EmptyString => EmptyString
  | String c rest =>
      if Ascii.eqb c "%" then
        match rest with
        | String d rest' => directive dt d +:+ strftime dt rest'
        | EmptyString => String c EmptyString
        end
      else String c (strftime dt rest)
  end.

End PyTime.

(** ** PathPlanner: [format_filename] and [get_date_folder] *)

Section PathPlanner.
Import PyStr PyTime.
Variable utcoffset : Z -> Z.

(** [format_filename(timestamp)]. *)
Definition format_filename (timestamp : Z) : res string :=
  res_bind (fromtimestamp utcoffset timestamp) (fun dt =>
  let local_time := strftime dt "%Y%m%d_%H%M%S" in
  let unix_timestamp := timestamp in
  Ok (local_time +:+ "-" +:+ dec unix_timestamp +:+ ".mp4")).

(** [get_date_folder(timestamp)]. *)
Definition get_date_folder (timestamp : Z) : res string :=
  res_bind (fromtimestamp utcoffset timestamp) (fun dt =>
  Ok (PyPath.join (PyPath.join (strftime dt "%Y") (strftime dt "%m"))
                  (strftime dt "%d"))).
End PathPlanner.

(** ** Weakly typed camera responses *)

(** A decoded JSON tree as the camera library hands it over: dictionary
    keys are strings and numbers are integers. A dictionary keeps its
    entries in insertion order. *)
#[warnings="-register-all"]
Inductive pyval : Type :=
  | PNone
  | PBool (b : bool)
  | PInt (z : Z)
  | PStr (s : string)
  | PList (items : list pyval)
  | PDict (entries : list (string * pyval)).

Abbreviation pydict := (list (string * pyval)).

(** [d.get(k)]: the value under key [k], if any. *)
Fixpoint dict_find (k : string) (d : pydict) : option pyval :=
  match d with
  | [] => None
  | (k', v) :: d' => if String.eqb k k' then Some v else dict_find k d'
  end.

(** [k in d]. *)
Definition dict_has (k : string) (d : pydict) : bool :=
  match dict_find k d with Some _ => true | None => false end.

(** [d[k]]. *)
Definition getitem (d : pydict) (k : string) : res pyval :=
  match dict_find k d with Some v => Ok v | None => Raise (KeyError k) end.

(** [d.get(k, dflt)]. *)
Definition dict_get (d : pydict) (k : string) (dflt : pyval) : pyval :=
  match dict_find k d with Some v => v | None => dflt end.

(** The integer an arithmetic operand stands for; [bool] is a subclass of
    [int]; every other node of the tree makes [-] raise [TypeError]. *)
Definition as_int (v : pyval) : res Z :=
  match v with
  | PInt z => Ok z
  | PBool b => Ok (if b then 1 else 0)
  | _ => Raise TypeError
  end.

(** ** CatalogIndexer: [extract_dates] and [extract_recordings] *)

(** Body of the inner [for key, value in item.items()] of [extract_dates]:
    [dates] is the list being appended to. *)
Definition extract_dates_entry (dates : list pyval) (kv : string * pyval)
  : list pyval :=
  let '(key, value) := kv in
  if PyStr.startswith "search_results_" key then
    match value with
    | PDict fields =>
        if dict_has "date" fields
        then dates ++ [dict_get fields "date" PNone]
        else dates
    | _ => dates
    end
  else dates.

(** Body of the outer [for item in dates_data]. *)
Definition extract_dates_item (dates : list pyval) (item : pyval) : list pyval :=
  match item with
  | PDict entries => fold_left extract_dates_entry entries dates
  | _ => dates
  end.

(** [extract_dates(dates_data)]. *)
Definition extract_dates (dates_data : pyval) : list pyval :=
  match dates_data with
  | PList items => fold_left extract_dates_item items []
  | _ => []
  end.

(** The recordings are the dictionaries themselves, kept as their entry
    lists. *)
Definition extract_recordings_entry (recordings : list pydict)
  (kv : string * pyval) : list pydict :=
  let '(key, value) := kv in
  if PyStr.startswith "search_video_results_" key then
    match value with
    | PDict fields =>
        if (dict_has "startTime" fields && dict_has "endTime" fields)%bool
        then recordings ++ [fields]
        else recordings
    | _ => recordings
    end
  else recordings.

Definition extract_recordings_item (recordings : list pydict) (item : pyval)
  : list pydict :=
  match item with
  | PDict entries => fold_left extract_recordings_entry entries recordings
  | _ => recordings
  end.

(** [extract_recordings(recordings_data)]. *)
Definition extract_recordings (recordings_data : pyval) : list pydict :=
  match recordings_data with
  | PList items => fold_left extract_recordings_item items []
  | _ => []
  end.

(** ** The file system *)

Module PyOs.
Import PyPath.

Record node : Type := mk_node { n_isdir : bool; n_size : Z }.

(** What exists on disk, by path as spelled. The script only builds
    paths by joining names onto its output directory, so two spellings
    of one file do not arise. *)
Abbreviation FS := (gmap string node).

(** [os.path.exists(p)]. *)
Definition path_exists (fs : FS) (p : string) : bool :=
  match fs !! p with Some _ => true | None => false end.

(** [os.path.isdir(p)]. *)
Definition isdir (fs : FS) (p : string) : bool :=
  match fs !! p with Some n => n_isdir n | None => false end.

(** [os.path.getsize(p)]. *)
Definition getsize (fs : FS) (p : string) : res Z :=
  match fs !! p with Some n => Ok (n_size n) | None => Raise OSError end.

Definition new_directory : node := {| n_isdir := true; n_size := 4096 |}.

(** One level of [os.makedirs(.., exist_ok=True)]: an existing directory
    is kept, a missing one is created, anything else in the way makes
    [mkdir] fail. *)
Definition mkdir_exist_ok (fs : FS) (p : string) : res FS :=
  if String.eqb p "" then Raise OSError
  else match fs !! p with
       | None => Ok (<[p := new_directory]> fs)
       | Some n => if n_isdir n then Ok fs else Raise OSError
       end.

Fixpoint mkdir_each (fs : FS) (ps : list string) : res FS :=
  match ps with
  | [] => Ok fs
  | p :: ps' => res_bind (mkdir_exist_ok fs p) (fun fs' => mkdir_each fs' ps')
  end.

(** [os.makedirs(name, exist_ok=True)]: every missing directory on the
    way to [name], then [name] itself. *)
Definition makedirs (fs : FS) (name : string) : res FS :=
  mkdir_each fs (ancestors name ++ [name]).

End PyOs.

(** ** Integer true division and [int()] of a float *)

Module PyFloat.

Definition prec : Z := 53.
Definition emax : Z := 1024.

Definition of_int (z : Z) : spec_float :=
  match z with
  | Z0 => S754_zero false
  | Zpos p => S754_finite false p 0
  | Zneg p => S754_finite true p 0
  end.

Definition finite (f : spec_float) : res spec_float :=
  match f with
  | S754_infinity _ | S754_nan => Raise OverflowError
  | _ => Ok f
  end.

(** [a / b] on two integers with [b] non-zero: the correctly rounded
    binary64 quotient, [OverflowError] when it is out of range. *)
Definition truediv (a b : Z) : res spec_float :=
  finite (SFdiv prec emax (of_int a) (of_int b)).

(** [x * n] for a float [x] and an integer [n] that converts exactly. *)
Definition mul_int (x : spec_float) (n : Z) : spec_float :=
  SFmul prec emax x (of_int n).

(** [int(x)]: truncation toward zero, [OverflowError] on an infinity. *)
Definition to_int (x : spec_float) : res Z :=
  match x with
  | S754_zero _ => Ok 0
  | S754_finite s m e =>
      let v := if 0 <=? e then Z.shiftl (Zpos m) e
               else Z.shiftr (Zpos m) (- e) in
      Ok (if s then - v else v)
  | S754_infinity _ => Raise OverflowError
  | S754_nan => Raise ValueError
  end.

End PyFloat.

(** ** The camera, the console and the world *)

(** [WINDOW_SIZE]. *)
Definition WINDOW_SIZE : Z := 1000.

(** The arguments [download_recording] gives to [Downloader(...)]. *)
Record DownloadReq : Type := mk_req {
  dr_start_time : Z;
  dr_end_time : Z;
  dr_time_correction : pyval;
  dr_output_dir : string;
  dr_fileName : string;
  dr_window_size : Z
}.

(** One item yielded by [downloader.download()]; [progress] and [total]
    may be absent and are then read as 0. *)
Record Status : Type := mk_status {
  currentAction : string;
  progress : option Z;
  total : option Z
}.

(** The two request shapes of [try_delete_recording]; the first sends the
    two times through [str()]. *)
Inductive delete_params : Type :=
  | DeleteVideo (channel : Z) (start_time end_time : pyval)
  | Delete (start_time end_time : pyval).

(** What the script prints, one constructor per message, carrying the
    values that are formatted into it; of the bar of a percentage line,
    the numbers of filled and of empty cells it is made of. The elapsed
    time and ETA of the statistics lines come from the wall clock and are
    left out. *)
Inductive Line : Type :=
  | LSkip (index total_count : Z) (display_path filename : string)
  | LSkipNote (file_size : Z)
  | LStart (index total_count : Z) (display_path filename : string)
  | LDuration (duration : Z) (video_type : pyval)
  | LPercent (action : string) (filled empty : Z) (percent : Z)
  | LAction (action : string)
  | LDownloaded
  | LDownloadError (e : exn)
  | LDeleted
  | LDeleteUnsupported
  | LDeleteError (e : exn)
  | LScanning
  | LOutputFolder (output_dir : string)
  | LFoundDates (n : Z)
  | LNoRecordingsFound
  | LDateSummary (date : pyval) (n : Z) (minutes seconds : Z)
  | LTotals (total_count hours minutes seconds : Z) (output_dir : string)
  | LNothingToDownload
  | LStarting
  | LDeleteWarning
  | LProgress (successful skipped failed remaining : Z)
  | LCompleted (successful skipped failed : Z) (deleted : option Z)
      (output_dir : string)
  | LFilenameHint (output_dir : string).

(** The calls that leave the orchestration loop, in the order they are
    made: the two per-recording entry points and the requests to the
    camera. *)
Inductive Event : Type :=
  | Print (l : Line)
  | EnterDownloadRecording (recording : pydict)
  | EnterTryDeleteRecording (recording : pydict)
  | StartDownloader (req : DownloadReq)
  | ExecuteFunction (method : string) (params : delete_params)
  | GetRecordingsList
  | GetRecordings (date : pyval)
  | GetTimeCorrection.

Section Camera.
(** The state of the device, whatever it is made of. *)
Variable Cam : Type.

(** A whole run of [Downloader(...).download()]: the items it yields,
    whether it then finishes or raises, and the device and the disk as
    it leaves them. *)
Record Transfer : Type := mk_transfer {
  tr_events : list Status;
  tr_raised : option exn;
  tr_cam : Cam;
  tr_fs : PyOs.FS
}.

(** The [tapo] object and the process it runs in: the camera's methods
    as transitions of the device, the streaming downloader built on it,
    the local time zone and the module-level delete flag. *)
Record Env : Type := mk_env {
  utcoffset : Z -> Z;
  DELETE_AFTER_DOWNLOAD : bool;
  getRecordingsList : Cam -> res pyval * Cam;
  getRecordings : Cam -> pyval -> res pyval * Cam;
  getTimeCorrection : Cam -> res pyval * Cam;
  (** [true] when the call returns, [false] when it raises. *)
  executeFunction : Cam -> string -> delete_params -> bool * Cam;
  Downloader : Cam -> PyOs.FS -> DownloadReq -> Transfer
}.

Record World : Type := mk_world {
  w_fs : PyOs.FS;
  w_cam : Cam;
  w_trace : list Event
}.

(** Computations that read and change the world and may raise. *)
Definition M (A : Type) : Type := World -> res A * World.

Definition ret {A} (a : A) : M A := fun w => (Ok a, w).

Definition raise {A} (e : exn) : M A := fun w => (Raise e, w).

Definition bind {A B} (m : M A) (k : A -> M B) : M B :=
  fun w => match m w with
           | (Ok a, w') => k a w'
           | (Raise e, w') => (Raise e, w')
           end.

Definition lift {A} (r : res A) : M A := fun w => (r, w).

Definition emit (ev : Event) : M unit :=
  fun w => (Ok tt, {| w_fs := w_fs w; w_cam := w_cam w;
                      w_trace := w_trace w ++ [ev] |}).

Definition print (l : Line) : M unit := emit (Print l).

Definition get_fs : M PyOs.FS := fun w => (Ok (w_fs w), w).

Definition set_fs (fs : PyOs.FS) : M unit :=
  fun w => (Ok tt, {| w_fs := fs; w_cam := w_cam w; w_trace := w_trace w |}).

Definition get_cam : M Cam := fun w => (Ok (w_cam w), w).

Definition set_cam (c : Cam) : M unit :=
  fun w => (Ok tt, {| w_fs := w_fs w; w_cam := c; w_trace := w_trace w |}).

(** [try: m except Exception as e: handler e]. *)
Definition try_except {A} (m : M A) (handler : exn -> M A) : M A :=
  fun w => match m w with
           | (Ok a, w') => (Ok a, w')
           | (Raise e, w') => handler e w'
           end.
End Camera.

Arguments ret {Cam A} a.
Arguments raise {Cam A} e.
Arguments bind {Cam A B} m k.
Arguments lift {Cam A} r.
Arguments emit {Cam} ev.
Arguments print {Cam} l.
Arguments get_fs {Cam}.
Arguments set_fs {Cam} fs.
Arguments get_cam {Cam}.
Arguments set_cam {Cam} c.
Arguments try_except {Cam A} m handler.
Arguments mk_transfer {Cam}.
Arguments tr_events {Cam}.
Arguments tr_raised {Cam}.
Arguments tr_cam {Cam}.
Arguments tr_fs {Cam}.
Arguments mk_world {Cam}.
Arguments w_fs {Cam}.
Arguments w_cam {Cam}.
Arguments w_trace {Cam}.
Arguments utcoffset {Cam}.
Arguments DELETE_AFTER_DOWNLOAD {Cam}.
Arguments getRecordingsList {Cam}.
Arguments getRecordings {Cam}.
Arguments getTimeCorrection {Cam}.
Arguments executeFunction {Cam}.
Arguments Downloader {Cam}.

Declare Scope py_scope.
Delimit Scope py_scope with py.
Notation "x <- m ;; k" := (bind m (fun x => k))
  (at level 100, m at next level, right associativity) : py_scope.
Notation "m ;;; k" := (bind m (fun _ => k))
  (at level 100, right associativity) : py_scope.

(** ** TransferExecutor, DownloadPlanner: [download_recording] *)

(** What [download_recording] returns: ["skipped"], [True] or [False]. *)
Inductive outcome : Type := Skipped | Downloaded | Failed.

Section Script.
Import PyPath PyOs.
Context {Cam : Type} (E : Env Cam).
Local Open Scope py_scope.

Definition bar_length : Z := 20.

(** [int((progress / total_time) * 100)], for [total_time > 0]. *)
Definition percent_of (progress total_time : Z) : res Z :=
  res_bind (PyFloat.truediv progress total_time) (fun q =>
  PyFloat.to_int (PyFloat.mul_int q 100)).

(** [int(bar_length * percent / 100)]. *)
Definition filled_of (percent : Z) : res Z :=
  res_bind (PyFloat.truediv (bar_length * percent) 100) PyFloat.to_int.

(** One turn of [async for status in downloader.download()]: the new
    value of [last_percent]. *)
Definition progress_step (last_percent : Z) (status : Status) : M Cam Z :=
  let action := currentAction status in
  let progress := default 0 (progress status) in
  let total_time := default 0 (total status) in
  if 0 <? total_time then
    percent <- lift (percent_of progress total_time) ;;
    if (negb (percent =? last_percent) && (percent mod 5 =? 0))%bool then
      filled <- lift (filled_of percent) ;;
      full <- lift (PyStr.repeat_length filled) ;;
      empty <- lift (PyStr.repeat_length (bar_length - filled)) ;;
      print (LPercent action full empty percent) ;;;
      ret percent
    else ret last_percent
  else
    if negb (String.eqb action "Downloading") then
      print (LAction action) ;;; ret last_percent
    else ret last_percent.

Fixpoint consume (last_percent : Z) (statuses : list Status) : M Cam unit :=
  match statuses with
  | [] => ret tt
  | status :: rest =>
      last_percent' <- progress_step last_percent status ;;
      consume last_percent' rest
  end.

(** The body of the [try] of [download_recording]. The downloader's
    effects on the device and the disk are those of its whole run. *)
Definition transfer (start_time end_time : Z) (time_correction : pyval)
  (output_dir filename : string) : M Cam outcome :=
  let req := {| dr_start_time := start_time;
                dr_end_time := end_time;
                dr_time_correction := time_correction;
                dr_output_dir := output_dir +:+ "/";
                dr_fileName := filename;
                dr_window_size := WINDOW_SIZE |} in
  cam <- get_cam ;;
  fs <- get_fs ;;
  emit (StartDownloader req) ;;;
  let t := Downloader E cam fs req in
  set_cam (tr_cam t) ;;;
  set_fs (tr_fs t) ;;;
  consume (-1) (tr_events t) ;;;
  match tr_raised t with
  | Some e => raise e
  | None => print LDownloaded ;;; ret Downloaded
  end.

(** [download_recording(tapo, recording, base_output_dir,
    time_correction, index, total)]. *)
Definition download_recording (recording : pydict) (base_output_dir : string)
  (time_correction : pyval) (index total_count : Z) : M Cam outcome :=
  emit (EnterDownloadRecording recording) ;;;
  start_value <- lift (getitem recording "startTime") ;;
  end_value <- lift (getitem recording "endTime") ;;
  let video_type := dict_get recording "vedio_type" (PStr "unknown") in
  start_time <- lift (as_int start_value) ;;
  end_time <- lift (as_int end_value) ;;
  let duration := end_time - start_time in
  date_folder <- lift (get_date_folder (utcoffset E) start_time) ;;
  let output_dir := join base_output_dir date_folder in
  fs <- get_fs ;;
  fs' <- lift (makedirs fs output_dir) ;;
  set_fs fs' ;;;
  filename <- lift (format_filename (utcoffset E) start_time) ;;
  let filepath := join output_dir filename in
  fs <- get_fs ;;
  if path_exists fs filepath then
    file_size <- lift (getsize fs filepath) ;;
    let display_path := PyStr.replace_sep date_folder in
    print (LSkip index total_count display_path filename) ;;;
    print (LSkipNote file_size) ;;;
    ret Skipped
  else
    let display_path := PyStr.replace_sep date_folder in
    print (LStart index total_count display_path filename) ;;;
    print (LDuration duration video_type) ;;;
    try_except
      (transfer start_time end_time time_correction output_dir filename)
      (fun e => print (LDownloadError e) ;;; ret Failed).

(** ** RetentionManager: [try_delete_recording] *)

Definition delete_attempts (recording : pydict)
  : res (list (string * delete_params)) :=
  res_bind (getitem recording "startTime") (fun s =>
  res_bind (getitem recording "endTime") (fun e =>
  Ok [("deleteRecording", DeleteVideo 0 s e); ("do", Delete s e)])).

(** [for attempt in delete_attempts]: the first call that returns
    wins. *)
Fixpoint run_attempts (attempts : list (string * delete_params)) : M Cam bool :=
  match attempts with
  | [] => print LDeleteUnsupported ;;; ret false
  | (method, params) :: rest =>
      cam <- get_cam ;;
      emit (ExecuteFunction method params) ;;;
      let '(returned, cam') := executeFunction E cam method params in
      set_cam cam' ;;;
      if returned then print LDeleted ;;; ret true
      else run_attempts rest
  end.

(** [try_delete_recording(tapo, recording)]. *)
Definition try_delete_recording (recording : pydict) : M Cam bool :=
  emit (EnterTryDeleteRecording recording) ;;;
  if negb (DELETE_AFTER_DOWNLOAD E) then ret false
  else
    try_except
      (attempts <- lift (delete_attempts recording) ;;
       run_attempts attempts)
      (fun e => print (LDeleteError e) ;;; ret false).

(** ** BatchOrchestrator: [download_all_videos] *)

(** The four counters of [download_all_videos]. *)
Record Counters : Type := mk_counters {
  successful : Z;
  failed : Z;
  skipped : Z;
  deleted : Z
}.

Definition no_counts : Counters :=
  {| successful := 0; failed := 0; skipped := 0; deleted := 0 |}.

(** The [if]/[elif]/[else] on the result of [download_recording]. *)
Definition account (c : Counters) (recording : pydict) (result : outcome)
  : M Cam Counters :=
  match result with
  | Skipped =>
      ret {| successful := successful c; failed := failed c;
             skipped := skipped c + 1; deleted := deleted c |}
  | Downloaded =>
      was_deleted <- try_delete_recording recording ;;
      ret {| successful := successful c + 1; failed := failed c;
             skipped := skipped c;
             deleted := if was_deleted then deleted c + 1 else deleted c |}
  | Failed =>
      ret {| successful := successful c; failed := failed c + 1;
             skipped := skipped c; deleted := deleted c |}
  end.

(** One turn of [for i, recording in enumerate(all_recordings, 1)]. *)
Definition loop_body (output_dir : string) (time_correction : pyval)
  (total_count : Z) (i : Z) (recording : pydict) (c : Counters)
  : M Cam Counters :=
  result <- download_recording recording output_dir time_correction
                               i total_count ;;
  c' <- account c recording result ;;
  (if ((i mod 10 =? 0) || (i =? total_count))%bool then
     print (LProgress (successful c') (skipped c') (failed c')
                      (total_count - i))
   else ret tt) ;;;
  ret c'.

Fixpoint download_loop (output_dir : string) (time_correction : pyval)
  (total_count : Z) (i : Z) (recordings : list pydict) (c : Counters)
  : M Cam Counters :=
  match recordings with
  | [] => ret c
  | recording :: rest =>
      c' <- loop_body output_dir time_correction total_count i recording c ;;
      download_loop output_dir time_correction total_count (i + 1) rest c'
  end.

(** A camera method called from the script. *)
Definition query (ev : Event) (method : Cam -> res pyval * Cam) : M Cam pyval :=
  emit ev ;;;
  cam <- get_cam ;;
  let '(r, cam') := method cam in
  set_cam cam' ;;;
  lift r.

(** [sum(r['endTime'] - r['startTime'] for r in recordings)]. *)
Fixpoint sum_durations (recordings : list pydict) (acc : Z) : res Z :=
  match recordings with
  | [] => Ok acc
  | r :: rest =>
      res_bind (getitem r "endTime") (fun e =>
      res_bind (getitem r "startTime") (fun s =>
      res_bind (as_int e) (fun e' =>
      res_bind (as_int s) (fun s' =>
      sum_durations rest (acc + (e' - s'))))))
  end.

(** [for date in dates]: the recordings collected so far and their total
    duration. *)
Fixpoint collect (dates : list pyval) (all_recordings : list pydict)
  (total_duration : Z) : M Cam (list pydict * Z) :=
  match dates with
  | [] => ret (all_recordings, total_duration)
  | date :: rest =>
      recordings_data <- query (GetRecordings date)
                               (fun cam => getRecordings E cam date) ;;
      let recordings := extract_recordings recordings_data in
      date_duration <- lift (sum_durations recordings 0) ;;
      print (LDateSummary date (Z.of_nat (length recordings))
                          (date_duration / 60) (date_duration mod 60)) ;;;
      collect rest (all_recordings ++ recordings)
              (total_duration + date_duration)
  end.

(** [download_all_videos(tapo, output_dir)]. *)
Definition download_all_videos (output_dir : string) : M Cam unit :=
  print LScanning ;;;
  fs <- get_fs ;;
  fs' <- lift (makedirs fs output_dir) ;;
  set_fs fs' ;;;
  print (LOutputFolder output_dir) ;;;
  dates_data <- query GetRecordingsList (getRecordingsList E) ;;
  let dates := extract_dates dates_data in
  print (LFoundDates (Z.of_nat (length dates))) ;;;
  match dates with
  | [] => print LNoRecordingsFound
  | _ =>
      collected <- collect dates [] 0 ;;
      let '(all_recordings, total_duration) := collected in
      let total_count := Z.of_nat (length all_recordings) in
      print (LTotals total_count (total_duration / 3600)
                     ((total_duration mod 3600) / 60)
                     (total_duration mod 60) output_dir) ;;;
      if total_count =? 0 then print LNothingToDownload
      else
        time_correction <- query GetTimeCorrection (getTimeCorrection E) ;;
        print LStarting ;;;
        (if DELETE_AFTER_DOWNLOAD E then print LDeleteWarning else ret tt) ;;;
        c <- download_loop output_dir time_correction total_count 1
                           all_recordings no_counts ;;
        print (LCompleted (successful c) (skipped c) (failed c)
                 (if DELETE_AFTER_DOWNLOAD E then Some (deleted c) else None)
                 output_dir) ;;;
        if 0 <? successful c then print (LFilenameHint output_dir)
        else ret tt
  end.
End Script.

(** ** Entry point: [main]

    The parsed command line, the process and what [main] prints itself.
    Interrupts from the keyboard are asynchronous and are not part of the
    model, so the handler for them is left out; every exception of the
    model derives from [Exception] and reaches the second handler. *)

(** [args], as [parse_arguments] returns it. *)
Record Args : Type := mk_args {
  args_ip : string;
  args_password : string;
  args_user : string;
  args_output : string;
  args_delete : bool
}.

(** The lines [main] prints. *)
Inductive Report : Type :=
  | RTitle
  | RRule (width : Z)
  | RCamera (ip : string)
  | RUser (user : string)
  | ROutput (output : string)
  | RDeleteAfterDownload (delete : bool)
  | RConnecting
  | RConnected
  | RCriticalError (e : exn)
  | RCheckSettings
  | RTraceback (e : exn).

Section Main.
Variable Cam : Type.

(** The process [main] runs in: the module with its delete flag as
    loaded and the [tapo] object's methods, and the constructor
    [Tapo(host, user, password, cloudPassword)], which talks to the device
    and returns or raises. *)
Record Host : Type := mk_host {
  host_env : Env Cam;
  Tapo : string -> string -> string -> string -> Cam -> option exn * Cam
}.

(** [global DELETE_AFTER_DOWNLOAD; DELETE_AFTER_DOWNLOAD = args.delete]. *)
Definition set_delete_flag (E : Env Cam) (delete : bool) : Env Cam :=
  {| utcoffset := utcoffset E;
     DELETE_AFTER_DOWNLOAD := delete;
     getRecordingsList := getRecordingsList E;
     getRecordings := getRecordings E;
     getTimeCorrection := getTimeCorrection E;
     executeFunction := executeFunction E;
     Downloader := Downloader E |}.

(** The three lines of [except Exception as e]. *)
Definition critical (e : exn) : list Report :=
  [RCriticalError e; RCheckSettings; RTraceback e].

(** [main()], after [parse_arguments()]: everything that is printed, the
    lines of [main] and the events of the batch in the order they occur,
    and the disk and the device as they are left. *)
Definition main (H : Host) (args : Args) (fs : PyOs.FS) (cam : Cam)
  : list (Report + Event) * World Cam :=
  let E := set_delete_flag (host_env H) (args_delete args) in
  let banner :=
    [RTitle; RRule 50; RCamera (args_ip args); RUser (args_user args);
     ROutput (args_output args); RDeleteAfterDownload (args_delete args);
     RRule 50; RConnecting] in
  let '(failure, cam1) :=
    Tapo H (args_ip args) (args_user args) (args_password args)
         (args_password args) cam in
  let w1 := {| w_fs := fs; w_cam := cam1; w_trace := [] |} in
  match failure with
  | Some e => (map inl (banner ++ critical e), w1)
  | None =>
      let '(result, w2) := download_all_videos E (args_output args) w1 in
      (map inl (banner ++ [RConnected]) ++ map inr (w_trace w2)
         ++ match result with
            | Ok _ => []
            | Raise e => map inl (critical e)
            end,
       w2)
  end.
End Main.

Arguments host_env {Cam}.
Arguments Tapo {Cam}.
Arguments set_delete_flag {Cam} E delete.
Arguments main {Cam} H args fs cam.

(** ** A sample camera

    A device with one date and three recordings, a downloader that writes
    the requested file unless the recording starts at 1721829200 (that
    transfer breaks off halfway), and a firmware that only understands the
    second deletion request. It serves as the concrete instance in the
    examples below. *)

Module Sample.
Import PyOs.

Definition recording (start_time end_time : Z) : pydict :=
  [("startTime", PInt start_time); ("endTime", PInt end_time);
   ("vedio_type", PInt 2)].

Definition rec_a : pydict := recording 1721829154 1721829184.
Definition rec_b : pydict := recording 1721829200 1721829230.
Definition rec_c : pydict := recording 1721829300 1721829330.

Definition dates_response : pyval :=
  PList [PDict [("search_results_1", PDict [("date", PStr "20240724")])]].

Definition recordings_response : pyval :=
  PList [PDict [("search_video_results_1", PDict rec_a)];
         PDict [("firmware_note", PStr "v1.3");
                ("search_video_results_2", PDict rec_b)];
         PDict [("search_video_results_3", PDict rec_c)]].

Definition status (action : string) (p t : Z) : Status :=
  {| currentAction := action; progress := Some p; total := Some t |}.

Definition new_file : node := {| n_isdir := false; n_size := 1048576 |}.

(** The device state counts the transfers started so far. *)
Definition sample_downloader (cam : nat) (fs : FS) (req : DownloadReq)
  : Transfer nat :=
  if dr_start_time req =? 1721829200 then
    {| tr_events := [status "Connecting" 0 0; status "Downloading" 10 30];
       tr_raised := Some (CameraError "stream closed");
       tr_cam := S cam; tr_fs := fs |}
  else
    {| tr_events := [status "Connecting" 0 0; status "Downloading" 0 30;
                     status "Downloading" 15 30; status "Downloading" 30 30;
                     status "Converting" 0 0];
       tr_raised := None;
       tr_cam := S cam;
       tr_fs := <[dr_output_dir req +:+ dr_fileName req := new_file]> fs |}.

Definition env (delete : bool) : Env nat :=
  {| utcoffset := fun _ => 7200;
     DELETE_AFTER_DOWNLOAD := delete;
     getRecordingsList := fun cam => (Ok dates_response, cam);
     getRecordings := fun cam _ => (Ok recordings_response, cam);
     getTimeCorrection := fun cam => (Ok (PInt 0), cam);
     executeFunction := fun cam method _ => (String.eqb method "do", cam);
     Downloader := sample_downloader |}.

Definition empty_disk : FS := ∅.

Definition start (fs : FS) : World nat :=
  {| w_fs := fs; w_cam := O; w_trace := [] |}.

Definition videos : string := "/videos".

End Sample.

(** ** Definitions used to state the properties *)

(** [f] holds of every integer in [0, n). *)
Fixpoint all_below (n : nat) (f : Z -> bool) : bool :=
  match n with
  | O => true
  | S k => f (Z.of_nat k) && all_below k f
  end.

(** A decimal field of exactly [w] digits: the [w] low digits of [n],
    most significant first. *)
Fixpoint digits (w : nat) (n : Z) : string :=
  match w with
  | O => ""
  | S k => digits k (n / 10) +:+ String (PyStr.digit_char (n mod 10)) ""
  end.

(** Does a separator occur in [s]? *)
Fixpoint has_sep (s : string) : bool :=
  match s with
  | EmptyString => false
  | String c rest => PyStr.is_sep c || has_sep rest
  end.

(** Month in 1..12 and day in 1..31 for day [n] of a year. *)
Definition month_day_ok (leapyear : bool) (n : Z) : bool :=
  let '(m, d) := PyTime.month_day n leapyear in
  (1 <=? m) && (m <=? 12) && (1 <=? d) && (d <=? 31).

(** The fields of a [datetime] are those of a calendar date and a time of
    day. *)
Definition calendar_fields (dt : PyTime.datetime) : Prop :=
  1 <= PyTime.year dt <= 9999 /\ 1 <= PyTime.month dt <= 12 /\
  1 <= PyTime.day dt <= 31 /\ 0 <= PyTime.hour dt <= 23 /\
  0 <= PyTime.minute dt <= 59 /\ 0 <= PyTime.second dt <= 59.

(** [Y/MM/DD]: the year in decimal, two-digit month and day. *)
Definition date_dir (dt : PyTime.datetime) : string :=
  PyStr.dec (PyTime.year dt) +:+ "/" +:+ digits 2 (PyTime.month dt) +:+ "/"
    +:+ digits 2 (PyTime.day dt).

(** [YMMDD_HHMMSS], the year in decimal. *)
Definition stamp (dt : PyTime.datetime) : string :=
  PyStr.dec (PyTime.year dt) +:+ digits 2 (PyTime.month dt)
    +:+ digits 2 (PyTime.day dt) +:+ "_" +:+ digits 2 (PyTime.hour dt)
    +:+ digits 2 (PyTime.minute dt) +:+ digits 2 (PyTime.second dt).

(** The two times of a recording, read and checked in the order
    [download_recording] does it. *)
Definition recording_times (recording : pydict) : res (Z * Z) :=
  res_bind (getitem recording "startTime") (fun start_value =>
  res_bind (getitem recording "endTime") (fun end_value =>
  res_bind (as_int start_value) (fun start_time =>
  res_bind (as_int end_value) (fun end_time =>
  Ok (start_time, end_time))))).

(** Where a recording is stored: the date folder, the folder it is
    written to, the file name and the full path, as [download_recording]
    computes them from [start_time]. *)
Record Artifact : Type := mk_artifact {
  art_date_folder : string;
  art_output_dir : string;
  art_filename : string;
  art_filepath : string
}.

Definition plan (utcoffset : Z -> Z) (base_output_dir : string)
  (start_time : Z) : res Artifact :=
  res_bind (get_date_folder utcoffset start_time) (fun date_folder =>
  res_bind (format_filename utcoffset start_time) (fun filename =>
  let output_dir := PyPath.join base_output_dir date_folder in
  Ok {| art_date_folder := date_folder;
        art_output_dir := output_dir;
        art_filename := filename;
        art_filepath := PyPath.join output_dir filename |})).

(** Every path on disk lies under directories that are on disk too. *)
Definition fs_wf (fs : PyOs.FS) : bool :=
  forallb (fun p => forallb (PyOs.isdir fs) (PyPath.ancestors p))
          (map fst (map_to_list fs)).

(** The events of a deletion attempt. *)
Definition is_delete_event (ev : Event) : bool :=
  match ev with
  | EnterTryDeleteRecording _ | ExecuteFunction _ _ => true
  | _ => false
  end.

(** A request sent to the camera to delete something. *)
Definition is_delete_request (ev : Event) : bool :=
  match ev with
  | ExecuteFunction _ _ => true
  | _ => false
  end.

(** The start of a transfer. *)
Definition is_transfer_event (ev : Event) : bool :=
  match ev with
  | StartDownloader _ => true
  | _ => false
  end.

(** Recordings handled so far, as the counters tell. *)
Definition processed (c : Counters) : Z := successful c + skipped c + failed c.

(** The world after some more events. *)
Definition with_trace {Cam} (w : World Cam) (delta : list Event) : World Cam :=
  {| w_fs := w_fs w; w_cam := w_cam w; w_trace := w_trace w ++ delta |}.

(** The percentages shown by the progress lines of a trace. *)
Definition percents_shown (delta : list Event) : list Z :=
  flat_map (fun ev => match ev with
                      | Print (LPercent _ _ _ percent) => [percent]
                      | _ => []
                      end) delta.

(** The action labels reported by a trace. *)
Definition actions_shown (delta : list Event) : list string :=
  flat_map (fun ev => match ev with
                      | Print (LAction action) => [action]
                      | _ => []
                      end) delta.

(** The value read for [total]. *)
Definition total_of (status : Status) : Z := default 0 (total status).

(** The percentage derived from a status. *)
Definition percent_at (status : Status) : res Z :=
  percent_of (default 0 (progress status)) (total_of status).

(** The bar drawn for a percentage: the numbers of its filled and of its
    empty cells, when both parts can be built. *)
Definition bar_of (percent : Z) : res (Z * Z) :=
  res_bind (filled_of percent) (fun filled =>
  res_bind (PyStr.repeat_length filled) (fun full =>
  res_bind (PyStr.repeat_length (bar_length - filled)) (fun empty =>
  Ok (full, empty)))).

(** No two neighbours of the list are equal. *)
Fixpoint distinct_neighbours (l : list Z) : Prop :=
  match l with
  | a :: (b :: _) as rest => a <> b /\ distinct_neighbours rest
  | _ => True
  end.

(** The percentages of the statuses never decrease, starting from [lo],
    and stay within 0..100. Statuses without a total carry none; a
    percentage that cannot be computed ends the transfer. *)
Fixpoint steady (lo : Z) (statuses : list Status) : bool :=
  match statuses with
  | [] => true
  | status :: rest =>
      if 0 <? total_of status then
        match percent_at status with
        | Ok q => (lo <=? q) && (q <=? 100) && steady q rest
        | Raise _ => true
        end
      else steady lo rest
  end.

(** What one transfer prints for the statuses it is given, on a device
    and a disk that play no part in it. *)
Definition progress_output (statuses : list Status) : list Event :=
  w_trace (snd (consume (-1) statuses
                        {| w_fs := ∅; w_cam := tt; w_trace := [] |})).

(** The labels at which the action changes from the one seen before. *)
Fixpoint label_changes (prev : option string) (statuses : list Status)
  : list string :=
  match statuses with
  | [] => []
  | status :: rest =>
      let action := currentAction status in
      (if match prev with
          | Some p => String.eqb p action
          | None => false
          end
       then [] else [action]) ++ label_changes (Some action) rest
  end.

(** Progress is reported by crossing 5-point boundaries only, at most 20
    times in a transfer. *)
Definition at_most_20_percent_reports : Prop :=
  forall statuses,
    Forall (fun status => 0 < total_of status) statuses ->
    Forall (fun q => q mod 5 = 0) (percents_shown (progress_output statuses)) /\
    (length (percents_shown (progress_output statuses)) <= 20)%nat.

(** Without a total, only changes of the action label are reported, and
    no percentage. *)
Definition reports_label_changes_only : Prop :=
  forall statuses,
    Forall (fun status => total_of status = 0) statuses ->
    sublist (actions_shown (progress_output statuses))
            (label_changes None statuses) /\
    percents_shown (progress_output statuses) = [].

(** A transfer that goes from 0 to 100 percent in steps of 5. *)
Definition twenty_one_steps : list Status :=
  map (fun k => {| currentAction := "Downloading";
                   progress := Some (5 * Z.of_nat k);
                   total := Some 100 |}) (seq 0 21).

(** Two statuses in a row with the same label and no total. *)
Definition connecting_twice : list Status :=
  [{| currentAction := "Connecting"; progress := Some 0; total := Some 0 |};
   {| currentAction := "Connecting"; progress := Some 0; total := Some 0 |}].

(** A world with nothing on disk and nothing printed yet. *)
Definition blank : World unit := {| w_fs := ∅; w_cam := tt; w_trace := [] |}.

(** What [download_recording] may print or call after it is entered. *)
Definition recording_event (ev : Event) : bool :=
  match ev with
  | Print (LSkip _ _ _ _) | Print (LSkipNote _) | Print (LStart _ _ _ _)
  | Print (LDuration _ _) | Print (LPercent _ _ _ _) | Print (LAction _)
  | Print LDownloaded | Print (LDownloadError _) | StartDownloader _ => true
  | _ => false
  end.

(** What a deletion attempt may print or call after it is entered. *)
Definition deletion_event (ev : Event) : bool :=
  match ev with
  | ExecuteFunction _ _ | Print LDeleted | Print LDeleteUnsupported
  | Print (LDeleteError _) => true
  | _ => false
  end.

(** Exactly one of the three outcome counters went up, by one. *)
Definition counted_once (c c' : Counters) : Prop :=
  (successful c' = successful c + 1 /\ skipped c' = skipped c /\
   failed c' = failed c) \/
  (successful c' = successful c /\ skipped c' = skipped c + 1 /\
   failed c' = failed c /\ deleted c' = deleted c) \/
  (successful c' = successful c /\ skipped c' = skipped c /\
   failed c' = failed c + 1 /\ deleted c' = deleted c).

(** In the events of one turn of the loop, a deletion is attempted only
    right after the success line of that recording's own transfer. *)
Definition deletion_follows_download (recording : pydict) (delta : list Event)
  : Prop :=
  Forall (fun ev => is_delete_event ev = false) delta \/
  exists pre req post,
    delta = EnterDownloadRecording recording :: pre
              ++ [Print LDownloaded; EnterTryDeleteRecording recording] ++ post /\
    Forall (fun ev => recording_event ev = true) pre /\
    In (StartDownloader req) pre /\
    Forall (fun ev => match ev with
                      | EnterTryDeleteRecording _ | EnterDownloadRecording _
                      | StartDownloader _ => False
                      | _ => True
                      end) post.

(** The file of the recording is on disk. *)
Definition on_disk (utcoffset : Z -> Z) (base_output_dir : string)
  (fs : PyOs.FS) (recording : pydict) : Prop :=
  exists start_time end_time art,
    recording_times recording = Ok (start_time, end_time) /\
    plan utcoffset base_output_dir start_time = Ok art /\
    PyOs.path_exists fs (art_filepath art) = true.

Definition add_skipped (c : Counters) (n : Z) : Counters :=
  {| successful := successful c; failed := failed c;
     skipped := skipped c + n; deleted := deleted c |}.

Definition add_failed (c : Counters) (n : Z) : Counters :=
  {| successful := successful c; failed := failed c + n;
     skipped := skipped c; deleted := deleted c |}.

(** The statistics line of turn [i], if it is due. *)
Definition progress_line (total_count i : Z) (c : Counters) : list Event :=
  if ((i mod 10 =? 0) || (i =? total_count))%bool then
    [Print (LProgress (successful c) (skipped c) (failed c) (total_count - i))]
  else [].

(** The two lines the transfer loop prints. *)
Definition is_progress_line (l : Line) : bool :=
  match l with
  | LPercent _ _ _ _ | LAction _ => true
  | _ => false
  end.

(** The request [download_recording] builds. *)
Definition request (start_time end_time : Z) (time_correction : pyval)
  (output_dir filename : string) : DownloadReq :=
  {| dr_start_time := start_time;
     dr_end_time := end_time;
     dr_time_correction := time_correction;
     dr_output_dir := output_dir +:+ "/";
     dr_fileName := filename;
     dr_window_size := WINDOW_SIZE |}.

(** With the delete flag off, a run never enters a deletion attempt and
    the [deleted] counter stays 0. *)
Definition never_enters_deletion_when_off : Prop :=
  forall (Cam : Type) (E : Env Cam) out tc total_count recs (w : World Cam),
    DELETE_AFTER_DOWNLOAD E = false ->
    w_trace w = [] ->
    Forall (fun ev => is_delete_event ev = false)
           (w_trace (snd (download_loop E out tc total_count 1 recs no_counts w))) /\
    forall c, fst (download_loop E out tc total_count 1 recs no_counts w) = Ok c ->
              deleted c = 0.

(** The disk the sample camera leaves after a first run: the two files
    that came through, in their date folder. *)
Definition sample_archive : PyOs.FS :=
  list_to_map
    [("/videos", PyOs.new_directory);
     ("/videos/2024", PyOs.new_directory);
     ("/videos/2024/07", PyOs.new_directory);
     ("/videos/2024/07/24", PyOs.new_directory);
     ("/videos/2024/07/24/20240724_155234-1721829154.mp4", Sample.new_file);
     ("/videos/2024/07/24/20240724_155500-1721829300.mp4", Sample.new_file)].

(** The date an entry contributes: the [date] field of a mapping filed
    under a [search_results_] key. *)
Definition date_of_entry (kv : string * pyval) : list pyval :=
  let '(key, value) := kv in
  if PyStr.startswith "search_results_" key then
    match value with
    | PDict fields =>
        match dict_find "date" fields with Some d => [d] | None => [] end
    | _ => []
    end
  else [].

(** The recording an entry contributes: a mapping filed under a
    [search_video_results_] key that has both times. *)
Definition recording_of_entry (kv : string * pyval) : list pydict :=
  let '(key, value) := kv in
  if PyStr.startswith "search_video_results_" key then
    match value with
    | PDict fields =>
        if (dict_has "startTime" fields && dict_has "endTime" fields)%bool
        then [fields] else []
    | _ => []
    end
  else [].

(** The entries of a mapping; anything else has none. *)
Definition entries_of_item (item : pyval) : pydict :=
  match item with
  | PDict entries => entries
  | _ => []
  end.

(** The entries of a response that is a sequence of mappings. *)
Definition entries_in_sequence (response : pyval) : pydict :=
  match response with
  | PList items => flat_map entries_of_item items
  | _ => []
  end.

(** The entries of a response of any shape: those of a mapping of
    mappings, or those of the mappings of a sequence. *)
Definition entries_of_any_shape (response : pyval) : pydict :=
  match response with
  | PDict entries => entries
  | PList items => flat_map entries_of_item items
  | _ => []
  end.

(** The extractors take the recognised entries of a response of any
    shape. *)
Definition extracts_from_any_shape : Prop :=
  forall response,
    extract_dates response = flat_map date_of_entry (entries_of_any_shape response) /\
    extract_recordings response =
      flat_map recording_of_entry (entries_of_any_shape response).

(** A response that is itself a mapping of mappings. *)
Definition bare_mapping : pyval :=
  PDict [("search_results_1", PDict [("date", PStr "20240724")])].

(** ** Definitions used to state the further properties *)

(** What [download_recording] works out before it looks at the disk for
    the file: the two times, the planned artifact, and the disk with the
    date folder made. *)
Definition prepare (utcoffset : Z -> Z) (base_output_dir : string)
  (fs : PyOs.FS) (recording : pydict) : res (Z * Z * Artifact * PyOs.FS) :=
  res_bind (recording_times recording) (fun times =>
  res_bind (plan utcoffset base_output_dir (fst times)) (fun art =>
  res_bind (PyOs.makedirs fs (art_output_dir art)) (fun fs1 =>
  Ok (fst times, snd times, art, fs1)))).

(** The first two lines of a transfer and the start of the downloader. *)
Definition transfer_header (recording : pydict) (time_correction : pyval)
  (index total_count s e : Z) (art : Artifact) : list Event :=
  [EnterDownloadRecording recording;
   Print (LStart index total_count (PyStr.replace_sep (art_date_folder art))
                 (art_filename art));
   Print (LDuration (e - s) (dict_get recording "vedio_type" (PStr "unknown")));
   StartDownloader (request s e time_correction (art_output_dir art)
                            (art_filename art))].

(** The two requests [try_delete_recording] has in store for a recording
    with times [sv] and [ev], in the order it tries them. *)
Definition deletion_requests (sv ev : pyval) : list Event :=
  [ExecuteFunction "deleteRecording" (DeleteVideo 0 sv ev);
   ExecuteFunction "do" (Delete sv ev)].

(** The line that ends a deletion attempt. *)
Definition deletion_verdict (b : bool) : Event :=
  Print (if b then LDeleted else LDeleteUnsupported).

(** The counters after a download, with or without a deletion. *)
Definition add_downloaded (c : Counters) (was_deleted : bool) : Counters :=
  {| successful := successful c + 1; failed := failed c;
     skipped := skipped c;
     deleted := if was_deleted then deleted c + 1 else deleted c |}.

(** What a deletion attempt adds to the trace, and whether it deleted:
    with the flag off only the entry; otherwise the entry, one or both
    requests (both when nothing was deleted) and the verdict. *)
Definition deletion_shape (recording : pydict) (b : bool) (dd : list Event)
  : Prop :=
  (b = false /\ dd = [EnterTryDeleteRecording recording]) \/
  exists sv ev k,
    getitem recording "startTime" = Ok sv /\
    getitem recording "endTime" = Ok ev /\
    (k = 1 \/ k = 2)%nat /\ (b = false -> k = 2%nat) /\
    dd = EnterTryDeleteRecording recording
           :: firstn k (deletion_requests sv ev) ++ [deletion_verdict b].

(** The events of one turn of the loop that ran to its end, and the
    counters it leaves: a skip, a failed transfer, or a download followed
    by a deletion attempt; the statistics line, when due, comes last. *)
Definition turn_shape (utcoffset : Z -> Z) (base_output_dir : string)
  (recording : pydict) (time_correction : pyval)
  (total_count i : Z) (c c' : Counters) (delta : list Event) : Prop :=
  exists s e art,
    recording_times recording = Ok (s, e) /\
    plan utcoffset base_output_dir s = Ok art /\
    ((exists size,
        c' = add_skipped c 1 /\
        delta = [EnterDownloadRecording recording;
                 Print (LSkip i total_count
                          (PyStr.replace_sep (art_date_folder art))
                          (art_filename art));
                 Print (LSkipNote size)]
                ++ progress_line total_count i c') \/
     (exists lines x,
        forallb is_progress_line lines = true /\
        c' = add_failed c 1 /\
        delta = transfer_header recording time_correction i total_count s e art
                ++ map Print lines ++ [Print (LDownloadError x)]
                ++ progress_line total_count i c') \/
     (exists lines b dd,
        forallb is_progress_line lines = true /\
        deletion_shape recording b dd /\
        c' = add_downloaded c b /\
        delta = transfer_header recording time_correction i total_count s e art
                ++ map Print lines ++ [Print LDownloaded] ++ dd
                ++ progress_line total_count i c')).

(** The recordings a trace enters [download_recording] with, in order. *)
Definition entered (delta : list Event) : list pydict :=
  flat_map (fun ev => match ev with
                      | EnterDownloadRecording r => [r]
                      | _ => []
                      end) delta.

(** The [index/total] pairs of the lines that announce a recording. *)
Definition headers (delta : list Event) : list (Z * Z) :=
  flat_map (fun ev => match ev with
                      | Print (LSkip i n _ _) | Print (LStart i n _ _) => [(i, n)]
                      | _ => []
                      end) delta.

(** The requests given to the downloader, in order. *)
Definition transfers (delta : list Event) : list DownloadReq :=
  flat_map (fun ev => match ev with
                      | StartDownloader req => [req]
                      | _ => []
                      end) delta.

(** How many events of a kind a trace holds. *)
Definition count_events (p : Event -> bool) (delta : list Event) : Z :=
  Z.of_nat (length (List.filter p delta)).

Definition is_downloaded_line (ev : Event) : bool :=
  match ev with Print LDownloaded => true | _ => false end.

Definition is_skip_line (ev : Event) : bool :=
  match ev with Print (LSkip _ _ _ _) => true | _ => false end.

Definition is_error_line (ev : Event) : bool :=
  match ev with Print (LDownloadError _) => true | _ => false end.

Definition is_deleted_line (ev : Event) : bool :=
  match ev with Print LDeleted => true | _ => false end.

Definition is_deletion_error_line (ev : Event) : bool :=
  match ev with Print (LDeleteError _) => true | _ => false end.

Definition is_statistics_line (ev : Event) : bool :=
  match ev with Print (LProgress _ _ _ _) => true | _ => false end.

(** A request for the downloader as [download_recording] plans it for one
    of the recordings. *)
Definition planned_request (utcoffset : Z -> Z) (base_output_dir : string)
  (time_correction : pyval) (recordings : list pydict) (req : DownloadReq)
  : Prop :=
  exists r s e art,
    In r recordings /\ recording_times r = Ok (s, e) /\
    plan utcoffset base_output_dir s = Ok art /\
    req = request s e time_correction (art_output_dir art) (art_filename art).

(** The [index/total] pairs of [k] recordings numbered from [i]. *)
Definition numbering (i total_count : Z) (k : nat) : list (Z * Z) :=
  map (fun j => (i + Z.of_nat j, total_count)) (seq 0 k).

(** The digit a character stands for. *)
Definition digit_value (c : ascii) : Z := Z.of_nat (nat_of_ascii c) - 48.

(** The number a run of decimal digits denotes, read on top of [acc]. *)
Fixpoint read_digits (acc : Z) (s : string) : Z :=
  match s with
  | EmptyString => acc
  | String c rest => read_digits (10 * acc + digit_value c) rest
  end.

(** The integer a decimal numeral denotes, with its sign. *)
Definition read_int (s : string) : Z :=
  match s with
  | String c rest =>
      if Ascii.eqb c "-" then - read_digits 0 rest else read_digits 0 s
  | EmptyString => 0
  end.

(** Does the character occur in the string? *)
Fixpoint has_char (c : ascii) (s : string) : bool :=
  match s with
  | EmptyString => false
  | String x rest => Ascii.eqb x c || has_char c rest
  end.

(** A decimal digit, and a string of decimal digits. *)
Definition is_digit (c : ascii) : bool :=
  (48 <=? nat_of_ascii c)%nat && (nat_of_ascii c <=? 57)%nat.

Fixpoint all_digits (s : string) : bool :=
  match s with
  | EmptyString => true
  | String x rest => is_digit x && all_digits rest
  end.

(** The part of a string after its first dash, [s.split("-", 1)[1]]; a
    string without a dash has none. *)
Fixpoint after_dash (s : string) : string :=
  match s with
  | EmptyString => EmptyString
  | String c rest => if Ascii.eqb c "-" then rest else after_dash rest
  end.

(** The part of a string before its first underscore,
    [s.split("_", 1)[0]]. *)
Fixpoint before_underscore (s : string) : string :=
  match s with
  | EmptyString => EmptyString
  | String c rest =>
      if Ascii.eqb c "_" then EmptyString else String c (before_underscore rest)
  end.

(** A path written without its separators, [s.replace("/", "")]. *)
Fixpoint without_sep (s : string) : string :=
  match s with
  | EmptyString => EmptyString
  | String c rest =>
      if PyStr.is_sep c then without_sep rest else String c (without_sep rest)
  end.

(** The number written in a file name between its first dash and the four
    characters of the extension. *)
Definition timestamp_of_filename (name : string) : Z :=
  let tail := after_dash name in
  read_int (substring 0 (String.length tail - 4) tail).

(** The calls that read the catalog or the clock of the camera. *)
Definition is_query (ev : Event) : bool :=
  match ev with
  | GetRecordingsList | GetRecordings _ | GetTimeCorrection => true
  | _ => false
  end.

Definition queries (delta : list Event) : list Event :=
  List.filter is_query delta.

(** What the loop over the dates adds to the trace. *)
Definition is_catalog_event (ev : Event) : bool :=
  match ev with
  | GetRecordings _ | Print (LDateSummary _ _ _ _) => true
  | _ => false
  end.

(** What the download loop adds to the trace. *)
Definition is_loop_event (ev : Event) : bool :=
  match ev with
  | EnterDownloadRecording _ | EnterTryDeleteRecording _
  | StartDownloader _ | ExecuteFunction _ _ => true
  | Print l =>
      match l with
      | LSkip _ _ _ _ | LSkipNote _ | LStart _ _ _ _ | LDuration _ _
      | LPercent _ _ _ _ | LAction _ | LDownloaded | LDownloadError _
      | LDeleted | LDeleteUnsupported | LProgress _ _ _ _ => true
      | _ => false
      end
  | _ => false
  end.

(** Both times of the recording can be read as integers. *)
Definition readable (recording : pydict) : Prop :=
  exists s e, recording_times recording = Ok (s, e).

(** The parts of the trace of [download_all_videos] that do not depend on
    the recordings. *)
Definition run_head (output_dir : string) : list Event :=
  [Print LScanning; Print (LOutputFolder output_dir); GetRecordingsList].

Definition found_line (dates : list pyval) : Event :=
  Print (LFoundDates (Z.of_nat (length dates))).

Definition totals_line (output_dir : string) (recordings : list pydict)
  (total_duration : Z) : Event :=
  Print (LTotals (Z.of_nat (length recordings)) (total_duration / 3600)
                 ((total_duration mod 3600) / 60) (total_duration mod 60)
                 output_dir).

Definition loop_start (delete : bool) : list Event :=
  [GetTimeCorrection; Print LStarting]
    ++ (if delete then [Print LDeleteWarning] else []).

Definition run_tail (delete : bool) (output_dir : string) (c : Counters)
  : list Event :=
  Print (LCompleted (successful c) (skipped c) (failed c)
                    (if delete then Some (deleted c) else None) output_dir)
    :: (if 0 <? successful c then [Print (LFilenameHint output_dir)] else []).

(** The ways a run of [download_all_videos] from a world [w] can end, with
    the result and the events of each: the output folder cannot be made;
    the list of dates cannot be read; there are no dates; reading the
    recordings of a date or adding up their durations raises; there are no
    recordings; the time correction cannot be read; the loop raises; the
    loop returns. *)
Inductive anatomy {Cam : Type} (E : Env Cam) (out : string) (w : World Cam)
  : res unit -> list Event -> Prop :=
  | no_folder x :
      PyOs.makedirs (w_fs w) out = Raise x ->
      anatomy E out w (Raise x) [Print LScanning]
  | no_list x fs1 :
      PyOs.makedirs (w_fs w) out = Ok fs1 ->
      fst (getRecordingsList E (w_cam w)) = Raise x ->
      anatomy E out w (Raise x) (run_head out)
  | no_dates v fs1 :
      PyOs.makedirs (w_fs w) out = Ok fs1 ->
      fst (getRecordingsList E (w_cam w)) = Ok v ->
      extract_dates v = [] ->
      anatomy E out w (Ok tt)
        (run_head out ++ [found_line []; Print LNoRecordingsFound])
  | catalog_raises x v fs1 cdelta k :
      PyOs.makedirs (w_fs w) out = Ok fs1 ->
      fst (getRecordingsList E (w_cam w)) = Ok v ->
      forallb is_catalog_event cdelta = true ->
      (k < length (extract_dates v))%nat ->
      queries cdelta = map GetRecordings (firstn (S k) (extract_dates v)) ->
      anatomy E out w (Raise x)
        (run_head out ++ found_line (extract_dates v) :: cdelta)
  | no_recordings v fs1 cdelta :
      PyOs.makedirs (w_fs w) out = Ok fs1 ->
      fst (getRecordingsList E (w_cam w)) = Ok v ->
      extract_dates v <> [] ->
      forallb is_catalog_event cdelta = true ->
      queries cdelta = map GetRecordings (extract_dates v) ->
      anatomy E out w (Ok tt)
        (run_head out ++ found_line (extract_dates v) :: cdelta
           ++ [totals_line out [] 0; Print LNothingToDownload])
  | no_correction x v fs1 cdelta recs total :
      PyOs.makedirs (w_fs w) out = Ok fs1 ->
      fst (getRecordingsList E (w_cam w)) = Ok v ->
      forallb is_catalog_event cdelta = true ->
      queries cdelta = map GetRecordings (extract_dates v) ->
      recs <> [] -> Forall readable recs ->
      sum_durations recs 0 = Ok total ->
      anatomy E out w (Raise x)
        (run_head out ++ found_line (extract_dates v) :: cdelta
           ++ [totals_line out recs total; GetTimeCorrection])
  | loop_raises x v fs1 cdelta recs total tc w5 ldelta :
      PyOs.makedirs (w_fs w) out = Ok fs1 ->
      fst (getRecordingsList E (w_cam w)) = Ok v ->
      forallb is_catalog_event cdelta = true ->
      queries cdelta = map GetRecordings (extract_dates v) ->
      recs <> [] -> Forall readable recs ->
      sum_durations recs 0 = Ok total ->
      fst (download_loop E out tc (Z.of_nat (length recs)) 1 recs no_counts w5)
        = Raise x ->
      w_trace (snd (download_loop E out tc (Z.of_nat (length recs)) 1 recs
                      no_counts w5)) = w_trace w5 ++ ldelta ->
      anatomy E out w (Raise x)
        (run_head out ++ found_line (extract_dates v) :: cdelta
           ++ totals_line out recs total
           :: loop_start (DELETE_AFTER_DOWNLOAD E) ++ ldelta)
  | completed v fs1 cdelta recs total tc w5 ldelta c :
      PyOs.makedirs (w_fs w) out = Ok fs1 ->
      fst (getRecordingsList E (w_cam w)) = Ok v ->
      forallb is_catalog_event cdelta = true ->
      queries cdelta = map GetRecordings (extract_dates v) ->
      recs <> [] -> Forall readable recs ->
      sum_durations recs 0 = Ok total ->
      fst (download_loop E out tc (Z.of_nat (length recs)) 1 recs no_counts w5)
        = Ok c ->
      w_trace (snd (download_loop E out tc (Z.of_nat (length recs)) 1 recs
                      no_counts w5)) = w_trace w5 ++ ldelta ->
      anatomy E out w (Ok tt)
        (run_head out ++ found_line (extract_dates v) :: cdelta
           ++ totals_line out recs total
           :: loop_start (DELETE_AFTER_DOWNLOAD E) ++ ldelta
           ++ run_tail (DELETE_AFTER_DOWNLOAD E) out c).




(** Does day [n] of a year fall on the month and day that
    [month_day] gives it? *)
Definition month_day_back (leapyear : bool) (n : Z) : bool :=
  let '(m, d) := PyTime.month_day n leapyear in
  PyTime.DAYS_BEFORE_MONTH m + PyTime.b2z ((2 <? m) && leapyear) + d =? n + 1.

(** The day of the local calendar a timestamp falls on, counted from the
    epoch. *)
Definition local_day (utcoffset : Z -> Z) (t : Z) : Z :=
  (t + utcoffset t) / 86400.

(** The folder and the file name in the line that announces a recording,
    as they are displayed. *)
Definition named (delta : list Event) : list (string * string) :=
  flat_map (fun ev => match ev with
                      | Print (LSkip _ _ display_path filename)
                      | Print (LStart _ _ display_path filename) =>
                          [(display_path, filename)]
                      | _ => []
                      end) delta.

(** The folder and the file name given to the downloader, request by
    request. *)
Definition targets (delta : list Event) : list (string * string) :=
  map (fun req => (dr_output_dir req, dr_fileName req)) (transfers delta).





(** * Properties *)

(** ** Strings *)

Section StringFacts.
Import PyStr PyPath.

Lemma all_below_spec n f :
  all_below n f = true -> forall z, 0 <= z < Z.of_nat n -> f z = true.
Proof.
  induction n as [|k IH]; cbn [all_below]; intros H z Hz; [lia|].
  apply andb_true_iff in H as [Hk Hrest].
  destruct (Z.eq_dec z (Z.of_nat k)) as [->|Hne]; [exact Hk|].
  apply IH; [exact Hrest|lia].
Qed.

Lemma all_below_Z n f :
  all_below (Z.to_nat n) f = true -> forall z, 0 <= z < n -> f z = true.
Proof. intros H z Hz. apply (all_below_spec _ _ H). lia. Qed.

Lemma str_length_app a b :
  String.length (a +:+ b) = (String.length a + String.length b)%nat.
Proof. induction a as [|c a IH]; simpl; [reflexivity|]. now rewrite IH. Qed.

Lemma str_app_assoc a b c : (a +:+ b) +:+ c = a +:+ (b +:+ c).
Proof. induction a as [|x a IH]; simpl; [reflexivity|]. now rewrite IH. Qed.

Lemma str_app_nil_r a : a +:+ "" = a.
Proof. induction a as [|x a IH]; simpl; [reflexivity|]. now rewrite IH. Qed.

Lemma str_eqb_nil_app a b : b <> "" -> String.eqb (a +:+ b) "" = false.
Proof. destruct a, b; simpl; congruence. Qed.

Lemma has_sep_app a b : has_sep (a +:+ b) = has_sep a || has_sep b.
Proof.
  induction a as [|c a IH]; simpl; [reflexivity|].
  rewrite IH. apply orb_assoc.
Qed.

Lemma starts_with_sep_has_sep s : has_sep s = false -> starts_with_sep s = false.
Proof. destruct s; simpl; [reflexivity|]. now intros [H _]%orb_false_iff. Qed.

Lemma ends_with_sep_has_sep s : has_sep s = false -> ends_with_sep s = false.
Proof.
  induction s as [|c s IH]; [reflexivity|].
  cbn [has_sep]. intros [Hc Hs]%orb_false_iff.
  destruct s; [exact Hc | exact (IH Hs)].
Qed.

Lemma starts_with_sep_app a b :
  a <> "" -> starts_with_sep (a +:+ b) = starts_with_sep a.
Proof. destruct a; [congruence | reflexivity]. Qed.

Lemma ends_with_sep_app a b :
  b <> "" -> ends_with_sep (a +:+ b) = ends_with_sep b.
Proof.
  intros Hb. induction a as [|c a IH]; [reflexivity|].
  cbn [String.append ends_with_sep]. rewrite <- IH.
  destruct (a +:+ b) eqn:Hab; [|reflexivity].
  destruct a, b; simpl in Hab; congruence.
Qed.

Lemma digit_char_no_sep d : is_sep (digit_char (d mod 10)) = false.
Proof.
  pose proof (Z.mod_pos_bound d 10 ltac:(lia)) as H.
  apply (all_below_Z 10 (fun z => negb (is_sep (digit_char z))) eq_refl) in H.
  now apply negb_true_iff in H.
Qed.

Lemma digits_length w n : String.length (digits w n) = w.
Proof.
  revert n. induction w as [|k IH]; intros n; cbn [digits]; [reflexivity|].
  rewrite str_length_app, IH. cbn [String.length]. lia.
Qed.

Lemma digits_no_sep w n : has_sep (digits w n) = false.
Proof.
  revert n. induction w as [|k IH]; intros n; cbn [digits]; [reflexivity|].
  rewrite has_sep_app, IH. cbn [has_sep orb]. now rewrite digit_char_no_sep.
Qed.

Lemma digits_nonempty w n : digits (S w) n <> "".
Proof.
  intros H. pose proof (digits_length (S w) n) as Hl. rewrite H in Hl.
  discriminate Hl.
Qed.

Lemma dec_digits_no_sep fuel n acc :
  has_sep acc = false -> has_sep (dec_digits fuel n acc) = false.
Proof.
  revert n acc. induction fuel as [|k IH]; intros n acc Hacc; [exact Hacc|].
  cbn [dec_digits].
  assert (Hacc' : has_sep (String (digit_char (n mod 10)) acc) = false)
    by (cbn [has_sep]; now rewrite digit_char_no_sep).
  destruct (n / 10 =? 0); [exact Hacc' | now apply IH].
Qed.

Lemma dec_no_sep n : has_sep (dec n) = false.
Proof.
  unfold dec. destruct (n <? 0).
  - cbn [has_sep]. now rewrite dec_digits_no_sep.
  - now apply dec_digits_no_sep.
Qed.

(** A number of [d] digits is printed as those digits once the fuel
    covers them. *)
Lemma dec_digits_digits d : forall fuel n acc,
  (d < fuel)%nat -> 0 <= n < 10 ^ Z.of_nat (S d) ->
  (d = O \/ 10 ^ Z.of_nat d <= n) ->
  dec_digits fuel n acc = digits (S d) n +:+ acc.
Proof.
  induction d as [|d IH]; intros fuel n acc Hfuel Hn Hlow.
  - destruct fuel as [|k]; [lia|]. cbn [dec_digits digits].
    change (10 ^ Z.of_nat 1) with 10 in Hn.
    rewrite (Z.div_small n 10) by lia. reflexivity.
  - destruct fuel as [|k]; [lia|]. cbn [dec_digits].
    destruct Hlow as [Hd|Hlow]; [discriminate Hd|].
    assert (E1 : 10 ^ Z.of_nat (S d) = 10 * 10 ^ Z.of_nat d)
      by (rewrite Nat2Z.inj_succ, Z.pow_succ_r; lia).
    assert (E2 : 10 ^ Z.of_nat (S (S d)) = 10 * 10 ^ Z.of_nat (S d))
      by (rewrite (Nat2Z.inj_succ (S d)), Z.pow_succ_r; lia).
    rewrite E2 in Hn.
    assert (Hq : 10 ^ Z.of_nat d <= n / 10 < 10 ^ Z.of_nat (S d))
      by (split; [apply Z.div_le_lower_bound | apply Z.div_lt_upper_bound]; lia).
    assert (Hpos : 0 < 10 ^ Z.of_nat d) by (apply Z.pow_pos_nonneg; lia).
    destruct (Z.eqb_spec (n / 10) 0) as [H0|_]; [lia|].
    rewrite IH; [| lia | lia |].
    + change (digits (S (S d)) n)
        with (digits (S d) (n / 10) +:+ String (digit_char (n mod 10)) "").
      now rewrite str_app_assoc.
    + destruct d; [now left | right; lia].
Qed.

Lemma digits_leading_zero w : forall n,
  0 <= n < 10 ^ Z.of_nat w -> digits (S w) n = String "0" (digits w n).
Proof.
  induction w as [|w IH]; intros n Hn.
  - change (10 ^ Z.of_nat 0) with 1 in Hn. assert (n = 0) as -> by lia.
    reflexivity.
  - change (digits (S (S w)) n)
      with (digits (S w) (n / 10) +:+ String (digit_char (n mod 10)) "").
    rewrite IH; [reflexivity|].
    rewrite Nat2Z.inj_succ, Z.pow_succ_r in Hn by lia.
    split; [apply Z.div_pos | apply Z.div_lt_upper_bound]; lia.
Qed.

Lemma dec_small n : 0 <= n < 10 -> dec n = digits 1 n.
Proof.
  intros H. unfold dec. destruct (Z.ltb_spec n 0); [lia|].
  rewrite (dec_digits_digits 0); [apply str_app_nil_r | lia | exact H | now left].
Qed.

Lemma dec_2 n : 10 <= n < 100 -> dec n = digits 2 n.
Proof.
  intros H. unfold dec. destruct (Z.ltb_spec n 0); [lia|].
  assert (3 <= Z.log2 n) by (apply Z.log2_le_pow2; simpl; lia).
  rewrite (dec_digits_digits 1);
    [apply str_app_nil_r | lia | simpl; lia | right; simpl; lia].
Qed.

Lemma dec_3 n : 100 <= n < 1000 -> dec n = digits 3 n.
Proof.
  intros H. unfold dec. destruct (Z.ltb_spec n 0); [lia|].
  assert (6 <= Z.log2 n) by (apply Z.log2_le_pow2; simpl; lia).
  rewrite (dec_digits_digits 2);
    [apply str_app_nil_r | lia | simpl; lia | right; simpl; lia].
Qed.

Lemma dec_4 n : 1000 <= n < 10000 -> dec n = digits 4 n.
Proof.
  intros H. unfold dec. destruct (Z.ltb_spec n 0); [lia|].
  assert (9 <= Z.log2 n) by (apply Z.log2_le_pow2; simpl; lia).
  rewrite (dec_digits_digits 3);
    [apply str_app_nil_r | lia | simpl; lia | right; simpl; lia].
Qed.

(** The two-digit fields of [strftime]. *)
Lemma zfill2_digits n : 0 <= n < 100 -> zfill 2 (dec n) = digits 2 n.
Proof.
  intros H. unfold zfill. destruct (Z.lt_ge_cases n 10).
  - rewrite dec_small, digits_length by lia.
    rewrite (digits_leading_zero 1) by (simpl; lia). reflexivity.
  - rewrite dec_2, digits_length by lia. reflexivity.
Qed.

(** The year field of [strftime]. *)
Lemma zfill4_digits n : 0 <= n < 10000 -> zfill 4 (dec n) = digits 4 n.
Proof.
  intros H. unfold zfill.
  destruct (Z.lt_ge_cases n 10); [|destruct (Z.lt_ge_cases n 100);
    [|destruct (Z.lt_ge_cases n 1000)]].
  - rewrite dec_small, digits_length by lia.
    rewrite (digits_leading_zero 3), (digits_leading_zero 2),
      (digits_leading_zero 1) by (simpl; lia). reflexivity.
  - rewrite dec_2, digits_length by lia.
    rewrite (digits_leading_zero 3), (digits_leading_zero 2) by (simpl; lia).
    reflexivity.
  - rewrite dec_3, digits_length by lia.
    rewrite (digits_leading_zero 3) by (simpl; lia). reflexivity.
  - rewrite dec_4, digits_length by lia. reflexivity.
Qed.

(** [join] puts one separator between a directory and a relative name. *)
Lemma join_plain a b :
  a <> "" -> ends_with_sep a = false -> starts_with_sep b = false ->
  join a b = a +:+ "/" +:+ b.
Proof.
  intros Ha He Hs. unfold join. rewrite Hs, He.
  destruct a; [congruence | reflexivity].
Qed.

(** Whatever the base is, joining a relative name that ends in no
    separator gives a non-empty path that ends in none. *)
Lemma join_relative_shape a b :
  b <> "" -> starts_with_sep b = false -> ends_with_sep b = false ->
  join a b <> "" /\ ends_with_sep (join a b) = false.
Proof.
  intros Hb Hs He. unfold join. rewrite Hs.
  destruct (String.eqb a "" || ends_with_sep a)%bool.
  - split; [destruct a, b; simpl; congruence|].
    now rewrite ends_with_sep_app.
  - split; [destruct a; simpl; congruence|].
    rewrite ends_with_sep_app by (simpl; congruence).
    change ("/" +:+ b) with (String "/" b).
    destruct b; [congruence | exact He].
Qed.

Lemma parents_from_member a : forall pre f,
  pre +:+ a <> "" -> In (pre +:+ a) (parents_from pre (a +:+ "/" +:+ f)).
Proof.
  induction a as [|c a IH]; intros pre f Hne.
  - rewrite str_app_nil_r in *. cbn [String.append parents_from].
    change (is_sep "/") with true.
    destruct (String.eqb_spec pre ""); [congruence | now left].
  - cbn [String.append parents_from]. apply in_or_app. right.
    replace (pre +:+ String c a) with ((pre +:+ String c "") +:+ a)
      by (now rewrite str_app_assoc).
    apply IH. rewrite str_app_assoc. exact Hne.
Qed.

(** A directory is among the ancestors of what lies directly in it. *)
Lemma ancestors_parent a f : a <> "" -> In a (ancestors (a +:+ "/" +:+ f)).
Proof. intros H. apply (parents_from_member a "" f). exact H. Qed.

Lemma parents_from_nonempty rest : forall pre a,
  In a (parents_from pre rest) -> a <> "".
Proof.
  induction rest as [|c rest IH]; intros pre a; cbn [parents_from]; [easy|].
  intros [H|H]%in_app_or; [|exact (IH _ _ H)].
  destruct (is_sep c); [|easy].
  destruct (String.eqb_spec pre ""); [easy|].
  destruct H as [<-|[]]. assumption.
Qed.
End StringFacts.

(** ** Calendar *)

Section CalendarFacts.
Import PyStr PyPath PyTime.

Lemma month_day_range n leap :
  0 <= n <= 364 ->
  1 <= fst (month_day n leap) <= 12 /\ 1 <= snd (month_day n leap) <= 31.
Proof.
  intros H.
  assert (Hall : forall b, all_below 365 (month_day_ok b) = true)
    by (intros []; vm_compute; reflexivity).
  pose proof (all_below_spec 365 _ (Hall leap) n ltac:(lia)) as Hok.
  unfold month_day_ok in Hok. destruct (month_day n leap) as [m d].
  cbn [fst snd]. rewrite !andb_true_iff in Hok. lia.
Qed.

Lemma ord2ymd_month_day o :
  let '(y, m, d) := ord2ymd o in 1 <= m <= 12 /\ 1 <= d <= 31.
Proof.
  unfold ord2ymd.
  match goal with |- context [if ?c then _ else _] => destruct c end; [lia|].
  match goal with |- context [month_day ?n ?l] =>
    pose proof (month_day_range n l) as H; destruct (month_day n l) as [m d]
  end.
  cbn [fst snd] in H. apply H.
  match goal with |- _ <= ?a mod 365 <= _ =>
    pose proof (Z.mod_pos_bound a 365) end.
  lia.
Qed.

(** What [localtime] returns is the calendar date and the time of day of
    the local second count. *)
Lemma localtime_inv u t tm :
  localtime u t = Ok tm ->
  (year tm, month tm, day tm) = ord2ymd ((t + u t) / 86400 + EPOCH_ORDINAL) /\
  hour tm = (t + u t) mod 86400 / 3600 /\
  minute tm = (t + u t) mod 86400 mod 3600 / 60 /\
  second tm = (t + u t) mod 86400 mod 60.
Proof.
  unfold localtime. destruct (ord2ymd _) as [[y m] d].
  destruct (fits_int _); [|discriminate].
  intros H.
  apply (f_equal (fun r => match r with Ok a => a | Raise _ => tm end)) in H.
  subst tm. cbn [year month day hour minute second]. auto.
Qed.

(** What [fromtimestamp] returns is the local time, in a year that
    [datetime] holds. *)
Lemma fromtimestamp_inv u t dt :
  fromtimestamp u t = Ok dt ->
  localtime u t = Ok dt /\ 1 <= year dt <= 9999.
Proof.
  unfold fromtimestamp. destruct (fits_time_t t); [|discriminate].
  destruct (localtime u t) as [tm|]; cbn [res_bind]; [|discriminate].
  unfold utc_to_seconds at 1, MINYEAR, MAXYEAR.
  destruct (Z.ltb_spec (year tm) 1) as [Hlo|Hlo]; cbn [orb res_bind];
    [discriminate|].
  destruct (Z.ltb_spec 9999 (year tm)) as [Hhi|Hhi]; cbn [res_bind];
    [discriminate|].
  destruct (local u _) as [probe|]; cbn [res_bind]; [|discriminate].
  match goal with |- context [if ?c then _ else _] => destruct c end;
    [destruct (local u _); cbn [res_bind]; [|discriminate]|cbn [res_bind]];
    intros Heq;
    apply (f_equal (fun r => match r with Ok a => a | Raise _ => dt end)) in Heq;
    subst tm; (split; [reflexivity | lia]).
Qed.

Lemma fromtimestamp_fields u t dt :
  fromtimestamp u t = Ok dt -> calendar_fields dt.
Proof.
  intros [Hl Hy]%fromtimestamp_inv.
  destruct (localtime_inv _ _ _ Hl) as (Hd & Hh & Hm & Hs).
  pose proof (ord2ymd_month_day ((t + u t) / 86400 + EPOCH_ORDINAL)) as Hmd.
  rewrite <- Hd in Hmd. unfold calendar_fields. rewrite Hh, Hm, Hs.
  pose proof (Z.mod_pos_bound (t + u t) 86400 ltac:(lia)).
  Z.to_euclidean_division_equations. lia.
Qed.

Lemma dec_digits_nonempty fuel : forall n acc,
  acc <> "" -> dec_digits fuel n acc <> "".
Proof.
  induction fuel as [|k IH]; intros n acc Hacc; [exact Hacc|].
  cbn [dec_digits]. destruct (n / 10 =? 0); [discriminate|].
  apply IH. discriminate.
Qed.

Lemma dec_nonempty n : dec n <> "".
Proof.
  unfold dec. destruct (n <? 0); [discriminate|].
  cbn [dec_digits]. destruct (n / 10 =? 0); [discriminate|].
  apply dec_digits_nonempty. discriminate.
Qed.

Lemma strftime_stamp dt :
  calendar_fields dt -> strftime dt "%Y%m%d_%H%M%S" = stamp dt.
Proof.
  intros (Hy & Hm & Hd & Hh & Hmi & Hs).
  change (strftime dt "%Y%m%d_%H%M%S")
    with (dec (year dt) +:+ zfill 2 (dec (month dt))
            +:+ zfill 2 (dec (day dt)) +:+ "_" +:+ zfill 2 (dec (hour dt))
            +:+ zfill 2 (dec (minute dt)) +:+ zfill 2 (dec (second dt)) +:+ "").
  rewrite !zfill2_digits by lia.
  unfold stamp. now rewrite str_app_nil_r.
Qed.

Lemma strftime_year dt : strftime dt "%Y" = dec (year dt).
Proof.
  change (strftime dt "%Y") with (dec (year dt) +:+ "").
  apply str_app_nil_r.
Qed.

Lemma strftime_month dt :
  calendar_fields dt -> strftime dt "%m" = digits 2 (month dt).
Proof.
  intros (_ & Hm & _).
  change (strftime dt "%m") with (zfill 2 (dec (month dt)) +:+ "").
  rewrite zfill2_digits by lia. apply str_app_nil_r.
Qed.

Lemma strftime_day dt :
  calendar_fields dt -> strftime dt "%d" = digits 2 (day dt).
Proof.
  intros (_ & _ & Hd & _).
  change (strftime dt "%d") with (zfill 2 (dec (day dt)) +:+ "").
  rewrite zfill2_digits by lia. apply str_app_nil_r.
Qed.

Lemma nonempty_app_r a b : b <> "" -> a +:+ b <> "".
Proof. destruct a, b; simpl; congruence. Qed.

Lemma date_dir_shape dt :
  date_dir dt <> "" /\ starts_with_sep (date_dir dt) = false /\
  ends_with_sep (date_dir dt) = false.
Proof.
  unfold date_dir. repeat split.
  - do 4 apply nonempty_app_r. apply digits_nonempty.
  - rewrite starts_with_sep_app by apply dec_nonempty.
    apply starts_with_sep_has_sep, dec_no_sep.
  - rewrite ends_with_sep_app by (do 3 apply nonempty_app_r; apply digits_nonempty).
    rewrite ends_with_sep_app by (do 2 apply nonempty_app_r; apply digits_nonempty).
    rewrite ends_with_sep_app by (apply nonempty_app_r; apply digits_nonempty).
    rewrite ends_with_sep_app by apply digits_nonempty.
    apply ends_with_sep_has_sep, digits_no_sep.
Qed.

Lemma get_date_folder_shape u t dt :
  fromtimestamp u t = Ok dt -> get_date_folder u t = Ok (date_dir dt).
Proof.
  intros H. pose proof (fromtimestamp_fields _ _ _ H) as Hf.
  unfold get_date_folder. rewrite H. cbn [res_bind]. f_equal.
  rewrite strftime_year, strftime_month, strftime_day by exact Hf.
  rewrite (join_plain (dec _));
    [| apply dec_nonempty
     | apply ends_with_sep_has_sep, dec_no_sep
     | apply starts_with_sep_has_sep, digits_no_sep].
  rewrite join_plain.
  - unfold date_dir. now rewrite !str_app_assoc.
  - do 2 apply nonempty_app_r. apply digits_nonempty.
  - rewrite ends_with_sep_app by (apply nonempty_app_r; apply digits_nonempty).
    rewrite ends_with_sep_app by apply digits_nonempty.
    apply ends_with_sep_has_sep, digits_no_sep.
  - apply starts_with_sep_has_sep, digits_no_sep.
Qed.

Lemma format_filename_shape u t dt :
  fromtimestamp u t = Ok dt ->
  format_filename u t = Ok (stamp dt +:+ "-" +:+ dec t +:+ ".mp4").
Proof.
  intros H. pose proof (fromtimestamp_fields _ _ _ H) as Hf.
  unfold format_filename. rewrite H. cbn [res_bind].
  now rewrite strftime_stamp.
Qed.

Lemma filename_starts dt rest : starts_with_sep (stamp dt +:+ rest) = false.
Proof.
  unfold stamp. rewrite !str_app_assoc.
  rewrite starts_with_sep_app by apply dec_nonempty.
  apply starts_with_sep_has_sep, dec_no_sep.
Qed.
End CalendarFacts.

(** ** File system *)

Section FileSystemFacts.
Import PyStr PyPath PyOs.

Lemma path_exists_isdir (fs : FS) p : isdir fs p = true -> path_exists fs p = true.
Proof. unfold isdir, path_exists. now destruct (fs !! p). Qed.

Lemma fs_wf_spec (fs : FS) p a :
  fs_wf fs = true -> path_exists fs p = true -> In a (ancestors p) ->
  isdir fs a = true.
Proof.
  unfold fs_wf, path_exists. intros Hwf Hp Ha.
  destruct (fs !! p) as [nd|] eqn:Hl; [|discriminate].
  rewrite forallb_forall in Hwf.
  specialize (Hwf p). rewrite forallb_forall in Hwf. apply Hwf; [|exact Ha].
  apply in_map_iff. exists (p, nd). split; [reflexivity|].
  apply list_elem_of_In, elem_of_map_to_list. exact Hl.
Qed.

Lemma mkdir_each_noop (fs : FS) ps :
  (forall p, In p ps -> isdir fs p = true /\ p <> "") ->
  mkdir_each fs ps = Ok fs.
Proof.
  induction ps as [|p ps IH]; intros H; [reflexivity|].
  cbn [mkdir_each]. destruct (H p (or_introl eq_refl)) as [Hd Hne].
  unfold mkdir_exist_ok. destruct (String.eqb_spec p ""); [congruence|].
  unfold isdir in Hd. destruct (fs !! p) as [nd|]; [|discriminate].
  rewrite Hd. cbn [res_bind]. apply IH. intros q Hq. apply H. now right.
Qed.

(** On a well-formed disk, [makedirs] of a directory that is there
    changes nothing. *)
Lemma makedirs_existing (fs : FS) d :
  fs_wf fs = true -> isdir fs d = true -> d <> "" -> makedirs fs d = Ok fs.
Proof.
  intros Hwf Hd Hne. unfold makedirs. apply mkdir_each_noop.
  intros p [Hp|Hp]%in_app_or.
  - split; [|exact (parents_from_nonempty _ _ _ Hp)].
    apply (fs_wf_spec fs d); auto using path_exists_isdir.
  - destruct Hp as [<-|[]]. now split.
Qed.
End FileSystemFacts.

(** ** The planner inside [download_recording] *)

Section PlannerFacts.
Import PyStr PyPath PyTime PyOs.

(** The canonical form of a plan. *)
Lemma plan_shape u base t dt :
  fromtimestamp u t = Ok dt ->
  plan u base t =
    Ok {| art_date_folder := date_dir dt;
          art_output_dir := join base (date_dir dt);
          art_filename := stamp dt +:+ "-" +:+ dec t +:+ ".mp4";
          art_filepath := join base (date_dir dt) +:+ "/" +:+
                          (stamp dt +:+ "-" +:+ dec t +:+ ".mp4") |}.
Proof.
  intros H. unfold plan.
  rewrite (get_date_folder_shape _ _ _ H), (format_filename_shape _ _ _ H).
  cbn [res_bind]. do 2 f_equal.
  destruct (date_dir_shape dt) as (Hne & Hs & He).
  destruct (join_relative_shape base (date_dir dt) Hne Hs He) as [Hj1 Hj2].
  apply join_plain; [exact Hj1 | exact Hj2 | apply filename_starts].
Qed.

Lemma plan_inv u base t art :
  plan u base t = Ok art ->
  exists dt, fromtimestamp u t = Ok dt /\
    get_date_folder u t = Ok (art_date_folder art) /\
    format_filename u t = Ok (art_filename art) /\
    art_output_dir art = join base (art_date_folder art) /\
    art_filepath art = join (art_output_dir art) (art_filename art) /\
    art_filepath art = art_output_dir art +:+ "/" +:+ art_filename art /\
    art_output_dir art <> "".
Proof.
  intros H. destruct (fromtimestamp u t) as [dt|e] eqn:Hdt.
  - exists dt. split; [reflexivity|].
    pose proof (plan_shape u base t dt Hdt) as Hs.
    rewrite (get_date_folder_shape _ _ _ Hdt), (format_filename_shape _ _ _ Hdt).
    unfold plan in H.
    rewrite (get_date_folder_shape _ _ _ Hdt), (format_filename_shape _ _ _ Hdt) in H.
    cbn [res_bind] in H. injection H as <-.
    cbn [art_date_folder art_filename art_output_dir art_filepath].
    destruct (date_dir_shape dt) as (Hne & Hst & He).
    destruct (join_relative_shape base (date_dir dt) Hne Hst He) as [Hj1 Hj2].
    repeat split; try reflexivity; [|exact Hj1].
    apply join_plain; [exact Hj1 | exact Hj2 | apply filename_starts].
  - unfold plan, get_date_folder in H. rewrite Hdt in H. discriminate H.
Qed.

(** The folder a recording is written to is an ancestor of its file. *)
Lemma plan_output_dir_ancestor u base t art :
  plan u base t = Ok art ->
  In (art_output_dir art) (ancestors (art_filepath art)).
Proof.
  intros H. destruct (plan_inv _ _ _ _ H) as (dt & _ & _ & _ & _ & _ & Hp & Hne).
  rewrite Hp. now apply ancestors_parent.
Qed.
End PlannerFacts.

(** ** One recording *)

Ltac run :=
  cbn [bind lift ret raise emit print get_fs set_fs get_cam set_cam
       try_except res_bind fst snd w_fs w_cam w_trace].

Section RecordingFacts.
Import PyStr PyPath PyTime PyOs.
Context {Cam : Type} (E : Env Cam).

Lemma recording_times_inv r s e :
  recording_times r = Ok (s, e) ->
  exists sv ev, getitem r "startTime" = Ok sv /\ getitem r "endTime" = Ok ev /\
                as_int sv = Ok s /\ as_int ev = Ok e.
Proof.
  unfold recording_times. intros H.
  destruct (getitem r "startTime") as [sv|] eqn:H1; cbn [res_bind] in H; [|discriminate].
  destruct (getitem r "endTime") as [ev|] eqn:H2; cbn [res_bind] in H; [|discriminate].
  destruct (as_int sv) as [s'|] eqn:H3; cbn [res_bind] in H; [|discriminate].
  destruct (as_int ev) as [e'|] eqn:H4; cbn [res_bind] in H; [|discriminate].
  injection H as -> ->. now exists sv, ev.
Qed.

Lemma getsize_exists (fs : FS) p :
  path_exists fs p = true -> exists size, getsize fs p = Ok size.
Proof.
  unfold path_exists, getsize. destruct (fs !! p) as [nd|]; [|discriminate].
  intros _. now exists (n_size nd).
Qed.

(** A recording whose file is on disk is skipped: nothing but the two
    lines of the skip message happens. *)
Lemma download_recording_skips (w : World Cam) r base tc i total_count s e art :
  recording_times r = Ok (s, e) ->
  plan (utcoffset E) base s = Ok art ->
  fs_wf (w_fs w) = true ->
  path_exists (w_fs w) (art_filepath art) = true ->
  exists size,
    download_recording E r base tc i total_count w =
      (Ok Skipped,
       {| w_fs := w_fs w; w_cam := w_cam w;
          w_trace := w_trace w ++
            [EnterDownloadRecording r;
             Print (LSkip i total_count (replace_sep (art_date_folder art))
                          (art_filename art));
             Print (LSkipNote size)] |}).
Proof.
  intros Ht Hp Hwf Hex.
  destruct (recording_times_inv _ _ _ Ht) as (sv & ev & Hsv & Hev & Hs & He).
  destruct (plan_inv _ _ _ _ Hp) as (dt & _ & Hdf & Hfn & Hod & Hfp & _ & Hne).
  pose proof (plan_output_dir_ancestor _ _ _ _ Hp) as Hanc.
  pose proof (fs_wf_spec _ _ _ Hwf Hex Hanc) as Hdir.
  pose proof (makedirs_existing _ _ Hwf Hdir Hne) as Hmk.
  destruct (getsize_exists _ _ Hex) as [size Hsize]. exists size.
  unfold download_recording. run.
  rewrite Hsv. run. rewrite Hev. run. rewrite Hs. run. rewrite He. run.
  rewrite Hdf. run. rewrite <- Hod, Hmk. run.
  rewrite Hfn. run. rewrite <- Hfp, Hex, Hsize. run.
  rewrite <- !app_assoc. reflexivity.
Qed.

Lemma bind_run {A B} (m : M Cam A) (k : A -> M Cam B) (w : World Cam) :
  bind m k w = match m w with
               | (Ok a, w') => k a w'
               | (Raise x, w') => (Raise x, w')
               end.
Proof. reflexivity. Qed.

Lemma with_trace_nil (w : World Cam) : with_trace w [] = w.
Proof. destruct w. unfold with_trace. cbn. now rewrite app_nil_r. Qed.

Lemma with_trace_app (w : World Cam) a b :
  with_trace (with_trace w a) b = with_trace w (a ++ b).
Proof. unfold with_trace. cbn. now rewrite app_assoc. Qed.

(** [progress_step] case by case. *)
Lemma progress_step_run last status (w : World Cam) :
  progress_step last status w =
    if 0 <? total_of status then
      match percent_of (default 0 (progress status)) (total_of status) with
      | Raise x => (Raise x, w)
      | Ok percent =>
          if (negb (percent =? last) && (percent mod 5 =? 0))%bool then
            match bar_of percent with
            | Raise x => (Raise x, w)
            | Ok bar =>
                (Ok percent,
                 with_trace w [Print (LPercent (currentAction status) (fst bar)
                                               (snd bar) percent)])
            end
          else (Ok last, w)
      end
    else if negb (String.eqb (currentAction status) "Downloading") then
      (Ok last, with_trace w [Print (LAction (currentAction status))])
    else (Ok last, w).
Proof.
  unfold progress_step, total_of, bar_of.
  destruct (0 <? default 0 (total status)).
  - run. destruct (percent_of _ _) as [percent|x]; run; [|reflexivity].
    destruct (negb (percent =? last) && (percent mod 5 =? 0))%bool;
      run; [|reflexivity].
    destruct (filled_of percent) as [filled|]; run; [|reflexivity].
    destruct (repeat_length filled); run; [|reflexivity].
    destruct (repeat_length (bar_length - filled)); run; reflexivity.
  - destruct (negb _); run; reflexivity.
Qed.

(** The progress loop only prints, and only its two kinds of line. *)
Lemma consume_prints statuses : forall last (w : World Cam),
  exists lines,
    snd (consume last statuses w) = with_trace w (map Print lines) /\
    forallb is_progress_line lines = true.
Proof.
  induction statuses as [|status rest IH]; intros last w.
  - exists []. cbn. now rewrite with_trace_nil.
  - cbn [consume]. unfold bind at 1. rewrite progress_step_run.
    repeat match goal with
    | |- context [if ?c then _ else _] => destruct c
    | |- context [match ?r with Ok _ => _ | Raise _ => _ end] => destruct r
    end;
    try (exists []; cbn [snd map]; now rewrite with_trace_nil);
    try (destruct (IH last w) as (lines & -> & Hl); now exists lines);
    match goal with
    | |- context [consume ?l rest (with_trace w [Print ?x])] =>
        destruct (IH l (with_trace w [Print x])) as (lines & -> & Hl);
        exists (x :: lines); now rewrite with_trace_app
    end.
Qed.
End RecordingFacts.

(** ** Progress reports *)

Section ProgressFacts.
Context {Cam : Type}.

Lemma percents_shown_app a b :
  percents_shown (a ++ b) = percents_shown a ++ percents_shown b.
Proof. apply flat_map_app. Qed.

Lemma actions_shown_app a b :
  actions_shown (a ++ b) = actions_shown a ++ actions_shown b.
Proof. apply flat_map_app. Qed.

(** The percentages shown: multiples of 5, each different from the one
    shown before it, each derived from a status with a total; and no
    more than the multiples of 5 left above [last] when the statuses
    are steady. *)
Lemma consume_percents statuses : forall last (w : World Cam),
  exists lines,
    snd (consume last statuses w) = with_trace w (map Print lines) /\
    Forall (fun q => q mod 5 = 0 /\
                     exists status, In status statuses /\
                       0 < total_of status /\ percent_at status = Ok q)
           (percents_shown (map Print lines)) /\
    distinct_neighbours (last :: percents_shown (map Print lines)) /\
    (forall lo, last <= lo -> last <= 100 -> steady lo statuses = true ->
       Z.of_nat (length (percents_shown (map Print lines))) <= 20 - last / 5).
Proof.
  induction statuses as [|status rest IH]; intros last w.
  - exists []. cbn. rewrite with_trace_nil. repeat split; auto.
    intros lo _ Hl _. Z.to_euclidean_division_equations. lia.
  - cbn [consume]. unfold bind at 1. rewrite progress_step_run.
    cbn [steady]. fold (percent_at status).
    destruct (Z.ltb_spec 0 (total_of status)) as [Htot|Htot].
    + destruct (percent_at status) as [q|x] eqn:Hq.
      * destruct (negb (q =? last) && (q mod 5 =? 0))%bool eqn:Hc.
        -- apply andb_true_iff in Hc as [Hne H5].
           apply negb_true_iff, Z.eqb_neq in Hne. apply Z.eqb_eq in H5.
           destruct (bar_of q) as [bar|x].
           ++ destruct (IH q (with_trace w
                 [Print (LPercent (currentAction status) (fst bar) (snd bar) q)]))
                as (lines & Hrun & Hall & Hdist & Hbound).
              exists (LPercent (currentAction status) (fst bar) (snd bar) q
                        :: lines).
              rewrite Hrun, with_trace_app. split; [reflexivity|].
              cbn [map percents_shown flat_map app].
              fold (percents_shown (map Print lines)).
              split; [|split].
              ** constructor.
                 { split; [exact H5|]. exists status. repeat split; auto.
                   now left. }
                 eapply List.Forall_impl; [|exact Hall].
                 intros a (Ha & s & Hs & Hs'). split; [exact Ha|].
                 exists s. split; [now right | exact Hs'].
              ** split; [congruence | exact Hdist].
              ** intros lo Hlo Hl Hst.
                 apply andb_true_iff in Hst as [Hst1 Hst].
                 apply andb_true_iff in Hst1 as [Hlo' Hq100].
                 apply Z.leb_le in Hlo', Hq100.
                 specialize (Hbound q ltac:(lia) ltac:(lia) Hst).
                 cbn [length]. rewrite Nat2Z.inj_succ.
                 Z.to_euclidean_division_equations. lia.
           ++ exists []. cbn [snd map]. rewrite with_trace_nil.
              cbn. repeat split; auto.
              intros lo _ Hl _. Z.to_euclidean_division_equations. lia.
        -- destruct (IH last w) as (lines & Hrun & Hall & Hdist & Hbound).
           exists lines. split; [exact Hrun|]. split; [|split].
           ** eapply List.Forall_impl; [|exact Hall].
              intros a (Ha & s & Hs & Hs'). split; [exact Ha|].
              exists s. split; [now right | exact Hs'].
           ** exact Hdist.
           ** intros lo Hlo Hl Hst.
              apply andb_true_iff in Hst as [Hst1 Hst].
              apply andb_true_iff in Hst1 as [Hlo' Hq100].
              apply Z.leb_le in Hlo', Hq100.
              apply (Hbound q); [lia | lia | exact Hst].
      * exists []. cbn [snd map]. rewrite with_trace_nil.
        cbn. repeat split; auto.
        intros lo _ Hl _. Z.to_euclidean_division_equations. lia.
    + assert (Hshape : forall pre : list Line,
                percents_shown (map Print pre) = [] ->
                exists lines,
                  snd (consume last rest (with_trace w (map Print pre))) =
                    with_trace w (map Print lines) /\
                  Forall (fun q => q mod 5 = 0 /\
                     exists s, In s (status :: rest) /\
                       0 < total_of s /\ percent_at s = Ok q)
                    (percents_shown (map Print lines)) /\
                  distinct_neighbours (last :: percents_shown (map Print lines)) /\
                  (forall lo, last <= lo -> last <= 100 ->
                     steady lo rest = true ->
                     Z.of_nat (length (percents_shown (map Print lines)))
                       <= 20 - last / 5)).
      { intros pre Hpre.
        destruct (IH last (with_trace w (map Print pre)))
          as (lines & Hrun & Hall & Hdist & Hbound).
        exists (pre ++ lines).
        rewrite Hrun, with_trace_app, map_app, percents_shown_app, Hpre.
        cbn [app]. split; [reflexivity|]. split; [|split; assumption].
        eapply List.Forall_impl; [|exact Hall].
        intros a (Ha & s & Hs & Hs'). split; [exact Ha|].
        exists s. split; [now right | exact Hs']. }
      destruct (negb (String.eqb (currentAction status) "Downloading")).
      * apply (Hshape [LAction (currentAction status)]). reflexivity.
      * specialize (Hshape [] eq_refl). cbn [map] in Hshape.
        now rewrite with_trace_nil in Hshape.
Qed.

(** Without totals the loop prints the action of every status that is
    not ["Downloading"], and nothing else. *)
Lemma consume_indeterminate statuses : forall last (w : World Cam),
  Forall (fun status => total_of status = 0) statuses ->
  consume last statuses w =
    (Ok tt,
     with_trace w
       (map (fun action => Print (LAction action))
            (List.filter (fun action => negb (String.eqb action "Downloading"))
                         (map currentAction statuses)))).
Proof.
  induction statuses as [|status rest IH]; intros last w Hall.
  - cbn. now rewrite with_trace_nil.
  - inversion Hall as [|? ? Hs Hrest]; subst.
    cbn [consume]. unfold bind at 1. rewrite progress_step_run, Hs.
    change (0 <? 0) with false. cbn iota.
    cbn [map List.filter].
    destruct (negb (String.eqb (currentAction status) "Downloading")).
    + rewrite (IH last _ Hrest), with_trace_app. reflexivity.
    + apply (IH last w Hrest).
Qed.
End ProgressFacts.

(** ** Transfer and deletion *)

Section TransferFacts.
Import PyStr PyPath PyTime PyOs.
Context {Cam : Type} (E : Env Cam).

(** A transfer starts the downloader, prints progress, and either ends
    with the success line or raises. *)
Lemma transfer_run s e tc od fn (w : World Cam) :
  let req := request s e tc od fn in
  let t := Downloader E (w_cam w) (w_fs w) req in
  exists lines,
    let w1 := {| w_fs := tr_fs t; w_cam := tr_cam t;
                 w_trace := w_trace w ++ StartDownloader req
                              :: map Print lines |} in
    forallb is_progress_line lines = true /\
    ((tr_raised t = None /\
      transfer E s e tc od fn w = (Ok Downloaded, with_trace w1 [Print LDownloaded]))
     \/ (exists x, transfer E s e tc od fn w = (Raise x, w1))).
Proof.
  intros req t. unfold transfer. fold (request s e tc od fn). fold req.
  run. fold t. rewrite !bind_run.
  match goal with |- context [consume (-1) (tr_events t) ?w0] =>
    destruct (consume_prints (tr_events t) (-1) w0) as (lines & Hrun & Hl);
    destruct (consume (-1) (tr_events t) w0) as [[[]|x] w2]
  end; cbn [snd] in Hrun; subst w2; exists lines; (split; [exact Hl|]).
  - destruct (tr_raised t) as [x|].
    + right. exists x. unfold with_trace. run. now rewrite <- app_assoc.
    + left. split; [reflexivity|]. unfold with_trace. run.
      now rewrite <- !app_assoc.
  - right. exists x. unfold with_trace. run. now rewrite <- app_assoc.
Qed.

(** What the downloader raises never leaves the [try]. *)
Lemma guarded_transfer_run s e tc od fn (w : World Cam) :
  let req := request s e tc od fn in
  let t := Downloader E (w_cam w) (w_fs w) req in
  exists lines,
    let w1 := {| w_fs := tr_fs t; w_cam := tr_cam t;
                 w_trace := w_trace w ++ StartDownloader req
                              :: map Print lines |} in
    forallb is_progress_line lines = true /\
    ((tr_raised t = None /\
     try_except (transfer E s e tc od fn)
                (fun x => bind (print (LDownloadError x)) (fun _ => ret Failed)) w
       = (Ok Downloaded, with_trace w1 [Print LDownloaded]))
    \/ (exists x,
          try_except (transfer E s e tc od fn)
                     (fun x => bind (print (LDownloadError x)) (fun _ => ret Failed)) w
            = (Ok Failed, with_trace w1 [Print (LDownloadError x)]))).
Proof.
  intros req t. destruct (transfer_run s e tc od fn w) as [lines H].
  exists lines. fold req t in H. cbv zeta in H |- *.
  destruct H as [Hl H]. split; [exact Hl|].
  destruct H as [[Hn H]|[x H]]; [left; split; [exact Hn|] | right; exists x];
    unfold try_except; rewrite H; reflexivity.
Qed.

Lemma guarded_transfer_raising s e tc od fn (w : World Cam) x :
  tr_raised (Downloader E (w_cam w) (w_fs w) (request s e tc od fn)) = Some x ->
  exists lines y,
    try_except (transfer E s e tc od fn)
               (fun x => bind (print (LDownloadError x)) (fun _ => ret Failed)) w
      = (Ok Failed,
         {| w_fs := tr_fs (Downloader E (w_cam w) (w_fs w) (request s e tc od fn));
            w_cam := tr_cam (Downloader E (w_cam w) (w_fs w) (request s e tc od fn));
            w_trace := w_trace w ++ StartDownloader (request s e tc od fn)
                         :: map Print lines ++ [Print (LDownloadError y)] |}).
Proof.
  intros Hx. destruct (guarded_transfer_run s e tc od fn w) as [lines H].
  cbv zeta in H. destruct H as [_ [[Hn _]|[y H]]]; [congruence|].
  exists lines, y. rewrite H. unfold with_trace. cbn.
  now rewrite <- app_assoc.
Qed.

(** The deletion requests: the first that returns wins, none raises. *)
Lemma run_attempts_run attempts : forall (w : World Cam),
  exists b delta cam',
    run_attempts E attempts w =
      (Ok b, {| w_fs := w_fs w; w_cam := cam'; w_trace := w_trace w ++ delta |}) /\
    Forall (fun ev => deletion_event ev = true) delta.
Proof.
  induction attempts as [|[method params] rest IH]; intros w.
  - exists false, [Print LDeleteUnsupported], (w_cam w). cbn. auto.
  - cbn [run_attempts]. run.
    destruct (executeFunction E (w_cam w) method params) as [returned cam1].
    run. destruct returned.
    + exists true, [ExecuteFunction method params; Print LDeleted], cam1.
      run. rewrite <- app_assoc. cbn. auto.
    + match goal with |- context [run_attempts E rest ?w0] =>
        destruct (IH w0) as (b & delta & cam' & -> & Hall) end.
      exists b, (ExecuteFunction method params :: delta), cam'.
      cbn [w_fs w_cam w_trace]. rewrite <- app_assoc. cbn. auto.
Qed.

(** [try_delete_recording] never raises; with the flag off it returns
    [False] at once. *)
Lemma try_delete_recording_run r (w : World Cam) :
  exists b delta cam',
    try_delete_recording E r w =
      (Ok b, {| w_fs := w_fs w; w_cam := cam';
                w_trace := w_trace w ++ EnterTryDeleteRecording r :: delta |}) /\
    Forall (fun ev => deletion_event ev = true) delta /\
    (DELETE_AFTER_DOWNLOAD E = false -> b = false /\ delta = [] /\ cam' = w_cam w).
Proof.
  unfold try_delete_recording. run.
  destruct (DELETE_AFTER_DOWNLOAD E); cbn [negb].
  - unfold try_except. destruct (delete_attempts r) as [attempts|x]; run.
    + match goal with |- context [run_attempts E attempts ?w0] =>
        destruct (run_attempts_run attempts w0) as (b & delta & cam' & Hr & Hall)
      end.
      exists b, delta, cam'. rewrite Hr. cbn [w_fs w_cam w_trace].
      rewrite <- app_assoc. cbn. split; [reflexivity|]. split; [exact Hall|].
      discriminate.
    + exists false, [Print (LDeleteError x)], (w_cam w). run.
      rewrite <- app_assoc. cbn. split; [reflexivity|]. split; [auto|].
      discriminate.
  - exists false, [], (w_cam w). run. auto.
Qed.
End TransferFacts.

(** ** The loop *)

Section LoopFacts.
Import PyStr PyPath PyTime PyOs.
Context {Cam : Type} (E : Env Cam).

Lemma progress_lines_recording_events lines :
  forallb is_progress_line lines = true ->
  Forall (fun ev => recording_event ev = true) (map Print lines).
Proof.
  induction lines as [|l lines IH]; cbn [forallb map]; [constructor|].
  intros [Hl Hr]%andb_true_iff. constructor; [|exact (IH Hr)].
  now destruct l.
Qed.

(** Whatever happens in [download_recording], it attempts no deletion;
    a skip starts no transfer; a download ends with the success line of
    a transfer it started. *)
Lemma download_recording_run r base tc i total_count (w : World Cam) :
  exists delta,
    w_trace (snd (download_recording E r base tc i total_count w)) =
      w_trace w ++ EnterDownloadRecording r :: delta /\
    Forall (fun ev => recording_event ev = true) delta /\
    match fst (download_recording E r base tc i total_count w) with
    | Ok Downloaded =>
        exists pre req, delta = pre ++ [Print LDownloaded] /\
                        In (StartDownloader req) pre
    | Ok Skipped => Forall (fun ev => is_transfer_event ev = false) delta
    | Ok Failed => exists req, In (StartDownloader req) delta
    | Raise _ => delta = []
    end.
Proof.
  unfold download_recording. run.
  destruct (getitem r "startTime") as [sv|]; run;
    [|exists []; now repeat split].
  destruct (getitem r "endTime") as [ev|]; run;
    [|exists []; now repeat split].
  destruct (as_int sv) as [s|]; run; [|exists []; now repeat split].
  destruct (as_int ev) as [e|]; run; [|exists []; now repeat split].
  destruct (get_date_folder (utcoffset E) s) as [df|]; run;
    [|exists []; now repeat split].
  destruct (makedirs (w_fs w) (join base df)) as [fs1|]; run;
    [|exists []; now repeat split].
  destruct (format_filename (utcoffset E) s) as [fn|]; run;
    [|exists []; now repeat split].
  destruct (path_exists fs1 (join (join base df) fn)).
  - destruct (getsize fs1 (join (join base df) fn)) as [size|]; run;
      [|exists []; now repeat split].
    eexists. split; [rewrite <- !app_assoc; reflexivity|].
    split; repeat constructor.
  - run.
    match goal with |- context [try_except _ _ ?w0] =>
      destruct (guarded_transfer_run E s e tc (join base df) fn w0)
        as [lines H]; cbv zeta in H;
      destruct H as [Hl [[_ ->]|[x ->]]]
    end; cbn [fst snd with_trace w_trace w_fs w_cam].
    + eexists. split; [rewrite <- !app_assoc; cbn [app]; reflexivity|].
      split.
      * repeat constructor. apply Forall_app. split; [|repeat constructor].
        apply progress_lines_recording_events, Hl.
      * exists ([Print (LStart i total_count (replace_sep df) fn);
                 Print (LDuration (e - s)
                          (dict_get r "vedio_type" (PStr "unknown")));
                 StartDownloader (request s e tc (join base df) fn)]
                ++ map Print lines),
               (request s e tc (join base df) fn).
        split; [now rewrite <- !app_assoc | cbn; auto].
    + eexists. split; [rewrite <- !app_assoc; cbn [app]; reflexivity|].
      split; [|exists (request s e tc (join base df) fn); cbn; auto].
      repeat constructor. apply Forall_app. split; [|repeat constructor].
      apply progress_lines_recording_events, Hl.
Qed.
End LoopFacts.

Section LoopBodyFacts.
Import PyStr PyPath PyTime PyOs.
Context {Cam : Type} (E : Env Cam).

Lemma recording_event_not_delete ev :
  recording_event ev = true -> is_delete_event ev = false.
Proof. destruct ev as [[]| | | | | | |]; cbn; congruence. Qed.

Lemma deletion_event_not_entry ev :
  deletion_event ev = true ->
  match ev with
  | EnterTryDeleteRecording _ | EnterDownloadRecording _
  | StartDownloader _ => False
  | _ => True
  end.
Proof.
  destruct ev as [[]| | | | | | |]; cbn; intros H; try exact I; discriminate H.
Qed.

Lemma not_delete_no_request ev :
  is_delete_event ev = false -> is_delete_request ev = false.
Proof. destruct ev; cbn; congruence. Qed.

(** The bookkeeping after [download_recording] returned. *)
Lemma account_run c r result (w : World Cam) :
  exists c' delta cam',
    account E c r result w =
      (Ok c', {| w_fs := w_fs w; w_cam := cam';
                 w_trace := w_trace w ++ delta |}) /\
    match result with
    | Skipped => c' = add_skipped c 1 /\ delta = [] /\ cam' = w_cam w
    | Failed => c' = add_failed c 1 /\ delta = [] /\ cam' = w_cam w
    | Downloaded =>
        exists (b : bool) rest,
          delta = EnterTryDeleteRecording r :: rest /\
          Forall (fun ev => deletion_event ev = true) rest /\
          successful c' = successful c + 1 /\ skipped c' = skipped c /\
          failed c' = failed c /\
          deleted c' = (if b then deleted c + 1 else deleted c) /\
          (DELETE_AFTER_DOWNLOAD E = false ->
           b = false /\ rest = [] /\ cam' = w_cam w)
    end.
Proof.
  destruct result; cbn [account].
  - exists (add_skipped c 1), [], (w_cam w). run. rewrite app_nil_r.
    now destruct w.
  - destruct (try_delete_recording_run E r w)
      as (b & rest & cam' & Hrun & Hall & Hoff).
    rewrite bind_run, Hrun. run.
    eexists _, _, cam'. split; [reflexivity|].
    exists b, rest. cbn [successful skipped failed deleted].
    repeat match goal with |- _ /\ _ => split end; auto.
  - exists (add_failed c 1), [], (w_cam w). run. rewrite app_nil_r.
    now destruct w.
Qed.

Lemma progress_line_run total_count i c' (w : World Cam) :
  bind (if ((i mod 10 =? 0) || (i =? total_count))%bool
        then print (LProgress (successful c') (skipped c') (failed c')
                              (total_count - i))
        else ret tt) (fun _ => ret c') w =
    (Ok c', with_trace w (progress_line total_count i c')).
Proof.
  unfold progress_line.
  destruct ((i mod 10 =? 0) || (i =? total_count))%bool; run;
    [reflexivity | now rewrite with_trace_nil].
Qed.

Lemma progress_line_events total_count i c' :
  Forall (fun ev => is_delete_event ev = false /\
                    is_transfer_event ev = false /\
                    match ev with
                    | EnterTryDeleteRecording _ | EnterDownloadRecording _
                    | StartDownloader _ => False
                    | _ => True
                    end)
         (progress_line total_count i c').
Proof.
  unfold progress_line.
  destruct ((i mod 10 =? 0) || (i =? total_count))%bool; repeat constructor.
Qed.

Lemma progress_line_shows total_count i c' s k f rem :
  In (Print (LProgress s k f rem)) (progress_line total_count i c') ->
  s = successful c' /\ k = skipped c' /\ f = failed c' /\ rem = total_count - i.
Proof.
  unfold progress_line.
  destruct ((i mod 10 =? 0) || (i =? total_count))%bool; [|intros []].
  intros [[= <- <- <- <-]|[]]. auto.
Qed.

(** One turn of the loop: its events and its effect on the counters. *)
Lemma loop_body_run out tc total_count i r c (w : World Cam) :
  exists delta,
    w_trace (snd (loop_body E out tc total_count i r c w)) =
      w_trace w ++ delta /\
    deletion_follows_download r delta /\
    (DELETE_AFTER_DOWNLOAD E = false ->
     Forall (fun ev => is_delete_request ev = false) delta) /\
    match fst (loop_body E out tc total_count i r c w) with
    | Ok c' =>
        counted_once c c' /\
        deleted c <= deleted c' <= deleted c + 1 /\
        (deleted c' = deleted c \/ successful c' = successful c + 1) /\
        (DELETE_AFTER_DOWNLOAD E = false -> deleted c' = deleted c) /\
        (successful c' = successful c + 1 ->
         In (EnterTryDeleteRecording r) delta) /\
        (skipped c' = skipped c + 1 ->
         Forall (fun ev => is_delete_event ev = false /\
                           is_transfer_event ev = false) delta) /\
        (forall s k f rem,
           In (Print (LProgress s k f rem)) delta ->
           s = successful c' /\ k = skipped c' /\ f = failed c' /\
           rem = total_count - i)
    | Raise _ => Forall (fun ev => is_delete_event ev = false) delta
    end.
Proof.
  unfold loop_body. rewrite bind_run.
  destruct (download_recording_run E r out tc i total_count w)
    as (d1 & Ht & Hev & Hres).
  destruct (download_recording E r out tc i total_count w) as [[result|x] w1];
    cbn [fst snd] in *.
  2: { subst d1. exists [EnterDownloadRecording r].
       split; [exact Ht|]. split; [left|split; [intros _|]];
         repeat constructor. }
  rewrite bind_run.
  destruct (account_run c r result w1) as (c' & d2 & cam' & Hacc & Hcase).
  rewrite Hacc, progress_line_run. cbn [fst snd with_trace w_trace].
  rewrite Ht, <- !app_assoc. cbn [app].
  pose proof (progress_line_events total_count i c') as Hstat.
  exists (EnterDownloadRecording r :: d1 ++ d2 ++ progress_line total_count i c').
  split; [reflexivity|].
  assert (Hd1 : Forall (fun ev => is_delete_event ev = false) d1)
    by (eapply List.Forall_impl; [|exact Hev];
        intros; now apply recording_event_not_delete).
  assert (Hst1 : Forall (fun ev => is_delete_event ev = false)
                        (progress_line total_count i c'))
    by (eapply List.Forall_impl; [|exact Hstat]; now intros ? [? _]).
  destruct result.
  - (* skipped *)
    destruct Hcase as (-> & -> & ->). cbn [app].
    assert (Hall : Forall (fun ev => is_delete_event ev = false /\
                                     is_transfer_event ev = false)
                     (EnterDownloadRecording r
                        :: d1 ++ progress_line total_count i (add_skipped c 1))).
    { constructor; [now split|]. apply Forall_app. split.
      - apply List.Forall_forall. intros ev Hin. split.
        + rewrite List.Forall_forall in Hd1. auto.
        + rewrite List.Forall_forall in Hres. auto.
      - eapply List.Forall_impl; [|exact Hstat]. now intros ? (? & ? & _). }
    split; [left|split; [intros _|]].
    + eapply List.Forall_impl; [|exact Hall]. now intros ? [? _].
    + eapply List.Forall_impl; [|exact Hall].
      intros ? [? _]. now apply not_delete_no_request.
    + cbn [add_skipped successful skipped failed deleted].
      split; [right; left; repeat split; lia|].
      split; [lia|]. split; [now left|]. split; [reflexivity|].
      split; [lia|]. split; [intros _; exact Hall|].
      intros s k f rem [Hin|Hin]; [discriminate Hin|].
      apply in_app_or in Hin as [Hin|Hin].
      * rewrite List.Forall_forall in Hev. apply Hev in Hin. discriminate Hin.
      * now apply progress_line_shows in Hin.
  - (* downloaded *)
    destruct Hres as (pre & req & -> & Hreq).
    destruct Hcase as (b & rest & -> & Hrest & Hs & Hk & Hf & Hdel & Hoff).
    apply Forall_app in Hev as [Hpre _].
    split; [right|split].
    + exists pre, req, (rest ++ progress_line total_count i c').
      split; [now rewrite <- !app_assoc|]. split; [exact Hpre|].
      split; [exact Hreq|]. apply Forall_app. split.
      * eapply List.Forall_impl; [|exact Hrest].
        intros; now apply deletion_event_not_entry.
      * eapply List.Forall_impl; [|exact Hstat]. now intros ? (? & ? & ?).
    + intros Hflag. destruct (Hoff Hflag) as (-> & -> & _).
      constructor; [reflexivity|]. apply Forall_app. split.
      * apply Forall_app. split;
          [|repeat constructor].
        eapply List.Forall_impl; [|exact Hpre].
        intros; now apply not_delete_no_request, recording_event_not_delete.
      * constructor; [reflexivity|]. cbn [app].
        eapply List.Forall_impl; [|exact Hst1].
        intros; now apply not_delete_no_request.
    + split; [left; auto|]. split; [destruct b; lia|].
      split; [now right|].
      split; [intros Hflag; destruct (Hoff Hflag) as (-> & _); exact Hdel|].
      split; [intros _; right; apply in_or_app; right; now left|].
      split; [intros; lia|].
      intros s k f rem [Hin|Hin]; [discriminate Hin|].
      apply in_app_or in Hin as [Hin|Hin].
      * apply in_app_or in Hin as [Hin|[Hin|[]]]; [|discriminate Hin].
        rewrite List.Forall_forall in Hpre. apply Hpre in Hin. discriminate Hin.
      * destruct Hin as [Hin|Hin]; [discriminate Hin|].
        apply in_app_or in Hin as [Hin|Hin].
        -- rewrite List.Forall_forall in Hrest. apply Hrest in Hin.
           discriminate Hin.
        -- now apply progress_line_shows in Hin.
  - (* failed *)
    destruct Hcase as (-> & -> & ->). cbn [app].
    assert (Hall : Forall (fun ev => is_delete_event ev = false)
                     (EnterDownloadRecording r
                        :: d1 ++ progress_line total_count i (add_failed c 1)))
      by (constructor; [reflexivity|]; apply Forall_app; now split).
    split; [left; exact Hall|]. split.
    + intros _. eapply List.Forall_impl; [|exact Hall].
      intros; now apply not_delete_no_request.
    + cbn [add_failed successful skipped failed deleted].
      split; [right; right; repeat split; lia|].
      split; [lia|]. split; [now left|]. split; [reflexivity|].
      split; [lia|]. split; [lia|].
      intros s k f rem [Hin|Hin]; [discriminate Hin|].
      apply in_app_or in Hin as [Hin|Hin].
      * rewrite List.Forall_forall in Hev. apply Hev in Hin. discriminate Hin.
      * now apply progress_line_shows in Hin.
Qed.
End LoopBodyFacts.

Section BatchFacts.
Import PyStr PyPath PyTime PyOs.
Context {Cam : Type} (E : Env Cam).

Lemma download_loop_app out tc total_count a : forall b i c (w : World Cam),
  download_loop E out tc total_count i (a ++ b) c w =
    bind (download_loop E out tc total_count i a c)
         (fun c1 => download_loop E out tc total_count
                                  (i + Z.of_nat (length a)) b c1) w.
Proof.
  induction a as [|r a IH]; intros b i c w.
  - cbn. now rewrite Z.add_0_r.
  - cbn [app download_loop length]. rewrite !bind_run.
    destruct (loop_body E out tc total_count i r c w) as [[c1|x] w1];
      [|reflexivity].
    rewrite IH, bind_run. now replace (i + 1 + Z.of_nat (length a))
      with (i + Z.of_nat (S (length a))) by lia.
Qed.

(** A whole run of the loop: the counters account for every recording,
    and deletions stay behind the downloads. *)
Lemma download_loop_run out tc total_count recs : forall i c (w : World Cam),
  exists delta,
    w_trace (snd (download_loop E out tc total_count i recs c w)) =
      w_trace w ++ delta /\
    (DELETE_AFTER_DOWNLOAD E = false ->
     Forall (fun ev => is_delete_request ev = false) delta) /\
    match fst (download_loop E out tc total_count i recs c w) with
    | Ok c' =>
        processed c' = processed c + Z.of_nat (length recs) /\
        deleted c <= deleted c' /\
        deleted c' - deleted c <= successful c' - successful c /\
        (DELETE_AFTER_DOWNLOAD E = false -> deleted c' = deleted c)
    | Raise _ => True
    end.
Proof.
  induction recs as [|r recs IH]; intros i c w.
  - exists []. cbn. rewrite app_nil_r. repeat split; auto; lia.
  - cbn [download_loop length]. rewrite bind_run.
    destruct (loop_body_run E out tc total_count i r c w)
      as (d1 & Ht & _ & Hreq & Hres).
    destruct (loop_body E out tc total_count i r c w) as [[c1|x] w1];
      cbn [fst snd] in *.
    + destruct (IH (i + 1) c1 w1) as (d2 & Ht2 & Hreq2 & Hres2).
      exists (d1 ++ d2). rewrite Ht2, Ht, app_assoc. split; [reflexivity|].
      split; [intros Hf; apply Forall_app; auto|].
      destruct (fst (download_loop E out tc total_count (i + 1) recs c1 w1))
        as [c'|]; [|exact I].
      destruct Hres as (Hc & Hd & Hds & Hoff & _).
      destruct Hres2 as (Hp & Hd2 & Hds2 & Hoff2).
      unfold processed in *. unfold counted_once in Hc.
      repeat split; try lia.
      intros Hf. rewrite (Hoff2 Hf). auto.
    + exists d1. repeat split; auto.
Qed.

(** When every file is on disk already, the loop skips them all: the
    disk and the camera stay as they are, no transfer starts and no
    deletion is attempted. *)
Lemma existing_archive_loop out tc total_count recs : forall i c (w : World Cam),
  fs_wf (w_fs w) = true ->
  Forall (on_disk (utcoffset E) out (w_fs w)) recs ->
  exists delta,
    download_loop E out tc total_count i recs c w =
      (Ok (add_skipped c (Z.of_nat (length recs))), with_trace w delta) /\
    Forall (fun ev => is_delete_event ev = false /\
                      is_transfer_event ev = false) delta.
Proof.
  induction recs as [|r recs IH]; intros i c w Hwf Hall.
  - exists []. cbn. rewrite with_trace_nil. split; [|constructor].
    destruct c. unfold add_skipped. cbn. now rewrite Z.add_0_r.
  - inversion Hall as [|? ? (s & e & art & Ht & Hp & Hex) Hrest]; subst.
    destruct (download_recording_skips E w r out tc i total_count s e art
                Ht Hp Hwf Hex) as [size Hskip].
    cbn [download_loop]. rewrite bind_run. unfold loop_body.
    rewrite bind_run, Hskip. cbn [account]. run.
    rewrite progress_line_run.
    match goal with |- context [with_trace ?w0 (progress_line ?t ?j ?cc)] =>
      destruct (IH (i + 1) cc (with_trace w0 (progress_line t j cc)))
        as (delta & Hrun & Hev); [exact Hwf | exact Hrest |];
      pose proof (progress_line_events t j cc) as Hstat
    end.
    rewrite Hrun. eexists. split.
    + f_equal.
      * unfold add_skipped. cbn [successful skipped failed deleted length].
        do 2 f_equal. lia.
      * unfold with_trace. cbn [w_fs w_cam w_trace].
        rewrite <- !app_assoc. reflexivity.
    + cbn [app]. repeat constructor. apply Forall_app. split; [|exact Hev].
      eapply List.Forall_impl; [|exact Hstat]. now intros ? (? & ? & _).
Qed.
End BatchFacts.

(** ** One recording, case by case *)

Lemma progress_lines_flat_map {A} (f : Event -> list A) lines :
  forallb is_progress_line lines = true ->
  (forall l, is_progress_line l = true -> f (Print l) = []) ->
  flat_map f (map Print lines) = [].
Proof.
  intros Hl Hf. induction lines as [|l lines IH]; [reflexivity|].
  cbn [forallb] in Hl. apply andb_true_iff in Hl as [H1 H2].
  cbn [map flat_map]. rewrite (Hf l H1). exact (IH H2).
Qed.

Section RecordingCases.
Import PyStr PyPath PyTime PyOs.
Context {Cam : Type} (E : Env Cam).

Lemma prepare_inv u base fs r s e art fs1 :
  prepare u base fs r = Ok (s, e, art, fs1) ->
  recording_times r = Ok (s, e) /\ plan u base s = Ok art /\
  makedirs fs (art_output_dir art) = Ok fs1.
Proof.
  unfold prepare.
  destruct (recording_times r) as [[s' e']|] eqn:H1; [|discriminate].
  cbn [res_bind fst snd].
  destruct (plan u base s') as [art'|] eqn:H2; [|discriminate].
  cbn [res_bind].
  destruct (makedirs fs (art_output_dir art')) as [fs'|] eqn:H3; [|discriminate].
  cbn [res_bind]. intros [= <- <- <- <-]. auto.
Qed.

(** [download_recording] outcome by outcome: what it returns, what it
    prints and what it leaves behind. It raises only while preparing; once
    the transfer is under way every exception becomes [False]. *)
Lemma download_recording_cases r base tc i n (w : World Cam) :
  match download_recording E r base tc i n w with
  | (Raise x, w1) =>
      prepare (utcoffset E) base (w_fs w) r = Raise x /\
      w1 = with_trace w [EnterDownloadRecording r]
  | (Ok result, w1) =>
      exists s e art fs1,
        prepare (utcoffset E) base (w_fs w) r = Ok (s, e, art, fs1) /\
        match result with
        | Skipped =>
            exists size,
              getsize fs1 (art_filepath art) = Ok size /\
              w1 = {| w_fs := fs1; w_cam := w_cam w;
                      w_trace := w_trace w ++
                        [EnterDownloadRecording r;
                         Print (LSkip i n (replace_sep (art_date_folder art))
                                      (art_filename art));
                         Print (LSkipNote size)] |}
        | Downloaded =>
            let t := Downloader E (w_cam w) fs1
                       (request s e tc (art_output_dir art) (art_filename art)) in
            path_exists fs1 (art_filepath art) = false /\
            tr_raised t = None /\
            exists lines,
              forallb is_progress_line lines = true /\
              w1 = {| w_fs := tr_fs t; w_cam := tr_cam t;
                      w_trace := w_trace w ++ transfer_header r tc i n s e art
                                   ++ map Print lines ++ [Print LDownloaded] |}
        | Failed =>
            let t := Downloader E (w_cam w) fs1
                       (request s e tc (art_output_dir art) (art_filename art)) in
            path_exists fs1 (art_filepath art) = false /\
            exists lines x,
              forallb is_progress_line lines = true /\
              w1 = {| w_fs := tr_fs t; w_cam := tr_cam t;
                      w_trace := w_trace w ++ transfer_header r tc i n s e art
                                   ++ map Print lines ++ [Print (LDownloadError x)] |}
        end
  end.
Proof.
  unfold download_recording, prepare, recording_times. run.
  destruct (getitem r "startTime") as [sv|]; run; [|now split].
  destruct (getitem r "endTime") as [ev|]; run; [|now split].
  destruct (as_int sv) as [s|]; run; [|now split].
  destruct (as_int ev) as [e|]; run; [|now split].
  destruct (fromtimestamp (utcoffset E) s) as [dt|x] eqn:Hdt.
  2: { unfold plan, get_date_folder. rewrite Hdt. run. now split. }
  pose proof (plan_shape (utcoffset E) base s dt Hdt) as Hplan.
  destruct (plan_inv _ _ _ _ Hplan) as (_ & _ & Hdf & Hfn & Hod & Hfp & _ & _).
  cbn [art_date_folder art_output_dir art_filename art_filepath] in *.
  rewrite Hplan, Hdf. run. cbn [art_output_dir].
  destruct (makedirs (w_fs w) (join base (date_dir dt))) as [fs1|]; run;
    [|now split].
  rewrite Hfn. run. rewrite <- Hfp.
  match goal with |- context [path_exists fs1 ?p] =>
    destruct (path_exists fs1 p) eqn:Hex end.
  - destruct (getsize_exists _ _ Hex) as [size Hsize]. rewrite Hsize. run.
    eexists s, e, _, fs1. split; [reflexivity|].
    exists size. cbn [art_filepath art_date_folder art_filename].
    split; [exact Hsize|]. now rewrite <- !app_assoc.
  - run.
    match goal with |- context [try_except _ _ ?w0] =>
      destruct (guarded_transfer_run E s e tc (join base (date_dir dt))
                  (stamp dt +:+ "-" +:+ dec s +:+ ".mp4") w0)
        as [lines H]; cbv zeta in H;
      destruct H as [Hl [[Hn ->]|[x ->]]]
    end; cbn [w_fs w_cam w_trace] in *.
    + eexists s, e, _, fs1. split; [reflexivity|].
      cbn [art_filepath art_date_folder art_filename art_output_dir].
      split; [exact Hex|]. split; [exact Hn|]. exists lines.
      split; [exact Hl|]. unfold with_trace, transfer_header.
      cbn [w_fs w_cam w_trace art_filepath art_date_folder art_filename
           art_output_dir].
      f_equal. rewrite <- !app_assoc. reflexivity.
    + eexists s, e, _, fs1. split; [reflexivity|].
      cbn [art_filepath art_date_folder art_filename art_output_dir].
      split; [exact Hex|]. exists lines, x.
      split; [exact Hl|]. unfold with_trace, transfer_header.
      cbn [w_fs w_cam w_trace art_filepath art_date_folder art_filename
           art_output_dir].
      f_equal. rewrite <- !app_assoc. reflexivity.
Qed.
End RecordingCases.

Section PlacedArtifact.
Import PyStr PyPath PyTime PyOs.
Context {Cam : Type} (E : Env Cam).

Lemma getsize_returns (fs : FS) p size :
  getsize fs p = Ok size -> path_exists fs p = true.
Proof.
  unfold getsize, path_exists. now destruct (fs !! p).
Qed.

(** What a call of [download_recording] that returns has shown and asked
    for: the date folder and the file name of the start time, the folder
    made under the output folder, and the one request for that folder
    and that name unless the file was there. *)
Lemma download_recording_names r out tc i n (w : World Cam) s e result :
  recording_times r = Ok (s, e) ->
  fst (download_recording E r out tc i n w) = Ok result ->
  exists folder name fs1 delta,
    get_date_folder (utcoffset E) s = Ok folder /\
    format_filename (utcoffset E) s = Ok name /\
    makedirs (w_fs w) (join out folder) = Ok fs1 /\
    w_trace (snd (download_recording E r out tc i n w)) = w_trace w ++ delta /\
    named delta = [(replace_sep folder, name)] /\
    transfers delta =
      match result with
      | Skipped => []
      | _ => [request s e tc (join out folder) name]
      end /\
    (result = Skipped <->
     path_exists fs1 (join out folder +:+ "/" +:+ name) = true).
Proof.
  intros Ht Hrun.
  pose proof (download_recording_cases E r out tc i n w) as Hc.
  destruct (download_recording E r out tc i n w) as [res w1].
  cbn [fst snd] in *. subst res.
  destruct Hc as (s' & e' & art & fs1 & Hprep & Hc).
  destruct (prepare_inv _ _ _ _ _ _ _ _ Hprep) as (Ht' & Hplan & Hmk).
  rewrite Ht in Ht'.
  apply (f_equal (fun x => match x with Ok a => a | Raise _ => (s, e) end)) in Ht'.
  injection Ht' as <- <-.
  destruct (plan_inv _ _ _ _ Hplan) as (_ & _ & Hdf & Hfn & Hod & _ & Hfp & _).
  rewrite Hod in Hmk. rewrite Hfp, Hod in Hc.
  exists (art_date_folder art), (art_filename art), fs1.
  destruct result; cbv zeta in Hc.
  - destruct Hc as (size & Hsize & ->). cbn [w_trace].
    eexists. repeat split; try eassumption; try reflexivity.
    intros _. exact (getsize_returns _ _ _ Hsize).
  - destruct Hc as (Hex & _ & lines & Hl & ->). cbn [w_trace].
    eexists. repeat split; try eassumption; try reflexivity.
    + unfold named, transfer_header. rewrite !flat_map_app.
      rewrite (progress_lines_flat_map _ lines Hl) by (now intros []).
      reflexivity.
    + unfold transfers, transfer_header. rewrite !flat_map_app.
      rewrite (progress_lines_flat_map _ lines Hl) by (now intros []).
      cbn. now rewrite Hod.
    + discriminate.
    + congruence.
  - destruct Hc as (Hex & lines & x & Hl & ->). cbn [w_trace].
    eexists. repeat split; try eassumption; try reflexivity.
    + unfold named, transfer_header. rewrite !flat_map_app.
      rewrite (progress_lines_flat_map _ lines Hl) by (now intros []).
      reflexivity.
    + unfold transfers, transfer_header. rewrite !flat_map_app.
      rewrite (progress_lines_flat_map _ lines Hl) by (now intros []).
      cbn. now rewrite Hod.
    + discriminate.
    + congruence.
Qed.


End PlacedArtifact.

(** ** PathPlanner *)

(** C4. The folder and the file name of a recording are a function of its
    start time alone. Two calls of [download_recording] for recordings with
    the same [startTime], whatever their [endTime], their type, their
    place in the batch and the state of the disk, work with the same date
    folder and the same file name, those [get_date_folder] and
    [format_filename] give for that start time: each call shows them, makes
    that folder under the output folder, looks for that name in it, and
    asks the downloader for that folder and name unless the file is there.
    On the same disk one call is skipped exactly when the other is. *)
Theorem artifact_depends_on_start_time_only (Cam : Type) (E : Env Cam)
  (out : string) (r1 r2 : pydict) (tc1 tc2 : pyval) (i1 n1 i2 n2 : Z)
  (w1 w2 : World Cam) (s e1 e2 : Z) (result1 result2 : outcome) :
  recording_times r1 = Ok (s, e1) ->
  recording_times r2 = Ok (s, e2) ->
  fst (download_recording E r1 out tc1 i1 n1 w1) = Ok result1 ->
  fst (download_recording E r2 out tc2 i2 n2 w2) = Ok result2 ->
  exists folder name fs1 fs2 delta1 delta2,
    get_date_folder (utcoffset E) s = Ok folder /\
    format_filename (utcoffset E) s = Ok name /\
    PyOs.makedirs (w_fs w1) (PyPath.join out folder) = Ok fs1 /\
    PyOs.makedirs (w_fs w2) (PyPath.join out folder) = Ok fs2 /\
    (result1 = Skipped <->
     PyOs.path_exists fs1 (PyPath.join out folder +:+ "/" +:+ name) = true) /\
    (result2 = Skipped <->
     PyOs.path_exists fs2 (PyPath.join out folder +:+ "/" +:+ name) = true) /\
    w_trace (snd (download_recording E r1 out tc1 i1 n1 w1))
      = w_trace w1 ++ delta1 /\
    w_trace (snd (download_recording E r2 out tc2 i2 n2 w2))
      = w_trace w2 ++ delta2 /\
    named delta1 = [(PyStr.replace_sep folder, name)] /\
    named delta2 = [(PyStr.replace_sep folder, name)] /\
    targets delta1 =
      match result1 with
      | Skipped => []
      | _ => [(PyPath.join out folder +:+ "/", name)]
      end /\
    targets delta2 =
      match result2 with
      | Skipped => []
      | _ => [(PyPath.join out folder +:+ "/", name)]
      end /\
    (w_fs w1 = w_fs w2 -> (result1 = Skipped <-> result2 = Skipped)).
Proof.
  intros Ht1 Ht2 Hrun1 Hrun2.
  destruct (download_recording_names E r1 out tc1 i1 n1 w1 s e1 result1 Ht1 Hrun1)
    as (folder & name & fs1 & delta1 & Hdf & Hfn & Hmk1 & Htr1 & Hn1 & Hq1 & Hs1).
  destruct (download_recording_names E r2 out tc2 i2 n2 w2 s e2 result2 Ht2 Hrun2)
    as (folder' & name' & fs2 & delta2 & Hdf' & Hfn' & Hmk2 & Htr2 & Hn2 & Hq2 & Hs2).
  rewrite Hdf in Hdf'. rewrite Hfn in Hfn'.
  apply (f_equal (fun x => match x with Ok a => a | Raise _ => folder end)) in Hdf'.
  apply (f_equal (fun x => match x with Ok a => a | Raise _ => name end)) in Hfn'.
  subst folder' name'.
  exists folder, name, fs1, fs2, delta1, delta2.
  split; [exact Hdf|]. split; [exact Hfn|]. split; [exact Hmk1|].
  split; [exact Hmk2|]. split; [exact Hs1|]. split; [exact Hs2|].
  split; [exact Htr1|]. split; [exact Htr2|]. split; [exact Hn1|].
  split; [exact Hn2|]. split; [|split].
  - unfold targets. rewrite Hq1. now destruct result1.
  - unfold targets. rewrite Hq2. now destruct result2.
  - intros Hfs. rewrite Hfs, Hmk2 in Hmk1.
    apply (f_equal (fun x => match x with Ok a => a | Raise _ => fs1 end)) in Hmk1.
    subst fs2. now rewrite Hs1, Hs2.
Qed.

Lemma artifact_depends_on_start_time_only_witness :
  exists folder name delta1 delta2,
    get_date_folder (utcoffset (Sample.env false)) 1721829154 = Ok folder /\
    format_filename (utcoffset (Sample.env false)) 1721829154 = Ok name /\
    w_trace (snd (download_recording (Sample.env false) Sample.rec_a
                    Sample.videos (PInt 0) 1 3
                    (Sample.start Sample.empty_disk)))
      = w_trace (Sample.start Sample.empty_disk) ++ delta1 /\
    w_trace (snd (download_recording (Sample.env false)
                    [("endTime", PInt 1721829999);
                     ("startTime", PInt 1721829154)]
                    Sample.videos (PInt 5) 2 3 (Sample.start sample_archive)))
      = w_trace (Sample.start sample_archive) ++ delta2 /\
    named delta1 = [(PyStr.replace_sep folder, name)] /\
    named delta2 = [(PyStr.replace_sep folder, name)].
Proof.
  destruct (artifact_depends_on_start_time_only nat (Sample.env false)
              Sample.videos Sample.rec_a
              [("endTime", PInt 1721829999); ("startTime", PInt 1721829154)]
              (PInt 0) (PInt 5) 1 3 2 3
              (Sample.start Sample.empty_disk) (Sample.start sample_archive)
              1721829154 1721829184 1721829999 Downloaded Skipped)
    as (folder & name & _ & _ & delta1 & delta2 & H1 & H2 & _ & _ & _ & _
        & H3 & H4 & H5 & H6 & _);
    [vm_compute; reflexivity ..|].
  exists folder, name, delta1, delta2.
  split; [exact H1|]. split; [exact H2|]. split; [exact H3|].
  split; [exact H4|]. split; [exact H5 | exact H6].
Defined.




(** ** CatalogIndexer *)

Section ExtractionFacts.
Lemma fold_left_append {A B} (f : B -> list A) (step : list A -> B -> list A) :
  (forall acc x, step acc x = acc ++ f x) ->
  forall l acc, fold_left step l acc = acc ++ flat_map f l.
Proof.
  intros Hstep. induction l as [|x l IH]; intros acc; cbn.
  - now rewrite app_nil_r.
  - now rewrite IH, Hstep, <- app_assoc.
Qed.

Lemma extract_dates_entry_appends dates kv :
  extract_dates_entry dates kv = dates ++ date_of_entry kv.
Proof.
  destruct kv as [key value]. unfold extract_dates_entry, date_of_entry.
  destruct (PyStr.startswith _ key); [|now rewrite app_nil_r].
  destruct value; try now rewrite app_nil_r.
  unfold dict_has, dict_get.
  destruct (dict_find "date" entries); [reflexivity | now rewrite app_nil_r].
Qed.

Lemma extract_recordings_entry_appends recordings kv :
  extract_recordings_entry recordings kv = recordings ++ recording_of_entry kv.
Proof.
  destruct kv as [key value].
  unfold extract_recordings_entry, recording_of_entry.
  destruct (PyStr.startswith _ key); [|now rewrite app_nil_r].
  destruct value; try now rewrite app_nil_r.
  destruct (_ && _)%bool; [reflexivity | now rewrite app_nil_r].
Qed.

Lemma extract_dates_item_appends dates item :
  extract_dates_item dates item =
    dates ++ flat_map date_of_entry (entries_of_item item).
Proof.
  destruct item; cbn [extract_dates_item entries_of_item flat_map];
    try now rewrite app_nil_r.
  apply fold_left_append, extract_dates_entry_appends.
Qed.

Lemma extract_recordings_item_appends recordings item :
  extract_recordings_item recordings item =
    recordings ++ flat_map recording_of_entry (entries_of_item item).
Proof.
  destruct item; cbn [extract_recordings_item entries_of_item flat_map];
    try now rewrite app_nil_r.
  apply fold_left_append, extract_recordings_entry_appends.
Qed.

Lemma flat_map_flat_map {A B C} (f : A -> list B) (g : B -> list C) l :
  flat_map g (flat_map f l) = flat_map (fun x => flat_map g (f x)) l.
Proof.
  induction l as [|x l IH]; cbn; [reflexivity|].
  now rewrite flat_map_app, IH.
Qed.
End ExtractionFacts.

(** C6, as the code has it. The extractors are total. For a response
    that is a sequence they return, in order, the [date] fields of the
    entries filed under a [search_results_] key whose value is a mapping
    with a [date], respectively the mappings filed under a
    [search_video_results_] key that have both [startTime] and [endTime],
    taken from the mappings that are elements of the sequence; every other
    element or entry is left out. A response that is not a sequence, a
    bare mapping of mappings included, gives the empty list. *)
Theorem extraction_from_sequences (response : pyval) :
  extract_dates response = flat_map date_of_entry (entries_in_sequence response) /\
  extract_recordings response =
    flat_map recording_of_entry (entries_in_sequence response) /\
  ((forall items, response <> PList items) ->
   extract_dates response = [] /\ extract_recordings response = []).
Proof.
  split; [|split].
  - destruct response; try reflexivity.
    cbn [extract_dates entries_in_sequence]. rewrite flat_map_flat_map.
    apply (fold_left_append _ _ extract_dates_item_appends).
  - destruct response; try reflexivity.
    cbn [extract_recordings entries_in_sequence]. rewrite flat_map_flat_map.
    apply (fold_left_append _ _ extract_recordings_item_appends).
  - intros Hshape. destruct response; try (split; reflexivity).
    now destruct (Hshape items).
Qed.

Lemma extraction_from_sequences_witness :
  extract_dates bare_mapping = [] /\ extract_recordings bare_mapping = [].
Proof.
  apply (extraction_from_sequences bare_mapping). discriminate.
Defined.

(** C6 as stated fails: a recognised entry of a response that is itself
    a mapping of mappings is not extracted. *)
Lemma bare_mapping_not_extracted : ~ extracts_from_any_shape.
Proof.
  intros H. destruct (H bare_mapping) as [Hd _]. discriminate Hd.
Qed.

(** An entry under an unknown key next to well-formed recordings is passed
    over. *)
Example unknown_key_is_ignored :
  extract_recordings Sample.recordings_response =
    [Sample.rec_a; Sample.rec_b; Sample.rec_c].
Proof. reflexivity. Qed.

(** ** The batch *)

(** C1. A recording whose planned file exists on disk, whatever its size
    or content, is skipped: [download_recording] returns ["skipped"] after
    printing its two lines, and neither the disk nor the camera is touched.
    A loop over recordings that are all on disk counts every one of them
    as skipped, starts no transfer and attempts no deletion. *)
Theorem existing_artifact_is_skipped (Cam : Type) (E : Env Cam)
  (out : string) (tc : pyval) (total_count i : Z) (recs : list pydict)
  (c : Counters) (w : World Cam) :
  fs_wf (w_fs w) = true ->
  Forall (on_disk (utcoffset E) out (w_fs w)) recs ->
  (forall r j, In r recs ->
     exists lines,
       download_recording E r out tc j total_count w =
         (Ok Skipped, with_trace w (EnterDownloadRecording r :: map Print lines))) /\
  (exists delta,
     download_loop E out tc total_count i recs c w =
       (Ok (add_skipped c (Z.of_nat (length recs))), with_trace w delta) /\
     Forall (fun ev => is_delete_event ev = false /\
                       is_transfer_event ev = false) delta).
Proof.
  intros Hwf Hall. split; [|now apply existing_archive_loop].
  intros r j Hin. rewrite List.Forall_forall in Hall.
  destruct (Hall r Hin) as (s & e & art & Ht & Hp & Hex).
  destruct (download_recording_skips E w r out tc j total_count s e art
              Ht Hp Hwf Hex) as [size ->].
  now exists [LSkip j total_count (PyStr.replace_sep (art_date_folder art))
                    (art_filename art); LSkipNote size].
Qed.

Lemma sample_on_disk :
  Forall (on_disk (utcoffset (Sample.env true)) Sample.videos sample_archive)
         [Sample.rec_a; Sample.rec_c].
Proof.
  repeat constructor.
  - exists 1721829154, 1721829184. eexists. repeat split; vm_compute; reflexivity.
  - exists 1721829300, 1721829330. eexists. repeat split; vm_compute; reflexivity.
Qed.

Lemma existing_artifact_is_skipped_witness :
  exists delta,
    download_loop (Sample.env true) Sample.videos (PInt 0) 2 1
                  [Sample.rec_a; Sample.rec_c] no_counts
                  (Sample.start sample_archive) =
      (Ok (add_skipped no_counts 2), with_trace (Sample.start sample_archive) delta) /\
    Forall (fun ev => is_delete_event ev = false /\
                      is_transfer_event ev = false) delta.
Proof.
  apply (existing_artifact_is_skipped nat (Sample.env true) Sample.videos
           (PInt 0) 2 1 [Sample.rec_a; Sample.rec_c] no_counts
           (Sample.start sample_archive)).
  - vm_compute. reflexivity.
  - exact sample_on_disk.
Defined.

(** C2. After any number of recordings the run has got through,
    [successful + skipped + failed] is that number; the next recording
    raises exactly one of the three by one; and a statistics line, when
    the turn prints one, shows these counters. *)
Theorem counters_add_up (Cam : Type) (E : Env Cam) (out : string) (tc : pyval)
  (total_count : Z) (done : list pydict) (r : pydict) (c c' : Counters)
  (w : World Cam) :
  let w1 := snd (download_loop E out tc total_count 1 done no_counts w) in
  let i := 1 + Z.of_nat (length done) in
  fst (download_loop E out tc total_count 1 done no_counts w) = Ok c ->
  fst (loop_body E out tc total_count i r c w1) = Ok c' ->
  processed c = Z.of_nat (length done) /\
  counted_once c c' /\
  processed c' = Z.of_nat (length done) + 1 /\
  download_loop E out tc total_count 1 (done ++ [r]) no_counts w =
    (Ok c', snd (loop_body E out tc total_count i r c w1)) /\
  exists delta,
    w_trace (snd (loop_body E out tc total_count i r c w1)) = w_trace w1 ++ delta /\
    forall s k f rem,
      In (Print (LProgress s k f rem)) delta ->
      s + k + f = Z.of_nat (length done) + 1 /\
      rem = total_count - (Z.of_nat (length done) + 1).
Proof.
  intros w1 i Hdone Hstep.
  destruct (download_loop_run E out tc total_count done 1 no_counts w)
    as (d0 & _ & _ & Hres).
  rewrite Hdone in Hres. destruct Hres as (Hp & _).
  change (processed no_counts) with 0 in Hp.
  destruct (loop_body_run E out tc total_count i r c w1)
    as (delta & Ht & _ & _ & Hres).
  rewrite Hstep in Hres. destruct Hres as (Hc & _ & _ & _ & _ & _ & Hline).
  assert (Hp' : processed c' = Z.of_nat (length done) + 1)
    by (unfold processed, counted_once in *; lia).
  repeat split; try assumption; try lia.
  - rewrite download_loop_app, bind_run.
    destruct (download_loop E out tc total_count 1 done no_counts w)
      as [rc wc] eqn:Hd. cbn [fst snd] in *. subst rc w1.
    cbn [download_loop]. rewrite bind_run. fold i.
    destruct (loop_body E out tc total_count i r c wc) as [rs ws].
    cbn [fst snd] in *. now subst rs.
  - exists delta. split; [exact Ht|]. intros s k f rem Hin.
    destruct (Hline s k f rem Hin) as (-> & -> & -> & ->).
    unfold processed in Hp'. split; lia.
Qed.

Lemma counters_add_up_witness :
  processed {| successful := 1; failed := 1; skipped := 0; deleted := 0 |} = 2 /\
  counted_once {| successful := 1; failed := 1; skipped := 0; deleted := 0 |}
               {| successful := 2; failed := 1; skipped := 0; deleted := 0 |}.
Proof.
  destruct (counters_add_up nat (Sample.env false) Sample.videos (PInt 0) 3
              [Sample.rec_a; Sample.rec_b] Sample.rec_c
              {| successful := 1; failed := 1; skipped := 0; deleted := 0 |}
              {| successful := 2; failed := 1; skipped := 0; deleted := 0 |}
              (Sample.start Sample.empty_disk))
    as (H1 & H2 & _); [vm_compute; reflexivity | vm_compute; reflexivity |].
  split; assumption.
Defined.

(** C3. When the downloader raises during a recording's transfer, the
    exception stays inside [download_recording], which returns [False];
    the loop adds one to [failed], touches no other counter and goes on
    with the recordings that follow. *)
Theorem transfer_exception_is_a_failure (Cam : Type) (E : Env Cam)
  (out : string) (tc : pyval) (total_count i : Z) (r : pydict)
  (rest : list pydict) (c : Counters) (w : World Cam)
  (s e : Z) (art : Artifact) (fs1 : PyOs.FS) (x : exn) :
  recording_times r = Ok (s, e) ->
  plan (utcoffset E) out s = Ok art ->
  PyOs.makedirs (w_fs w) (art_output_dir art) = Ok fs1 ->
  PyOs.path_exists fs1 (art_filepath art) = false ->
  tr_raised (Downloader E (w_cam w) fs1
               (request s e tc (art_output_dir art) (art_filename art))) = Some x ->
  exists w1,
    download_recording E r out tc i total_count w = (Ok Failed, w1) /\
    loop_body E out tc total_count i r c w =
      (Ok (add_failed c 1), with_trace w1 (progress_line total_count i (add_failed c 1))) /\
    download_loop E out tc total_count i (r :: rest) c w =
      download_loop E out tc total_count (i + 1) rest (add_failed c 1)
        (with_trace w1 (progress_line total_count i (add_failed c 1))).
Proof.
  intros Ht Hp Hmk Hex Hx.
  destruct (recording_times_inv _ _ _ Ht) as (sv & ev & Hsv & Hev & Hs & He).
  destruct (plan_inv _ _ _ _ Hp) as (dt & _ & Hdf & Hfn & Hod & Hfp & _ & _).
  assert (Hrun : exists w1,
             download_recording E r out tc i total_count w = (Ok Failed, w1)).
  { unfold download_recording. run.
    rewrite Hsv. run. rewrite Hev. run. rewrite Hs. run. rewrite He. run.
    rewrite Hdf. run. rewrite <- Hod, Hmk. run.
    rewrite Hfn. run. rewrite <- Hfp, Hex. run.
    match goal with |- context [try_except _ _ ?w0] =>
      destruct (guarded_transfer_raising E s e tc (art_output_dir art)
                  (art_filename art) w0 x Hx) as (lines & y & ->)
    end.
    eexists. reflexivity. }
  destruct Hrun as [w1 Hrun]. exists w1. split; [exact Hrun|].
  assert (Hbody : loop_body E out tc total_count i r c w =
            (Ok (add_failed c 1),
             with_trace w1 (progress_line total_count i (add_failed c 1)))).
  { unfold loop_body. rewrite bind_run, Hrun. cbn [account]. run.
    now rewrite progress_line_run. }
  split; [exact Hbody|].
  cbn [download_loop]. now rewrite bind_run, Hbody.
Qed.

Lemma transfer_exception_is_a_failure_witness :
  exists w1,
    download_recording (Sample.env false) Sample.rec_b Sample.videos (PInt 0)
                       2 3 (Sample.start sample_archive) = (Ok Failed, w1).
Proof.
  destruct (transfer_exception_is_a_failure nat (Sample.env false)
              Sample.videos (PInt 0) 3 2 Sample.rec_b [Sample.rec_c] no_counts
              (Sample.start sample_archive) 1721829200 1721829230
              {| art_date_folder := "2024/07/24";
                 art_output_dir := "/videos/2024/07/24";
                 art_filename := "20240724_155320-1721829200.mp4";
                 art_filepath :=
                   "/videos/2024/07/24/20240724_155320-1721829200.mp4" |}
              sample_archive (CameraError "stream closed"))
    as (w1 & H & _); try (vm_compute; reflexivity).
  exists w1. exact H.
Defined.

(** C9, as the code has it. With the delete flag off,
    [try_delete_recording] is still called after each successful download,
    but it returns [False] at once: it sends no request to the camera, and
    [deleted] keeps its value through the whole run. *)
Theorem no_deletion_request_when_flag_off (Cam : Type) (E : Env Cam)
  (out : string) (tc : pyval) (total_count i : Z) (r : pydict)
  (recs : list pydict) (c : Counters) (w : World Cam) :
  DELETE_AFTER_DOWNLOAD E = false ->
  try_delete_recording E r w = (Ok false, with_trace w [EnterTryDeleteRecording r]) /\
  (exists delta,
     w_trace (snd (download_loop E out tc total_count i recs c w)) =
       w_trace w ++ delta /\
     Forall (fun ev => is_delete_request ev = false) delta /\
     forall c', fst (download_loop E out tc total_count i recs c w) = Ok c' ->
                deleted c' = deleted c) /\
  (forall c', fst (loop_body E out tc total_count i r c w) = Ok c' ->
     successful c' = successful c + 1 ->
     exists delta,
       w_trace (snd (loop_body E out tc total_count i r c w)) = w_trace w ++ delta /\
       In (EnterTryDeleteRecording r) delta /\
       Forall (fun ev => is_delete_request ev = false) delta /\
       deleted c' = deleted c).
Proof.
  intros Hoff. split; [|split].
  - destruct (try_delete_recording_run E r w) as (b & delta & cam' & Hrun & _ & H).
    destruct (H Hoff) as (-> & -> & ->). exact Hrun.
  - destruct (download_loop_run E out tc total_count recs i c w)
      as (delta & Ht & Hreq & Hres).
    exists delta. split; [exact Ht|]. split; [exact (Hreq Hoff)|].
    intros c' Hc. rewrite Hc in Hres. now apply Hres.
  - intros c' Hc Hs.
    destruct (loop_body_run E out tc total_count i r c w)
      as (delta & Ht & _ & Hreq & Hres).
    rewrite Hc in Hres. destruct Hres as (_ & _ & _ & Hd & Hin & _).
    exists delta. auto.
Qed.

Lemma no_deletion_request_when_flag_off_witness :
  try_delete_recording (Sample.env false) Sample.rec_a
                       (Sample.start Sample.empty_disk) =
    (Ok false, with_trace (Sample.start Sample.empty_disk)
                          [EnterTryDeleteRecording Sample.rec_a]).
Proof.
  apply (no_deletion_request_when_flag_off nat (Sample.env false)
           Sample.videos (PInt 0) 1 1 Sample.rec_a [Sample.rec_a] no_counts
           (Sample.start Sample.empty_disk)).
  reflexivity.
Defined.

(** C9 as stated fails: with the flag off, one successful download is
    followed by a call of [try_delete_recording]. *)
Lemma deletion_entered_when_off : ~ never_enters_deletion_when_off.
Proof.
  intros H.
  destruct (H nat (Sample.env false) Sample.videos (PInt 0) 1 [Sample.rec_a]
              (Sample.start Sample.empty_disk) eq_refl eq_refl) as [Hall _].
  rewrite List.Forall_forall in Hall.
  specialize (Hall (EnterTryDeleteRecording Sample.rec_a)).
  assert (Hin : In (EnterTryDeleteRecording Sample.rec_a)
                  (w_trace (snd (download_loop (Sample.env false) Sample.videos
                     (PInt 0) 1 1 [Sample.rec_a] no_counts
                     (Sample.start Sample.empty_disk)))))
    by (vm_compute; tauto).
  specialize (Hall Hin). discriminate Hall.
Qed.

(** C10. At every point of a run [deleted <= successful]. In one turn of
    the loop [deleted] grows by at most one, and a deletion is attempted
    only right after the success line of that same recording's transfer;
    a turn that counts a skip attempts none. A run over recordings that
    are all on disk attempts no deletion, whatever the delete flag says. *)
Theorem deletion_only_after_download (Cam : Type) (E : Env Cam)
  (out : string) (tc : pyval) (total_count : Z) (done : list pydict)
  (r : pydict) (c c' : Counters) (w : World Cam) :
  let w1 := snd (download_loop E out tc total_count 1 done no_counts w) in
  let i := 1 + Z.of_nat (length done) in
  fst (download_loop E out tc total_count 1 done no_counts w) = Ok c ->
  fst (loop_body E out tc total_count i r c w1) = Ok c' ->
  deleted c <= successful c /\
  deleted c' <= successful c' /\
  deleted c <= deleted c' <= deleted c + 1 /\
  (exists delta,
     w_trace (snd (loop_body E out tc total_count i r c w1)) = w_trace w1 ++ delta /\
     deletion_follows_download r delta /\
     (skipped c' = skipped c + 1 ->
      Forall (fun ev => is_delete_event ev = false) delta)) /\
  (fs_wf (w_fs w) = true ->
   Forall (on_disk (utcoffset E) out (w_fs w)) done ->
   exists delta,
     w1 = with_trace w delta /\
     Forall (fun ev => is_delete_event ev = false) delta /\
     deleted c = 0 /\ successful c = 0).
Proof.
  intros w1 i Hdone Hstep.
  destruct (download_loop_run E out tc total_count done 1 no_counts w)
    as (d0 & _ & _ & Hres).
  rewrite Hdone in Hres. destruct Hres as (_ & Hd0 & Hds & _).
  change (deleted no_counts) with 0 in *.
  change (successful no_counts) with 0 in *.
  destruct (loop_body_run E out tc total_count i r c w1)
    as (delta & Ht & Hfollow & _ & Hres).
  rewrite Hstep in Hres. destruct Hres as (Hc & Hd & Hor & _ & _ & Hskip & _).
  assert (Hsucc : successful c <= successful c')
    by (unfold counted_once in Hc; lia).
  repeat split; try lia.
  - exists delta. repeat split; try assumption.
    intros Hk. eapply List.Forall_impl; [|exact (Hskip Hk)]. now intros ? [? _].
  - intros Hwf Hall.
    destruct (existing_archive_loop E out tc total_count done 1 no_counts w
                Hwf Hall) as (delta0 & Hrun & Hev).
    exists delta0. subst w1. rewrite Hrun in Hdone |- *. cbn [fst snd] in *.
    injection Hdone as <-. repeat split; try reflexivity.
    eapply List.Forall_impl; [|exact Hev]. now intros ? [? _].
Qed.

Lemma deletion_only_after_download_witness :
  deleted {| successful := 1; failed := 1; skipped := 0; deleted := 1 |} <=
  successful {| successful := 1; failed := 1; skipped := 0; deleted := 1 |} /\
  deleted {| successful := 2; failed := 1; skipped := 0; deleted := 2 |} <=
  successful {| successful := 2; failed := 1; skipped := 0; deleted := 2 |}.
Proof.
  destruct (deletion_only_after_download nat (Sample.env true) Sample.videos
              (PInt 0) 3 [Sample.rec_a; Sample.rec_b] Sample.rec_c
              {| successful := 1; failed := 1; skipped := 0; deleted := 1 |}
              {| successful := 2; failed := 1; skipped := 0; deleted := 2 |}
              (Sample.start Sample.empty_disk))
    as (H1 & H2 & _); [vm_compute; reflexivity | vm_compute; reflexivity |].
  split; assumption.
Defined.

(** ** Progress reports of one transfer *)

(** C7, as the code has it. From [last_percent = -1], every percentage
    line shows a multiple of 5 that was derived from a status with a
    positive total and that differs from the percentage shown before it;
    nothing else triggers such a line. When the percentages of the transfer
    never decrease and stay within 0..100, at most 21 lines are printed:
    one for each multiple of 5 from 0 to 100. *)
Theorem percent_reports_in_steps_of_five (Cam : Type) (statuses : list Status)
  (w : World Cam) :
  exists lines,
    snd (consume (-1) statuses w) = with_trace w (map Print lines) /\
    Forall (fun q => q mod 5 = 0 /\
                     exists status, In status statuses /\
                       0 < total_of status /\ percent_at status = Ok q)
           (percents_shown (map Print lines)) /\
    distinct_neighbours (-1 :: percents_shown (map Print lines)) /\
    (steady (-1) statuses = true ->
     (length (percents_shown (map Print lines)) <= 21)%nat).
Proof.
  destruct (consume_percents statuses (-1) w) as (lines & Hrun & Hall & Hd & Hb).
  exists lines. repeat split; try assumption.
  intros Hst. specialize (Hb (-1) ltac:(lia) ltac:(lia) Hst).
  change (20 - -1 / 5) with 21 in Hb. lia.
Qed.

Lemma percent_reports_in_steps_of_five_witness :
  (length (percents_shown (progress_output twenty_one_steps)) <= 21)%nat.
Proof.
  destruct (percent_reports_in_steps_of_five unit twenty_one_steps blank)
    as (lines & Hrun & _ & _ & Hb).
  unfold progress_output. fold blank. rewrite Hrun. cbn [with_trace w_trace blank app].
  apply Hb. vm_compute. reflexivity.
Defined.

(** C7 as stated fails: a transfer reporting 0, 5, 10, ..., 100 of 100
    prints 21 percentage lines. *)
Lemma twenty_one_percent_reports : ~ at_most_20_percent_reports.
Proof.
  intros H. destruct (H twenty_one_steps) as [_ Hlen].
  - unfold twenty_one_steps. apply List.Forall_forall. intros s [k [<- _]]%in_map_iff.
    reflexivity.
  - vm_compute in Hlen. lia.
Qed.

(** C8, as the code has it. When every status has total 0, the transfer
    loop prints the action label of every status whose label is not
    ["Downloading"], whether or not the label changed, prints nothing for
    the others, and never prints a percentage. *)
Theorem indeterminate_statuses_report_every_action (Cam : Type)
  (statuses : list Status) (last : Z) (w : World Cam) :
  Forall (fun status => total_of status = 0) statuses ->
  let reported :=
    List.filter (fun action => negb (String.eqb action "Downloading"))
                (map currentAction statuses) in
  consume last statuses w =
    (Ok tt, with_trace w (map (fun action => Print (LAction action)) reported)) /\
  actions_shown (map (fun action => Print (LAction action)) reported) = reported /\
  percents_shown (map (fun action => Print (LAction action)) reported) = [].
Proof.
  intros Hall reported. split; [now apply consume_indeterminate|].
  clearbody reported. induction reported as [|a l [IH1 IH2]]; [now split|].
  cbn [map actions_shown percents_shown flat_map app].
  fold (actions_shown (map (fun action => Print (LAction action)) l)).
  fold (percents_shown (map (fun action => Print (LAction action)) l)).
  now rewrite IH1, IH2.
Qed.

Lemma indeterminate_statuses_report_every_action_witness :
  consume (-1) connecting_twice blank =
    (Ok tt, with_trace blank [Print (LAction "Connecting");
                              Print (LAction "Connecting")]).
Proof.
  apply (indeterminate_statuses_report_every_action unit connecting_twice (-1) blank).
  repeat constructor.
Defined.

(** C8 as stated fails: the same label twice in a row is reported twice,
    though it changed once. *)
Lemma unchanged_label_reported_again : ~ reports_label_changes_only.
Proof.
  intros H. destruct (H connecting_twice) as [Hsub _]; [repeat constructor|].
  apply sublist_length in Hsub. vm_compute in Hsub. lia.
Qed.

(** * Further properties *)

(** ** One turn of the loop, case by case *)

Ltac splits := repeat match goal with |- _ /\ _ => split end.

Section DeletionCases.
Import PyStr PyPath PyTime PyOs.
Context {Cam : Type} (E : Env Cam).

(** With the flag on and both times present: the first request, then
    the second only when the first was refused, then the verdict. *)
Lemma try_delete_recording_on r sv ev (w : World Cam) :
  DELETE_AFTER_DOWNLOAD E = true ->
  getitem r "startTime" = Ok sv -> getitem r "endTime" = Ok ev ->
  exists b k cam',
    (k = 1 \/ k = 2)%nat /\ (b = false -> k = 2%nat) /\
    (fst (executeFunction E (w_cam w) "deleteRecording" (DeleteVideo 0 sv ev))
       = true <-> k = 1%nat) /\
    try_delete_recording E r w =
      (Ok b, {| w_fs := w_fs w; w_cam := cam';
                w_trace := w_trace w ++ EnterTryDeleteRecording r
                  :: firstn k (deletion_requests sv ev)
                  ++ [deletion_verdict b] |}).
Proof.
  intros Hon Hs He. unfold try_delete_recording, delete_attempts, try_except.
  rewrite Hon, Hs, He. run. cbn [negb run_attempts]. run.
  destruct (executeFunction E (w_cam w) "deleteRecording" (DeleteVideo 0 sv ev))
    as [b1 c1]. run. destruct b1.
  - exists true, 1%nat, c1. run. rewrite <- !app_assoc.
    split; [now left|]. split; [discriminate|]. split; [easy|]. reflexivity.
  - run. destruct (executeFunction E c1 "do" (Delete sv ev)) as [b2 c2]. run.
    destruct b2; [exists true, 2%nat, c2 | exists false, 2%nat, c2];
      run; rewrite <- !app_assoc;
      (split; [now right|]; split; [easy|]; split; [easy|]; reflexivity).
Qed.

(** With the flag on and a time missing: the error line, no request. *)
Lemma try_delete_recording_missing r x (w : World Cam) :
  DELETE_AFTER_DOWNLOAD E = true ->
  delete_attempts r = Raise x ->
  try_delete_recording E r w =
    (Ok false, with_trace w [EnterTryDeleteRecording r; Print (LDeleteError x)]).
Proof.
  intros Hon Hx. unfold try_delete_recording, try_except.
  rewrite Hon, Hx. run. cbn [negb]. run. unfold with_trace.
  cbn [w_fs w_cam w_trace]. now rewrite <- !app_assoc.
Qed.

Lemma try_delete_recording_off r (w : World Cam) :
  DELETE_AFTER_DOWNLOAD E = false ->
  try_delete_recording E r w =
    (Ok false, with_trace w [EnterTryDeleteRecording r]).
Proof.
  intros Hoff. unfold try_delete_recording. rewrite Hoff. run. cbn [negb]. run.
  reflexivity.
Qed.

(** One turn of the loop, outcome by outcome. *)
Lemma loop_body_cases out tc n i r c (w : World Cam) :
  match loop_body E out tc n i r c w with
  | (Raise x, w2) =>
      prepare (utcoffset E) out (w_fs w) r = Raise x /\
      w2 = with_trace w [EnterDownloadRecording r]
  | (Ok c', w2) =>
      exists result w1 dd,
        download_recording E r out tc i n w = (Ok result, w1) /\
        w_fs w2 = w_fs w1 /\
        w_trace w2 = w_trace w1 ++ dd ++ progress_line n i c' /\
        match result with
        | Skipped => c' = add_skipped c 1 /\ dd = [] /\ w_cam w2 = w_cam w1
        | Failed => c' = add_failed c 1 /\ dd = [] /\ w_cam w2 = w_cam w1
        | Downloaded =>
            exists b, c' = add_downloaded c b /\
              if DELETE_AFTER_DOWNLOAD E then
                exists sv ev k,
                  getitem r "startTime" = Ok sv /\ getitem r "endTime" = Ok ev /\
                  (k = 1 \/ k = 2)%nat /\ (b = false -> k = 2%nat) /\
                  dd = EnterTryDeleteRecording r
                         :: firstn k (deletion_requests sv ev)
                         ++ [deletion_verdict b]
              else b = false /\ dd = [EnterTryDeleteRecording r] /\
                   w_cam w2 = w_cam w1
        end
  end.
Proof.
  unfold loop_body. rewrite bind_run.
  pose proof (download_recording_cases E r out tc i n w) as Hrec.
  destruct (download_recording E r out tc i n w) as [[result|x] w1];
    [|exact Hrec].
  rewrite bind_run.
  destruct result; cbn [account].
  - run. rewrite progress_line_run. exists Skipped, w1, [].
    cbn [with_trace w_fs w_cam w_trace app]. splits; reflexivity.
  - destruct Hrec as (s & e & art & fs1 & Hprep & _).
    apply prepare_inv in Hprep as (Ht & _ & _).
    destruct (recording_times_inv _ _ _ Ht) as (sv & ev & Hsv & Hev & _ & _).
    rewrite bind_run.
    destruct (DELETE_AFTER_DOWNLOAD E) eqn:Hflag.
    + destruct (try_delete_recording_on r sv ev w1 Hflag Hsv Hev)
        as (b & k & cam' & Hk & Hb & _ & ->).
      run. rewrite progress_line_run.
      exists Downloaded, w1,
        (EnterTryDeleteRecording r :: firstn k (deletion_requests sv ev)
           ++ [deletion_verdict b]).
      cbn [with_trace w_fs w_cam w_trace].
      split; [reflexivity|]. split; [reflexivity|].
      split; [now rewrite <- app_assoc|].
      exists b. split; [reflexivity|].
      exists sv, ev, k. auto.
    + rewrite (try_delete_recording_off r w1 Hflag). run.
      rewrite progress_line_run. exists Downloaded, w1, [EnterTryDeleteRecording r].
      cbn [with_trace w_fs w_cam w_trace].
      split; [reflexivity|]. split; [reflexivity|].
      split; [now rewrite <- !app_assoc|].
      exists false. auto.
  - run. rewrite progress_line_run. exists Failed, w1, [].
    cbn [with_trace w_fs w_cam w_trace app]. splits; reflexivity.
Qed.
End DeletionCases.

Section LoopRules.
Import PyStr PyPath PyTime PyOs.
Context {Cam : Type} (E : Env Cam).

(** A turn that ran to its end has one of the three shapes. *)
Lemma loop_body_turn out tc n i r c (w : World Cam) c' w' :
  loop_body E out tc n i r c w = (Ok c', w') ->
  exists delta,
    w_trace w' = w_trace w ++ delta /\
    turn_shape (utcoffset E) out r tc n i c c' delta /\
    (DELETE_AFTER_DOWNLOAD E = false ->
     Forall (fun ev => is_delete_request ev = false) delta).
Proof.
  intros Hrun. pose proof (loop_body_cases E out tc n i r c w) as H.
  rewrite Hrun in H. destruct H as (result & w1 & dd & Hrec & _ & Ht & Hres).
  pose proof (download_recording_cases E r out tc i n w) as Hc.
  rewrite Hrec in Hc. destruct Hc as (s & e & art & fs1 & Hprep & Hc).
  apply prepare_inv in Hprep as (Htimes & Hplan & _).
  pose proof (progress_line_events n i c') as Hstat.
  assert (Hst : Forall (fun ev => is_delete_request ev = false)
                       (progress_line n i c')).
  { eapply List.Forall_impl; [|exact Hstat].
    intros ev (Hd & _). now apply not_delete_no_request. }
  destruct result.
  - destruct Hc as (size & _ & ->). destruct Hres as (-> & -> & _).
    cbn [w_trace app] in Ht. eexists. split; [rewrite Ht, <- app_assoc; reflexivity|].
    split.
    + exists s, e, art. split; [exact Htimes|]. split; [exact Hplan|]. left. now exists size.
    + intros _. cbn [app]. repeat (constructor; [reflexivity|]). exact Hst.
  - cbv zeta in Hc. destruct Hc as (_ & _ & lines & Hl & ->).
    destruct Hres as (b & -> & Hdel). cbn [w_trace] in Ht.
    assert (Hlines : Forall (fun ev => is_delete_request ev = false)
                            (map Print lines)).
    { apply List.Forall_forall. intros ev [l [<- _]]%in_map_iff. reflexivity. }
    eexists. split; [rewrite Ht, <- !app_assoc; reflexivity|]. split.
    + exists s, e, art. split; [exact Htimes|]. split; [exact Hplan|]. right. right.
      exists lines, b, dd. split; [exact Hl|]. split; [|split; [|reflexivity]];
        [|reflexivity].
      destruct (DELETE_AFTER_DOWNLOAD E).
      * destruct Hdel as (sv & ev & k & Hsv & Hev & Hk & Hb & ->).
        right. now exists sv, ev, k.
      * destruct Hdel as (-> & -> & _). now left.
    + intros Hoff. rewrite Hoff in Hdel. destruct Hdel as (-> & -> & _).
      unfold transfer_header. cbn [app].
      repeat (constructor; [reflexivity|]).
      apply Forall_app. split; [exact Hlines|].
      repeat (constructor; [reflexivity|]). exact Hst.
  - cbv zeta in Hc. destruct Hc as (_ & lines & x & Hl & ->).
    destruct Hres as (-> & -> & _). cbn [w_trace app] in Ht.
    assert (Hlines : Forall (fun ev => is_delete_request ev = false)
                            (map Print lines)).
    { apply List.Forall_forall. intros ev [l [<- _]]%in_map_iff. reflexivity. }
    eexists. split; [rewrite Ht, <- !app_assoc; reflexivity|]. split.
    + exists s, e, art. split; [exact Htimes|]. split; [exact Hplan|]. right. left.
      exists lines, x. auto.
    + intros _. unfold transfer_header. cbn [app].
      repeat (constructor; [reflexivity|]).
      apply Forall_app. split; [exact Hlines|].
      repeat (constructor; [reflexivity|]). exact Hst.
Qed.

(** The loop as a chain of turns: what holds before the first turn and
    is carried over by every turn that runs to its end holds of a run
    that returns. *)
Lemma download_loop_rule (P : list pydict -> Counters -> World Cam -> Prop)
  out tc n i recs c (w : World Cam) :
  P [] c w ->
  (forall done r rest cj wj c' w',
     recs = done ++ r :: rest -> P done cj wj ->
     loop_body E out tc n (i + Z.of_nat (length done)) r cj wj = (Ok c', w') ->
     P (done ++ [r]) c' w') ->
  forall c' w',
    download_loop E out tc n i recs c w = (Ok c', w') -> P recs c' w'.
Proof.
  intros H0 Hstep c' w'.
  assert (Hgen : forall rest done cj wj,
             recs = done ++ rest -> P done cj wj ->
             download_loop E out tc n (i + Z.of_nat (length done)) rest cj wj
               = (Ok c', w') ->
             P recs c' w').
  { induction rest as [|r rest IH]; intros done cj wj Hrecs HP Hrun.
    - cbn in Hrun. injection Hrun as <- <-. rewrite app_nil_r in Hrecs.
      now subst.
    - cbn [download_loop] in Hrun. rewrite bind_run in Hrun.
      destruct (loop_body E out tc n (i + Z.of_nat (length done)) r cj wj)
        as [[c1|x] w1] eqn:Hbody; [|discriminate].
      apply (IH (done ++ [r]) c1 w1).
      + now rewrite <- app_assoc.
      + exact (Hstep done r rest cj wj c1 w1 Hrecs HP Hbody).
      + rewrite length_app, Nat2Z.inj_add. cbn [length].
        now replace (i + (Z.of_nat (length done) + Z.of_nat 1))
          with (i + Z.of_nat (length done) + 1) by lia. }
  intros Hrun. apply (Hgen recs [] c w); [reflexivity | exact H0|].
  cbn [length]. now rewrite Z.add_0_r.
Qed.

(** A run of the loop that raises stopped in the preparation of one
    recording: the turns before it ran to their end, the recordings after
    it were never looked at. *)
Lemma download_loop_raises out tc n recs : forall i c (w : World Cam) x w',
  download_loop E out tc n i recs c w = (Raise x, w') ->
  exists done r rest cj wj,
    recs = done ++ r :: rest /\
    download_loop E out tc n i done c w = (Ok cj, wj) /\
    prepare (utcoffset E) out (w_fs wj) r = Raise x /\
    w' = with_trace wj [EnterDownloadRecording r].
Proof.
  induction recs as [|r recs IH]; intros i c w x w' Hrun; [discriminate|].
  cbn [download_loop] in Hrun. rewrite bind_run in Hrun.
  pose proof (loop_body_cases E out tc n i r c w) as Hcase.
  destruct (loop_body E out tc n i r c w) as [[c1|y] w1] eqn:Hbody.
  - destruct (IH _ _ _ _ _ Hrun) as (done & r' & rest & cj & wj & -> & Hd & Hp & ->).
    exists (r :: done), r', rest, cj, wj. split; [reflexivity|].
    split; [|now split]. cbn [download_loop]. now rewrite bind_run, Hbody.
  - injection Hrun as <- <-. destruct Hcase as [Hp ->].
    exists [], r, recs, c, w. now repeat split.
Qed.
End LoopRules.

Section TurnProjections.
Import PyStr PyPath PyTime PyOs.

Lemma count_events_app p a b :
  count_events p (a ++ b) = count_events p a + count_events p b.
Proof.
  unfold count_events. rewrite List.filter_app, length_app. lia.
Qed.

Lemma progress_lines_filter p lines :
  forallb is_progress_line lines = true ->
  (forall l, is_progress_line l = true -> p (Print l) = false) ->
  List.filter p (map Print lines) = [].
Proof.
  intros Hl Hp. induction lines as [|l lines IH]; [reflexivity|].
  cbn [forallb] in Hl. apply andb_true_iff in Hl as [H1 H2].
  cbn [map List.filter]. rewrite (Hp l H1). exact (IH H2).
Qed.

Lemma progress_lines_count p lines :
  forallb is_progress_line lines = true ->
  (forall l, is_progress_line l = true -> p (Print l) = false) ->
  count_events p (map Print lines) = 0.
Proof.
  intros Hl Hp. unfold count_events. now rewrite progress_lines_filter.
Qed.

Lemma progress_line_filter n i c :
  List.filter is_statistics_line (progress_line n i c) = progress_line n i c.
Proof.
  unfold progress_line. now destruct ((i mod 10 =? 0) || (i =? n))%bool.
Qed.

(** What the deletion part of a turn shows. *)
Lemma deletion_shape_counts r b dd :
  deletion_shape r b dd ->
  entered dd = [] /\ headers dd = [] /\ transfers dd = [] /\
  count_events is_downloaded_line dd = 0 /\
  count_events is_skip_line dd = 0 /\
  count_events is_error_line dd = 0 /\
  count_events is_deleted_line dd = (if b then 1 else 0) /\
  List.filter is_statistics_line dd = [] /\
  List.filter is_deletion_error_line dd = [].
Proof.
  intros [[-> ->]|(sv & ev & k & _ & _ & [->| ->] & Hb & ->)].
  - now repeat split.
  - destruct b; [|now specialize (Hb eq_refl)]. now repeat split.
  - destruct b; now repeat split.
Qed.

(** What one turn shows of itself: the recording it entered, the header
    it printed, the line that tells its outcome, its statistics line. *)
Lemma turn_shape_projections u out r tc n i c c' delta :
  turn_shape u out r tc n i c c' delta ->
  entered delta = [r] /\ headers delta = [(i, n)] /\
  successful c' = successful c + count_events is_downloaded_line delta /\
  skipped c' = skipped c + count_events is_skip_line delta /\
  failed c' = failed c + count_events is_error_line delta /\
  deleted c' = deleted c + count_events is_deleted_line delta /\
  List.filter is_deletion_error_line delta = [] /\
  List.filter is_statistics_line delta = progress_line n i c' /\
  exists pre, delta = pre ++ progress_line n i c'.
Proof.
  assert (Hquiet : forall {A} (f : Event -> list A),
            f (Print (LProgress (successful c') (skipped c') (failed c') (n - i)))
              = [] ->
            flat_map f (progress_line n i c') = []).
  { intros A f Hf. unfold progress_line.
    destruct ((i mod 10 =? 0) || (i =? n))%bool; [|reflexivity].
    cbn [flat_map]. now rewrite Hf. }
  assert (Hquiet' : forall p,
            p (Print (LProgress (successful c') (skipped c') (failed c') (n - i)))
              = false ->
            count_events p (progress_line n i c') = 0 /\
            List.filter p (progress_line n i c') = []).
  { intros p Hp. unfold progress_line, count_events.
    destruct ((i mod 10 =? 0) || (i =? n))%bool; [|now split].
    cbn [List.filter]. now rewrite Hp. }
  intros (s & e & art & _ & _ & [H|[H|H]]).
  - destruct H as (size & -> & ->).
    unfold entered, headers. rewrite !flat_map_app, !count_events_app,
      !List.filter_app, progress_line_filter, !Hquiet by reflexivity.
    destruct (Hquiet' is_downloaded_line eq_refl) as [-> _].
    destruct (Hquiet' is_skip_line eq_refl) as [-> _].
    destruct (Hquiet' is_error_line eq_refl) as [-> _].
    destruct (Hquiet' is_deleted_line eq_refl) as [-> _].
    destruct (Hquiet' is_deletion_error_line eq_refl) as [_ ->].
    cbn [add_skipped successful skipped failed deleted].
    splits; try reflexivity; try (unfold count_events; cbn; lia).
    eexists. reflexivity.
  - destruct H as (lines & x & Hl & -> & ->).
    unfold entered, headers, transfer_header.
    rewrite !flat_map_app, !count_events_app, !List.filter_app,
      progress_line_filter, !Hquiet by reflexivity.
    rewrite !(progress_lines_flat_map _ lines Hl) by (now intros []).
    rewrite !(progress_lines_count _ lines Hl) by (now intros []).
    rewrite !(progress_lines_filter _ lines Hl) by (now intros []).
    destruct (Hquiet' is_downloaded_line eq_refl) as [-> _].
    destruct (Hquiet' is_skip_line eq_refl) as [-> _].
    destruct (Hquiet' is_error_line eq_refl) as [-> _].
    destruct (Hquiet' is_deleted_line eq_refl) as [-> _].
    destruct (Hquiet' is_deletion_error_line eq_refl) as [_ ->].
    cbn [add_failed successful skipped failed deleted].
    splits; try reflexivity; try (unfold count_events; cbn; lia).
    eexists. rewrite !app_assoc. reflexivity.
  - destruct H as (lines & b & dd & Hl & Hdd & -> & ->).
    destruct (deletion_shape_counts _ _ _ Hdd)
      as (D1 & D2 & _ & D3 & D4 & D5 & D6 & D7 & D8).
    unfold entered, headers, transfer_header in *.
    rewrite !flat_map_app, !count_events_app, !List.filter_app,
      progress_line_filter, !Hquiet by reflexivity.
    rewrite !(progress_lines_flat_map _ lines Hl) by (now intros []).
    rewrite !(progress_lines_count _ lines Hl) by (now intros []).
    rewrite !(progress_lines_filter _ lines Hl) by (now intros []).
    destruct (Hquiet' is_downloaded_line eq_refl) as [-> _].
    destruct (Hquiet' is_skip_line eq_refl) as [-> _].
    destruct (Hquiet' is_error_line eq_refl) as [-> _].
    destruct (Hquiet' is_deleted_line eq_refl) as [-> _].
    destruct (Hquiet' is_deletion_error_line eq_refl) as [_ ->].
    rewrite D1, D2, D3, D4, D5, D6, D7, D8.
    cbn [add_downloaded successful skipped failed deleted].
    splits; try reflexivity; try (unfold count_events; cbn; destruct b; lia).
    eexists. rewrite !app_assoc. reflexivity.
Qed.
End TurnProjections.

Section LoopSummary.
Import PyStr PyPath PyTime PyOs.
Context {Cam : Type} (E : Env Cam).

Lemma turn_shape_transfers u out r tc n i c c' delta :
  turn_shape u out r tc n i c c' delta ->
  Forall (planned_request u out tc [r]) (transfers delta).
Proof.
  assert (Hquiet : transfers (progress_line n i c') = []).
  { unfold progress_line. now destruct ((i mod 10 =? 0) || (i =? n))%bool. }
  intros (s & e & art & Ht & Hp & [H|[H|H]]).
  - destruct H as (size & _ & ->). unfold transfers in *.
    rewrite flat_map_app, Hquiet. constructor.
  - destruct H as (lines & x & Hl & _ & ->). unfold transfers, transfer_header in *.
    rewrite !flat_map_app, Hquiet.
    rewrite (progress_lines_flat_map _ lines Hl) by (now intros []).
    cbn. constructor; [|constructor]. exists r, s, e, art. cbn. auto.
  - destruct H as (lines & b & dd & Hl & Hdd & _ & ->).
    destruct (deletion_shape_counts _ _ _ Hdd) as (_ & _ & D & _).
    unfold transfers, transfer_header in *.
    rewrite !flat_map_app, Hquiet, D.
    rewrite (progress_lines_flat_map _ lines Hl) by (now intros []).
    cbn. constructor; [|constructor]. exists r, s, e, art. cbn. auto.
Qed.

Lemma planned_request_mono u out tc a b req :
  (forall r, In r a -> In r b) ->
  planned_request u out tc a req -> planned_request u out tc b req.
Proof.
  intros Hab (r & s & e & art & Hin & H). exists r, s, e, art. auto.
Qed.

Lemma numbering_snoc i n k :
  numbering i n (S k) = numbering i n k ++ [(i + Z.of_nat k, n)].
Proof. unfold numbering. now rewrite seq_S, map_app. Qed.

(** A run of the loop that returns: every recording was entered once, in
    order and under the next number; each counter is the number of lines
    that tell its outcome; the deletion-error line never shows. *)
Lemma download_loop_summary out tc n i recs c (w : World Cam) c' w' :
  download_loop E out tc n i recs c w = (Ok c', w') ->
  exists delta,
    w_trace w' = w_trace w ++ delta /\
    entered delta = recs /\
    headers delta = numbering i n (length recs) /\
    successful c' = successful c + count_events is_downloaded_line delta /\
    skipped c' = skipped c + count_events is_skip_line delta /\
    failed c' = failed c + count_events is_error_line delta /\
    deleted c' = deleted c + count_events is_deleted_line delta /\
    List.filter is_deletion_error_line delta = [] /\
    Forall (planned_request (utcoffset E) out tc recs) (transfers delta).
Proof.
  apply (download_loop_rule E
    (fun done cj wj =>
       exists delta,
         w_trace wj = w_trace w ++ delta /\
         entered delta = done /\
         headers delta = numbering i n (length done) /\
         successful cj = successful c + count_events is_downloaded_line delta /\
         skipped cj = skipped c + count_events is_skip_line delta /\
         failed cj = failed c + count_events is_error_line delta /\
         deleted cj = deleted c + count_events is_deleted_line delta /\
         List.filter is_deletion_error_line delta = [] /\
         Forall (planned_request (utcoffset E) out tc recs) (transfers delta))).
  - exists []. rewrite app_nil_r.
    splits; try reflexivity; try (unfold count_events; cbn; lia). constructor.
  - intros done r rest cj wj c1 w1 Hrecs
      (d0 & Ht0 & He0 & Hh0 & Hs0 & Hk0 & Hf0 & Hd0 & Hx0 & Hr0) Hbody.
    destruct (loop_body_turn E _ _ _ _ _ _ _ _ _ Hbody) as (d1 & Ht1 & Hturn & _).
    destruct (turn_shape_projections _ _ _ _ _ _ _ _ _ Hturn)
      as (He1 & Hh1 & Hs1 & Hk1 & Hf1 & Hd1 & Hx1 & _ & _).
    pose proof (turn_shape_transfers _ _ _ _ _ _ _ _ _ Hturn) as Hr1.
    exists (d0 ++ d1). rewrite Ht1, Ht0, app_assoc.
    unfold entered, headers, transfers in *.
    rewrite !flat_map_app, !count_events_app, List.filter_app,
      He0, He1, Hh0, Hh1, Hx0, Hx1, length_app, Nat.add_1_r, numbering_snoc.
    splits; try reflexivity; try lia.
    apply Forall_app. split; [exact Hr0|].
    eapply List.Forall_impl; [|exact Hr1].
    intros req. apply planned_request_mono.
    intros r' [<-|[]]. subst recs. apply in_or_app. right. now left.
Qed.
End LoopSummary.

Section LoopTrace.
Import PyStr PyPath PyTime PyOs.
Context {Cam : Type} (E : Env Cam).

(** Any run of the loop, whether it returns or raises. *)
Lemma download_loop_trace out tc n i recs c (w : World Cam) :
  exists delta,
    w_trace (snd (download_loop E out tc n i recs c w)) = w_trace w ++ delta /\
    List.filter is_deletion_error_line delta = [] /\
    Forall (planned_request (utcoffset E) out tc recs) (transfers delta) /\
    match fst (download_loop E out tc n i recs c w) with
    | Ok _ => entered delta = recs /\ headers delta = numbering i n (length recs)
    | Raise _ =>
        exists done r rest,
          recs = done ++ r :: rest /\ entered delta = done ++ [r] /\
          headers delta = numbering i n (length done)
    end.
Proof.
  destruct (download_loop E out tc n i recs c w) as [[c'|x] w'] eqn:Hrun;
    cbn [fst snd].
  - destruct (download_loop_summary E _ _ _ _ _ _ _ _ _ Hrun)
      as (delta & Ht & He & Hh & _ & _ & _ & _ & Hx & Hr).
    exists delta. auto.
  - destruct (download_loop_raises E _ _ _ _ _ _ _ _ _ Hrun)
      as (done & r & rest & cj & wj & Hrecs & Hdone & _ & ->).
    destruct (download_loop_summary E _ _ _ _ _ _ _ _ _ Hdone)
      as (delta & Ht & He & Hh & _ & _ & _ & _ & Hx & Hr).
    exists (delta ++ [EnterDownloadRecording r]).
    cbn [with_trace w_trace]. rewrite Ht, <- app_assoc.
    unfold entered, headers, transfers in *.
    rewrite List.filter_app, !flat_map_app, Hx, He, Hh. cbn [List.filter
      is_deletion_error_line flat_map app]. rewrite !app_nil_r.
    splits; try reflexivity.
    + eapply List.Forall_impl; [|exact Hr]. intros req.
      apply planned_request_mono. intros r' Hin. subst recs.
      apply in_or_app. now left.
    + now exists done, r, rest.
Qed.
End LoopTrace.

(** X1. Every recording of the list is entered exactly once, in the order
    of the list, and announced under consecutive numbers from [i]. When
    the loop raises, that holds up to the recording it stopped at; the ones
    after it are never entered. *)
Theorem recordings_entered_once_in_order (Cam : Type) (E : Env Cam)
  (out : string) (tc : pyval) (n i : Z) (recs : list pydict) (c : Counters)
  (w : World Cam) :
  exists delta,
    w_trace (snd (download_loop E out tc n i recs c w)) = w_trace w ++ delta /\
    match fst (download_loop E out tc n i recs c w) with
    | Ok _ => entered delta = recs /\ headers delta = numbering i n (length recs)
    | Raise _ =>
        exists done r rest,
          recs = done ++ r :: rest /\ entered delta = done ++ [r] /\
          headers delta = numbering i n (length done)
    end.
Proof.
  destruct (download_loop_trace E out tc n i recs c w) as (delta & Ht & _ & _ & H).
  now exists delta.
Qed.

(** X2. Each outcome counter is the number of lines that report that
    outcome: success lines for [successful], skip headers for [skipped],
    download-error lines for [failed], deleted lines for [deleted]. *)
Theorem counters_match_report_lines (Cam : Type) (E : Env Cam)
  (out : string) (tc : pyval) (n i : Z) (recs : list pydict) (c c' : Counters)
  (w : World Cam) :
  fst (download_loop E out tc n i recs c w) = Ok c' ->
  exists delta,
    w_trace (snd (download_loop E out tc n i recs c w)) = w_trace w ++ delta /\
    successful c' = successful c + count_events is_downloaded_line delta /\
    skipped c' = skipped c + count_events is_skip_line delta /\
    failed c' = failed c + count_events is_error_line delta /\
    deleted c' = deleted c + count_events is_deleted_line delta.
Proof.
  intros Hrun.
  destruct (download_loop E out tc n i recs c w) as [r w'] eqn:Hloop.
  cbn [fst snd] in *. subst r.
  destruct (download_loop_summary E _ _ _ _ _ _ _ _ _ Hloop)
    as (delta & Ht & _ & _ & Hs & Hk & Hf & Hd & _).
  now exists delta.
Qed.

Lemma counters_match_report_lines_witness :
  exists delta,
    w_trace (snd (download_loop (Sample.env true) Sample.videos (PInt 0) 3 1
                    [Sample.rec_a; Sample.rec_b; Sample.rec_c] no_counts
                    (Sample.start Sample.empty_disk))) = [] ++ delta /\
    2 = 0 + count_events is_downloaded_line delta /\
    0 = 0 + count_events is_skip_line delta /\
    1 = 0 + count_events is_error_line delta /\
    2 = 0 + count_events is_deleted_line delta.
Proof.
  apply (counters_match_report_lines nat (Sample.env true) Sample.videos
           (PInt 0) 3 1 [Sample.rec_a; Sample.rec_b; Sample.rec_c] no_counts
           {| successful := 2; failed := 1; skipped := 0; deleted := 2 |}
           (Sample.start Sample.empty_disk)).
  vm_compute. reflexivity.
Defined.

(** X3. Inside the loop the deletion-error line is never printed: a
    deletion is only attempted on a recording whose two times were read
    for its download just before, so building the requests cannot fail. *)
Theorem no_deletion_error_in_the_loop (Cam : Type) (E : Env Cam)
  (out : string) (tc : pyval) (n i : Z) (recs : list pydict) (c : Counters)
  (w : World Cam) :
  exists delta,
    w_trace (snd (download_loop E out tc n i recs c w)) = w_trace w ++ delta /\
    List.filter is_deletion_error_line delta = [].
Proof.
  destruct (download_loop_trace E out tc n i recs c w) as (delta & Ht & Hx & _).
  now exists delta.
Qed.

Section RequestFacts.
Import PyStr PyPath PyTime PyOs.

Lemma str_prefix_app a b : String.prefix a (a +:+ b) = true.
Proof.
  induction a as [|x a IH]; [now destruct b|].
  cbn [String.append String.prefix]. now destruct (ascii_dec x x).
Qed.

Lemma str_prefix_app_r a : forall b c,
  String.prefix a b = true -> String.prefix a (b +:+ c) = true.
Proof.
  induction a as [|x a IH]; intros b c; [now destruct (b +:+ c)|].
  destruct b as [|y b]; [discriminate|].
  cbn [String.append String.prefix]. destruct (ascii_dec x y); [|discriminate].
  apply IH.
Qed.

Lemma stamp_no_sep dt : has_sep (stamp dt) = false.
Proof.
  unfold stamp. rewrite !has_sep_app, !digits_no_sep, dec_no_sep. reflexivity.
Qed.

(** What a plan promises about the names it makes. *)
Lemma plan_names u base t art :
  plan u base t = Ok art ->
  String.prefix base (art_output_dir art) = true /\
  has_sep (art_filename art) = false /\
  art_filepath art = (art_output_dir art +:+ "/") +:+ art_filename art.
Proof.
  intros H. destruct (plan_inv _ _ _ _ H) as (dt & Hdt & _ & _ & _ & _ & Hfp & _).
  rewrite (plan_shape _ _ _ _ Hdt) in H.
  apply (f_equal (fun r => match r with Ok a => a | Raise _ => art end)) in H.
  subst art. cbn [art_output_dir art_filename art_filepath] in *.
  split; [|split].
  - unfold join. destruct (date_dir_shape dt) as (_ & -> & _).
    destruct (_ || _)%bool; apply str_prefix_app.
  - rewrite !has_sep_app, stamp_no_sep, dec_no_sep. reflexivity.
  - now rewrite str_app_assoc.
Qed.
End RequestFacts.

Section StatisticsFacts.
Import PyStr PyPath PyTime PyOs.
Context {Cam : Type} (E : Env Cam).

Lemma progress_line_count n i c :
  count_events is_statistics_line (progress_line n i c) =
    if ((i mod 10 =? 0) || (i =? n))%bool then 1 else 0.
Proof.
  unfold progress_line. now destruct ((i mod 10 =? 0) || (i =? n))%bool.
Qed.

(** Numbered from 1 with the true total, the loop prints a statistics
    line in every tenth turn and in the last one. *)
Lemma download_loop_statistics out tc recs c (w : World Cam) c' w' :
  let n := Z.of_nat (length recs) in
  download_loop E out tc n 1 recs c w = (Ok c', w') ->
  exists delta,
    w_trace w' = w_trace w ++ delta /\
    count_events is_statistics_line delta = (n + 9) / 10 /\
    (recs <> [] ->
     exists pre,
       delta = pre ++ [Print (LProgress (successful c') (skipped c')
                                        (failed c') 0)]).
Proof.
  intros n Hrun.
  pose proof (download_loop_rule E
    (fun done cj wj =>
       let d := Z.of_nat (length done) in
       exists delta,
         w_trace wj = w_trace w ++ delta /\
         count_events is_statistics_line delta =
           d / 10 + (if ((d =? n) && negb (n mod 10 =? 0) && (0 <? d))%bool
                     then 1 else 0) /\
         (done <> [] -> exists pre, delta = pre ++ progress_line n d cj))
    out tc n 1 recs c w) as Hrule.
  cbv zeta in Hrule. destruct (Hrule) with (c' := c') (w' := w')
    as (delta & Ht & Hcount & Hlast); [| |exact Hrun|].
  - exists []. rewrite app_nil_r. split; [reflexivity|]. split; [|congruence].
    cbn [length]. change (Z.of_nat 0) with 0.
    rewrite andb_false_r. reflexivity.
  - intros done r rest cj wj c1 w1 Hrecs (d0 & Ht0 & Hc0 & _) Hbody.
    destruct (loop_body_turn E _ _ _ _ _ _ _ _ _ Hbody) as (d1 & Ht1 & Hturn & _).
    destruct (turn_shape_projections _ _ _ _ _ _ _ _ _ Hturn)
      as (_ & _ & _ & _ & _ & _ & _ & Hstat & pre & Hpre).
    assert (Hlen : Z.of_nat (length done) + 1 <= n).
    { unfold n. rewrite Hrecs, length_app. cbn [length]. lia. }
    exists (d0 ++ d1). rewrite Ht1, Ht0, app_assoc. split; [reflexivity|].
    rewrite length_app, Nat2Z.inj_add. cbn [length].
    change (Z.of_nat 1) with 1.
    replace (1 + Z.of_nat (length done)) with (Z.of_nat (length done) + 1)
      in * by lia.
    split.
    + rewrite count_events_app, Hc0.
      assert (Hd1 : count_events is_statistics_line d1 =
                    count_events is_statistics_line
                      (progress_line n (Z.of_nat (length done) + 1) c1))
        by (unfold count_events; now rewrite Hstat, progress_line_filter).
      rewrite Hd1, progress_line_count.
      set (d := Z.of_nat (length done)) in *.
      assert (0 <= d) by (unfold d; lia).
      destruct (Z.eqb_spec d n); [lia|]. cbn [andb].
      destruct (Z.eqb_spec ((d + 1) mod 10) 0) as [H10|H10];
        destruct (Z.eqb_spec (d + 1) n) as [Hn|Hn];
        destruct (Z.eqb_spec (n mod 10) 0) as [Hm|Hm];
        destruct (Z.ltb_spec 0 (d + 1)); cbn [orb andb negb];
        try (Z.to_euclidean_division_equations; lia).
    + intros _. exists (d0 ++ pre). rewrite Hpre, app_assoc. reflexivity.
  - exists delta. split; [exact Ht|]. split.
    + rewrite Hcount. fold n. assert (0 <= n) by (unfold n; lia).
      rewrite Z.eqb_refl. cbn [andb].
      destruct (Z.eqb_spec (n mod 10) 0); destruct (Z.ltb_spec 0 n);
        cbn [negb andb]; Z.to_euclidean_division_equations; lia.
    + intros Hne. destruct (Hlast Hne) as (pre & ->). exists pre.
      fold n. unfold progress_line. rewrite Z.eqb_refl, orb_true_r.
      now rewrite Z.sub_diag.
Qed.
End StatisticsFacts.

(** X4. With the flag on and both times in the recording,
    [try_delete_recording] sends ["deleteRecording"] first and ["do"] only
    when the first call raised; it stops at the first call that returns,
    prints the verdict, never raises and leaves the disk alone. *)
Theorem deletion_requests_tried_in_order (Cam : Type) (E : Env Cam)
  (r : pydict) (sv ev : pyval) (w : World Cam) :
  DELETE_AFTER_DOWNLOAD E = true ->
  getitem r "startTime" = Ok sv -> getitem r "endTime" = Ok ev ->
  let first := executeFunction E (w_cam w) "deleteRecording"
                 (DeleteVideo 0 sv ev) in
  let second := executeFunction E (snd first) "do" (Delete sv ev) in
  try_delete_recording E r w =
    if fst first then
      (Ok true,
       {| w_fs := w_fs w; w_cam := snd first;
          w_trace := w_trace w ++
            [EnterTryDeleteRecording r;
             ExecuteFunction "deleteRecording" (DeleteVideo 0 sv ev);
             Print LDeleted] |})
    else
      (Ok (fst second),
       {| w_fs := w_fs w; w_cam := snd second;
          w_trace := w_trace w ++
            [EnterTryDeleteRecording r;
             ExecuteFunction "deleteRecording" (DeleteVideo 0 sv ev);
             ExecuteFunction "do" (Delete sv ev);
             Print (if fst second then LDeleted else LDeleteUnsupported)] |}).
Proof.
  intros Hon Hs He first second. subst first second.
  unfold try_delete_recording, delete_attempts, try_except.
  rewrite Hon, Hs, He. run. cbn [negb run_attempts]. run.
  destruct (executeFunction E (w_cam w) "deleteRecording" (DeleteVideo 0 sv ev))
    as [b1 c1]. run. destruct b1; run.
  - now rewrite <- !app_assoc.
  - destruct (executeFunction E c1 "do" (Delete sv ev)) as [b2 c2]. run.
    destruct b2; run; now rewrite <- !app_assoc.
Qed.

Lemma deletion_requests_tried_in_order_witness :
  try_delete_recording (Sample.env true) Sample.rec_a
                       (Sample.start Sample.empty_disk) =
    (Ok true,
     {| w_fs := Sample.empty_disk; w_cam := O;
        w_trace :=
          [EnterTryDeleteRecording Sample.rec_a;
           ExecuteFunction "deleteRecording"
             (DeleteVideo 0 (PInt 1721829154) (PInt 1721829184));
           ExecuteFunction "do" (Delete (PInt 1721829154) (PInt 1721829184));
           Print LDeleted] |}).
Proof.
  apply (deletion_requests_tried_in_order nat (Sample.env true) Sample.rec_a
           (PInt 1721829154) (PInt 1721829184)
           (Sample.start Sample.empty_disk)); reflexivity.
Defined.

(** X5. With the flag on, a recording that lacks one of its two times
    makes [try_delete_recording] print the deletion-error line with the
    [KeyError] and return [False]; no request reaches the camera. *)
Theorem deletion_attempt_without_times (Cam : Type) (E : Env Cam)
  (r : pydict) (w : World Cam) :
  DELETE_AFTER_DOWNLOAD E = true ->
  (dict_has "startTime" r && dict_has "endTime" r)%bool = false ->
  exists key,
    (key = "startTime" \/ key = "endTime") /\ dict_has key r = false /\
    try_delete_recording E r w =
      (Ok false,
       with_trace w [EnterTryDeleteRecording r;
                     Print (LDeleteError (KeyError key))]).
Proof.
  intros Hon Hkeys. unfold dict_has in Hkeys.
  destruct (dict_find "startTime" r) as [sv|] eqn:Hs.
  - destruct (dict_find "endTime" r) as [ev|] eqn:He; [discriminate|].
    exists "endTime". split; [now right|]. split; [unfold dict_has; now rewrite He|].
    apply try_delete_recording_missing; [exact Hon|].
    unfold delete_attempts, getitem. now rewrite Hs, He.
  - exists "startTime". split; [now left|].
    split; [unfold dict_has; now rewrite Hs|].
    apply try_delete_recording_missing; [exact Hon|].
    unfold delete_attempts, getitem. now rewrite Hs.
Qed.

Lemma deletion_attempt_without_times_witness :
  exists key,
    (key = "startTime" \/ key = "endTime") /\
    dict_has key [("startTime", PInt 1721829154)] = false /\
    try_delete_recording (Sample.env true) [("startTime", PInt 1721829154)]
                         (Sample.start Sample.empty_disk) =
      (Ok false,
       with_trace (Sample.start Sample.empty_disk)
         [EnterTryDeleteRecording [("startTime", PInt 1721829154)];
          Print (LDeleteError (KeyError key))]).
Proof.
  apply (deletion_attempt_without_times nat (Sample.env true)
           [("startTime", PInt 1721829154)] (Sample.start Sample.empty_disk));
    reflexivity.
Defined.

(** X6. Every request the loop gives to the downloader belongs to one of
    the recordings: it carries that recording's two times, the time
    correction and the window size 1000 unchanged, its folder lies below the
    output folder, its file name holds no separator, and folder and name
    together spell the very path whose existence was checked. *)
Theorem transfers_target_the_checked_path (Cam : Type) (E : Env Cam)
  (out : string) (tc : pyval) (n i : Z) (recs : list pydict) (c : Counters)
  (w : World Cam) :
  exists delta,
    w_trace (snd (download_loop E out tc n i recs c w)) = w_trace w ++ delta /\
    Forall (fun req =>
              exists r s e art,
                In r recs /\ recording_times r = Ok (s, e) /\
                plan (utcoffset E) out s = Ok art /\
                dr_start_time req = s /\ dr_end_time req = e /\
                dr_time_correction req = tc /\ dr_window_size req = 1000 /\
                dr_output_dir req +:+ dr_fileName req = art_filepath art /\
                String.prefix out (dr_output_dir req) = true /\
                has_sep (dr_fileName req) = false)
           (transfers delta).
Proof.
  destruct (download_loop_trace E out tc n i recs c w) as (delta & Ht & _ & Hr & _).
  exists delta. split; [exact Ht|].
  eapply List.Forall_impl; [|exact Hr].
  intros req (r & s & e & art & Hin & Htimes & Hplan & ->).
  destruct (plan_names _ _ _ _ Hplan) as (Hpre & Hsep & Hfp).
  exists r, s, e, art. unfold request.
  cbn [dr_start_time dr_end_time dr_time_correction dr_window_size
       dr_output_dir dr_fileName].
  splits; try reflexivity; try assumption.
  - now rewrite Hfp.
  - now apply str_prefix_app_r.
Qed.

(** X7. Numbered from 1 with the true total, a run over [n] recordings
    prints [(n + 9) / 10] statistics lines, one in every tenth turn and one
    in the last; the last event of the run is the statistics line of the
    final counters with nothing remaining. *)
Theorem statistics_every_ten_turns_and_at_the_end (Cam : Type) (E : Env Cam)
  (out : string) (tc : pyval) (recs : list pydict) (c c' : Counters)
  (w : World Cam) :
  let n := Z.of_nat (length recs) in
  fst (download_loop E out tc n 1 recs c w) = Ok c' ->
  exists delta,
    w_trace (snd (download_loop E out tc n 1 recs c w)) = w_trace w ++ delta /\
    count_events is_statistics_line delta = (n + 9) / 10 /\
    (recs <> [] ->
     exists pre,
       delta = pre ++ [Print (LProgress (successful c') (skipped c')
                                        (failed c') 0)]).
Proof.
  intros n Hrun.
  destruct (download_loop E out tc n 1 recs c w) as [r w'] eqn:Hloop.
  cbn [fst snd] in *. subst r.
  exact (download_loop_statistics E out tc recs c w c' w' Hloop).
Qed.

Lemma statistics_every_ten_turns_and_at_the_end_witness :
  exists delta,
    w_trace (snd (download_loop (Sample.env false) Sample.videos (PInt 0) 3 1
                    [Sample.rec_a; Sample.rec_b; Sample.rec_c] no_counts
                    (Sample.start Sample.empty_disk))) = [] ++ delta /\
    count_events is_statistics_line delta = (3 + 9) / 10 /\
    ([Sample.rec_a; Sample.rec_b; Sample.rec_c] <> [] ->
     exists pre, delta = pre ++ [Print (LProgress 2 0 1 0)]).
Proof.
  apply (statistics_every_ten_turns_and_at_the_end nat (Sample.env false)
           Sample.videos (PInt 0) [Sample.rec_a; Sample.rec_b; Sample.rec_c]
           no_counts
           {| successful := 2; failed := 1; skipped := 0; deleted := 0 |}
           (Sample.start Sample.empty_disk)).
  vm_compute. reflexivity.
Defined.

(** X8. [download_recording] raises exactly when its preparation does: a
    time missing or not an integer, a start time [datetime] cannot
    represent, or a date folder that cannot be made. The exception then
    ends the loop at once: nothing is printed for the recording, it is not
    counted as failed, and the recordings after it are not entered. *)
Theorem preparation_error_ends_the_loop (Cam : Type) (E : Env Cam)
  (out : string) (tc : pyval) (n i : Z) (r : pydict) (rest : list pydict)
  (c : Counters) (w : World Cam) (x : exn) :
  (prepare (utcoffset E) out (w_fs w) r = Raise x <->
   fst (download_recording E r out tc i n w) = Raise x) /\
  (prepare (utcoffset E) out (w_fs w) r = Raise x ->
   download_recording E r out tc i n w =
     (Raise x, with_trace w [EnterDownloadRecording r]) /\
   download_loop E out tc n i (r :: rest) c w =
     (Raise x, with_trace w [EnterDownloadRecording r])).
Proof.
  pose proof (download_recording_cases E r out tc i n w) as Hc.
  assert (Hrun : prepare (utcoffset E) out (w_fs w) r = Raise x ->
                 download_recording E r out tc i n w =
                   (Raise x, with_trace w [EnterDownloadRecording r])).
  { intros Hp. destruct (download_recording E r out tc i n w) as [[result|y] w1].
    - destruct Hc as (s & e & art & fs1 & Hp' & _). congruence.
    - destruct Hc as [Hp' ->]. congruence. }
  split; [split|].
  - intros Hp. now rewrite (Hrun Hp).
  - intros Hr. destruct (download_recording E r out tc i n w) as [[result|y] w1];
      cbn [fst] in Hr; [discriminate|]. injection Hr as ->. apply Hc.
  - intros Hp. split; [exact (Hrun Hp)|].
    cbn [download_loop]. unfold loop_body. now rewrite !bind_run, (Hrun Hp).
Qed.

Lemma preparation_error_ends_the_loop_witness :
  download_loop (Sample.env true) Sample.videos (PInt 0) 2 1
    [Sample.recording 1000000000000000 1000000000000030; Sample.rec_a]
    no_counts (Sample.start Sample.empty_disk) =
    (Raise ValueError,
     with_trace (Sample.start Sample.empty_disk)
       [EnterDownloadRecording
          (Sample.recording 1000000000000000 1000000000000030)]).
Proof.
  apply (preparation_error_ends_the_loop nat (Sample.env true) Sample.videos
           (PInt 0) 2 1 (Sample.recording 1000000000000000 1000000000000030)
           [Sample.rec_a] no_counts (Sample.start Sample.empty_disk) ValueError).
  vm_compute. reflexivity.
Defined.

(** ** The disk *)

Section MakedirsFacts.
Import PyStr PyPath PyOs.

(** One level: the directory is there afterwards, what was on disk is
    kept as it was, and at most that one directory is new. *)
Lemma mkdir_exist_ok_spec (fs fs1 : FS) p :
  mkdir_exist_ok fs p = Ok fs1 ->
  isdir fs1 p = true /\
  (forall q nd, fs !! q = Some nd -> fs1 !! q = Some nd) /\
  (forall q nd, fs1 !! q = Some nd ->
     fs !! q = Some nd \/ (nd = new_directory /\ q = p)).
Proof.
  unfold mkdir_exist_ok. destruct (String.eqb p ""); [discriminate|].
  destruct (fs !! p) as [nd0|] eqn:Hp.
  - destruct (n_isdir nd0) eqn:Hd; [|discriminate]. intros [= <-].
    split; [unfold isdir; now rewrite Hp|]. split; auto.
  - intros [= <-]. split; [|split].
    + unfold isdir. now rewrite lookup_insert_eq.
    + intros q nd Hq. rewrite lookup_insert_ne; [exact Hq|]. congruence.
    + intros q nd. destruct (decide (p = q)) as [<-|Hne].
      * rewrite lookup_insert_eq. intros [= <-]. now right.
      * rewrite lookup_insert_ne by exact Hne. now left.
Qed.

Lemma isdir_kept (fs fs1 : FS) p :
  (forall q nd, fs !! q = Some nd -> fs1 !! q = Some nd) ->
  isdir fs p = true -> isdir fs1 p = true.
Proof.
  unfold isdir. intros Hkeep. destruct (fs !! p) as [nd|] eqn:Hp; [|discriminate].
  now rewrite (Hkeep _ _ Hp).
Qed.

Lemma mkdir_each_spec ps : forall (fs fs1 : FS),
  mkdir_each fs ps = Ok fs1 ->
  Forall (fun p => isdir fs1 p = true) ps /\
  (forall q nd, fs !! q = Some nd -> fs1 !! q = Some nd) /\
  (forall q nd, fs1 !! q = Some nd ->
     fs !! q = Some nd \/ (nd = new_directory /\ In q ps)).
Proof.
  induction ps as [|p ps IH]; intros fs fs1.
  - intros [= <-]. split; [constructor|]. split; auto.
  - cbn [mkdir_each]. destruct (mkdir_exist_ok fs p) as [fs0|] eqn:H0;
      [|discriminate].
    cbn [res_bind]. intros Hrest.
    destruct (mkdir_exist_ok_spec _ _ _ H0) as (Hd0 & Hk0 & Hn0).
    destruct (IH _ _ Hrest) as (Hd & Hk & Hn).
    split; [|split].
    + constructor; [exact (isdir_kept _ _ _ Hk Hd0) | exact Hd].
    + auto.
    + intros q nd Hq. destruct (Hn q nd Hq) as [Hq0|[-> Hin]].
      * destruct (Hn0 q nd Hq0) as [?|[-> ->]]; [now left|].
        right. split; [reflexivity | now left].
      * right. split; [reflexivity | now right].
Qed.

(** [os.makedirs(name, exist_ok=True)] that returns: [name] is a
    directory, every entry of the disk is kept as it was, and what is new
    is a directory on the way to [name]. *)
Lemma makedirs_spec (fs fs1 : FS) d :
  makedirs fs d = Ok fs1 ->
  isdir fs1 d = true /\
  (forall q nd, fs !! q = Some nd -> fs1 !! q = Some nd) /\
  (forall q nd, fs1 !! q = Some nd ->
     fs !! q = Some nd \/
     (nd = new_directory /\ In q (ancestors d ++ [d]))).
Proof.
  unfold makedirs. intros H. destruct (mkdir_each_spec _ _ _ H) as (Hd & Hk & Hn).
  split; [|now split].
  rewrite List.Forall_forall in Hd. apply Hd, in_or_app. right. now left.
Qed.
End MakedirsFacts.

(** X9. Before it looks for the file, [download_recording] makes the date
    folder. The disk it then checks and hands to the downloader has that
    folder as a directory, keeps every entry that was there as it was, and
    holds nothing new but directories on the way to the folder. A skip
    changes nothing else, on disk or on the camera. *)
Theorem date_folder_is_made_first (Cam : Type) (E : Env Cam)
  (r : pydict) (out : string) (tc : pyval) (i n : Z) (w : World Cam)
  (result : outcome) :
  fst (download_recording E r out tc i n w) = Ok result ->
  exists s e art fs1,
    prepare (utcoffset E) out (w_fs w) r = Ok (s, e, art, fs1) /\
    PyOs.isdir fs1 (art_output_dir art) = true /\
    (forall q nd, w_fs w !! q = Some nd -> fs1 !! q = Some nd) /\
    (forall q nd, fs1 !! q = Some nd ->
       w_fs w !! q = Some nd \/
       (nd = PyOs.new_directory /\
        In q (PyPath.ancestors (art_output_dir art) ++ [art_output_dir art]))) /\
    match result with
    | Skipped =>
        w_fs (snd (download_recording E r out tc i n w)) = fs1 /\
        w_cam (snd (download_recording E r out tc i n w)) = w_cam w
    | _ =>
        let t := Downloader E (w_cam w) fs1
                   (request s e tc (art_output_dir art) (art_filename art)) in
        w_fs (snd (download_recording E r out tc i n w)) = tr_fs t /\
        w_cam (snd (download_recording E r out tc i n w)) = tr_cam t
    end.
Proof.
  intros Hrun. pose proof (download_recording_cases E r out tc i n w) as Hc.
  destruct (download_recording E r out tc i n w) as [res w1].
  cbn [fst snd] in *. subst res.
  destruct Hc as (s & e & art & fs1 & Hprep & Hc).
  destruct (prepare_inv _ _ _ _ _ _ _ _ Hprep) as (_ & _ & Hmk).
  destruct (makedirs_spec _ _ _ Hmk) as (Hd & Hk & Hn).
  exists s, e, art, fs1. split; [exact Hprep|]. split; [exact Hd|].
  split; [exact Hk|]. split; [exact Hn|].
  destruct result; cbv zeta in Hc |- *.
  - destruct Hc as (size & _ & ->). now split.
  - destruct Hc as (_ & _ & lines & _ & ->). now split.
  - destruct Hc as (_ & lines & x & _ & ->). now split.
Qed.

Lemma date_folder_is_made_first_witness :
  exists s e art fs1,
    prepare (utcoffset (Sample.env false)) Sample.videos
            (w_fs (Sample.start Sample.empty_disk)) Sample.rec_a
      = Ok (s, e, art, fs1) /\
    PyOs.isdir fs1 (art_output_dir art) = true.
Proof.
  destruct (date_folder_is_made_first nat (Sample.env false) Sample.rec_a
              Sample.videos (PInt 0) 1 1 (Sample.start Sample.empty_disk)
              Downloaded)
    as (s & e & art & fs1 & Hp & Hd & _); [vm_compute; reflexivity|].
  exists s, e, art, fs1. split; assumption.
Defined.

(** X10. What one call downloaded, the next call skips: when
    [download_recording] returned [True] and the downloader left its file
    where it was asked to, on a disk where every path lies under
    directories, a second call for the same recording returns ["skipped"]
    and starts no transfer. *)
Theorem downloaded_once_skipped_after (Cam : Type) (E : Env Cam)
  (r : pydict) (out : string) (tc : pyval) (i j n : Z) (w : World Cam) :
  let w1 := snd (download_recording E r out tc i n w) in
  fst (download_recording E r out tc i n w) = Ok Downloaded ->
  fs_wf (w_fs w1) = true ->
  (forall req, In (StartDownloader req) (w_trace w1) ->
     PyOs.path_exists (w_fs w1) (dr_output_dir req +:+ dr_fileName req) = true) ->
  exists lines,
    download_recording E r out tc j n w1 =
      (Ok Skipped, with_trace w1 (EnterDownloadRecording r :: map Print lines)).
Proof.
  intros w1 Hrun Hwf Hfile.
  pose proof (download_recording_cases E r out tc i n w) as Hc.
  destruct (download_recording E r out tc i n w) as [res w1'] eqn:Hcall.
  cbn [fst snd] in *. subst res w1. cbv zeta in Hc.
  destruct Hc as (s & e & art & fs1 & Hprep & _ & _ & lines & _ & Hw1).
  destruct (prepare_inv _ _ _ _ _ _ _ _ Hprep) as (Ht & Hplan & _).
  destruct (plan_names _ _ _ _ Hplan) as (_ & _ & Hfp).
  assert (Hex : PyOs.path_exists (w_fs w1') (art_filepath art) = true).
  { rewrite Hfp.
    apply (Hfile (request s e tc (art_output_dir art) (art_filename art))).
    rewrite Hw1. cbn [w_trace]. unfold transfer_header.
    apply in_or_app. right. cbn. auto. }
  destruct (download_recording_skips E w1' r out tc j n s e art Ht Hplan Hwf Hex)
    as [size ->].
  now exists [LSkip j n (PyStr.replace_sep (art_date_folder art))
                    (art_filename art); LSkipNote size].
Qed.

Lemma downloaded_once_skipped_after_witness :
  exists lines,
    download_recording (Sample.env false) Sample.rec_a Sample.videos (PInt 0) 1 1
      (snd (download_recording (Sample.env false) Sample.rec_a Sample.videos
              (PInt 0) 1 1 (Sample.start Sample.empty_disk))) =
      (Ok Skipped,
       with_trace
         (snd (download_recording (Sample.env false) Sample.rec_a Sample.videos
                 (PInt 0) 1 1 (Sample.start Sample.empty_disk)))
         (EnterDownloadRecording Sample.rec_a :: map Print lines)).
Proof.
  apply (downloaded_once_skipped_after nat (Sample.env false) Sample.rec_a
           Sample.videos (PInt 0) 1 1 1 (Sample.start Sample.empty_disk)).
  - vm_compute. reflexivity.
  - vm_compute. reflexivity.
  - intros req Hin. vm_compute in Hin.
    repeat (destruct Hin as [Hin|Hin]; [try discriminate Hin|]);
      [|destruct Hin].
    injection Hin as <-. vm_compute. reflexivity.
Defined.

(** ** File names and catalog entries *)

Section NumeralFacts.
Import PyStr PyPath PyTime.

Lemma digit_value_char d : 0 <= d < 10 -> digit_value (digit_char d) = d.
Proof.
  intros H.
  apply (all_below_Z 10 (fun z => digit_value (digit_char z) =? z) eq_refl) in H.
  now apply Z.eqb_eq in H.
Qed.

Lemma digit_char_not_minus d : Ascii.eqb (digit_char (d mod 10)) "-" = false.
Proof.
  pose proof (Z.mod_pos_bound d 10 ltac:(lia)) as H.
  apply (all_below_Z 10 (fun z => negb (Ascii.eqb (digit_char z) "-")) eq_refl)
    in H.
  now apply negb_true_iff in H.
Qed.

Lemma read_digits_app a : forall b acc,
  read_digits acc (a +:+ b) = read_digits (read_digits acc a) b.
Proof. induction a as [|c a IH]; intros b acc; cbn; [reflexivity | apply IH]. Qed.

(** With fuel for every binary digit, [dec_digits] writes a numeral that
    reads back as the number. *)
Lemma dec_digits_reads fuel : forall n acc,
  0 <= n < 2 ^ Z.of_nat fuel ->
  exists s,
    dec_digits fuel n acc = s +:+ acc /\
    (forall v, read_digits v s = v * 10 ^ Z.of_nat (String.length s) + n) /\
    (fuel <> O -> match s with
                  | String c _ => Ascii.eqb c "-" = false
                  | EmptyString => False
                  end).
Proof.
  induction fuel as [|k IH]; intros n acc Hn.
  - change (2 ^ Z.of_nat 0) with 1 in Hn. assert (n = 0) as -> by lia.
    exists "". cbn. split; [reflexivity|]. split; [intros; lia | congruence].
  - rewrite Nat2Z.inj_succ, Z.pow_succ_r in Hn by lia.
    cbn [dec_digits].
    pose proof (Z.mod_pos_bound n 10 ltac:(lia)) as Hm.
    destruct (Z.eqb_spec (n / 10) 0) as [Hq|Hq].
    + exists (String (digit_char (n mod 10)) ""). split; [reflexivity|].
      split.
      * intros v. cbn [read_digits String.length].
        rewrite digit_value_char by exact Hm.
        change (10 ^ Z.of_nat 1) with 10.
        Z.to_euclidean_division_equations. lia.
      * intros _. apply digit_char_not_minus.
    + assert (Hpos : 0 < 2 ^ Z.of_nat k) by (apply Z.pow_pos_nonneg; lia).
      destruct (IH (n / 10) (String (digit_char (n mod 10)) acc))
        as (s & Hs & Hread & Hhead).
      { Z.to_euclidean_division_equations. lia. }
      exists (s +:+ String (digit_char (n mod 10)) "").
      split; [rewrite Hs, str_app_assoc; reflexivity|]. split.
      * intros v. rewrite read_digits_app, Hread. cbn [read_digits].
        rewrite digit_value_char by exact Hm.
        rewrite str_length_app. cbn [String.length].
        rewrite Nat2Z.inj_add. change (Z.of_nat 1) with 1.
        rewrite Z.pow_add_r by lia. change (10 ^ 1) with 10.
        Z.to_euclidean_division_equations. nia.
      * intros _. destruct k as [|k'].
        -- change (2 ^ Z.of_nat 0) with 1 in *.
           exfalso. apply Hq. Z.to_euclidean_division_equations. lia.
        -- specialize (Hhead ltac:(congruence)).
           destruct s; [destruct Hhead | exact Hhead].
Qed.

(** [int(str(n)) == n]. *)
Lemma dec_reads n : read_int (dec n) = n.
Proof.
  assert (Hnat : forall m, 0 <= m ->
            exists s, dec_digits (S (Z.to_nat (Z.log2 m))) m "" = s /\
                      read_digits 0 s = m /\
                      match s with
                      | String c _ => Ascii.eqb c "-" = false
                      | EmptyString => False
                      end).
  { intros m Hm.
    destruct (dec_digits_reads (S (Z.to_nat (Z.log2 m))) m "")
      as (s & Hs & Hread & Hhead).
    - rewrite Nat2Z.inj_succ, Z2Nat.id by apply Z.log2_nonneg.
      destruct (Z.eq_dec m 0) as [->|Hne]; [cbn; lia|].
      pose proof (Z.log2_spec m ltac:(lia)). lia.
    - exists s. rewrite Hs, str_app_nil_r. split; [reflexivity|].
      split; [rewrite Hread; lia | now apply Hhead]. }
  unfold dec. destruct (Z.ltb_spec n 0) as [Hneg|Hpos].
  - destruct (Hnat (- n) ltac:(lia)) as (s & -> & Hread & _).
    cbn [read_int]. change (Ascii.eqb "-" "-") with true. cbn iota.
    rewrite Hread. lia.
  - destruct (Hnat n Hpos) as (s & -> & Hread & Hhead).
    unfold read_int. destruct s as [|c s]; [destruct Hhead|].
    now rewrite Hhead.
Qed.

Lemma substring_prefix b : forall c,
  substring 0 (String.length b) (b +:+ c) = b.
Proof.
  induction b as [|x b IH]; intros c; cbn [String.length String.append].
  - now destruct c.
  - cbn [substring]. now rewrite IH.
Qed.

Lemma substring_middle a : forall b c,
  substring (String.length a) (String.length b) (a +:+ b +:+ c) = b.
Proof.
  induction a as [|x a IH]; intros b c; cbn [String.length String.append].
  - apply substring_prefix.
  - cbn [substring]. apply IH.
Qed.

Lemma has_char_app c a b : has_char c (a +:+ b) = has_char c a || has_char c b.
Proof.
  induction a as [|x a IH]; cbn [String.append has_char]; [reflexivity|].
  now rewrite IH, orb_assoc.
Qed.

Lemma all_digits_app a b : all_digits (a +:+ b) = all_digits a && all_digits b.
Proof.
  induction a as [|x a IH]; cbn [String.append all_digits]; [reflexivity|].
  now rewrite IH, andb_assoc.
Qed.

Lemma digit_char_is_digit d : is_digit (digit_char (d mod 10)) = true.
Proof.
  pose proof (Z.mod_pos_bound d 10 ltac:(lia)) as H.
  exact (all_below_Z 10 (fun z => is_digit (digit_char z)) eq_refl _ H).
Qed.

Lemma digits_all_digits w : forall n, all_digits (digits w n) = true.
Proof.
  induction w as [|w IH]; intros n; cbn [digits]; [reflexivity|].
  rewrite all_digits_app, IH. cbn [all_digits].
  now rewrite digit_char_is_digit.
Qed.

Lemma dec_digits_all_digits fuel : forall n acc,
  all_digits acc = true -> all_digits (dec_digits fuel n acc) = true.
Proof.
  induction fuel as [|k IH]; intros n acc Hacc; [exact Hacc|].
  cbn [dec_digits].
  assert (Hacc' : all_digits (String (digit_char (n mod 10)) acc) = true)
    by (cbn [all_digits]; now rewrite digit_char_is_digit).
  destruct (n / 10 =? 0); [exact Hacc' | now apply IH].
Qed.

Lemma dec_all_digits n : 0 <= n -> all_digits (dec n) = true.
Proof.
  intros H. unfold dec. destruct (Z.ltb_spec n 0); [lia|].
  now apply dec_digits_all_digits.
Qed.

(** A character that is no digit does not occur among digits. *)
Lemma all_digits_has_char c s :
  is_digit c = false -> all_digits s = true -> has_char c s = false.
Proof.
  intros Hc. induction s as [|x s IH]; cbn [all_digits has_char]; [reflexivity|].
  intros [Hx Hs]%andb_true_iff. rewrite (IH Hs), orb_false_r.
  destruct (Ascii.eqb_spec x c) as [->|]; [congruence | reflexivity].
Qed.

Lemma after_dash_app a b :
  has_char "-" a = false -> after_dash (a +:+ "-" +:+ b) = b.
Proof.
  induction a as [|x a IH]; cbn [String.append has_char after_dash].
  - reflexivity.
  - intros [Hx Ha]%orb_false_iff. rewrite Hx. exact (IH Ha).
Qed.

Lemma before_underscore_app a b :
  has_char "_" a = false -> before_underscore (a +:+ "_" +:+ b) = a.
Proof.
  induction a as [|x a IH]; cbn [String.append has_char before_underscore].
  - reflexivity.
  - intros [Hx Ha]%orb_false_iff. rewrite Hx. f_equal. exact (IH Ha).
Qed.

Lemma without_sep_app a b : without_sep (a +:+ b) = without_sep a +:+ without_sep b.
Proof.
  induction a as [|x a IH]; cbn [String.append without_sep]; [reflexivity|].
  rewrite IH. now destruct (is_sep x).
Qed.

Lemma without_sep_plain s : has_sep s = false -> without_sep s = s.
Proof.
  induction s as [|x s IH]; cbn [has_sep without_sep]; [reflexivity|].
  intros [-> Hs]%orb_false_iff. now rewrite (IH Hs).
Qed.

(** The date of a stamp is all digits; its time follows the underscore. *)
Lemma stamp_date_digits dt :
  0 <= year dt ->
  all_digits (dec (year dt) +:+ digits 2 (month dt) +:+ digits 2 (day dt)) = true.
Proof.
  intros Hy. now rewrite !all_digits_app, dec_all_digits, !digits_all_digits.
Qed.

Lemma stamp_no_dash dt : 0 <= year dt -> has_char "-" (stamp dt) = false.
Proof.
  intros Hy. unfold stamp. rewrite !has_char_app.
  rewrite (all_digits_has_char "-" (dec _)) by (auto using dec_all_digits).
  rewrite !(all_digits_has_char "-" (digits _ _))
    by (auto using digits_all_digits).
  reflexivity.
Qed.

(** The start time is written in the file name and can be read back. *)
Lemma filename_decodes u t name :
  format_filename u t = Ok name -> timestamp_of_filename name = t.
Proof.
  destruct (fromtimestamp u t) as [dt|x] eqn:Hdt.
  - rewrite (format_filename_shape _ _ _ Hdt). intros Heq.
    apply (f_equal (fun r => match r with Ok a => a | Raise _ => name end))
      in Heq.
    subst name. unfold timestamp_of_filename.
    destruct (fromtimestamp_fields _ _ _ Hdt) as (Hy & _).
    rewrite after_dash_app by (apply stamp_no_dash; lia).
    replace (String.length (dec t +:+ ".mp4") - 4)%nat
      with (String.length (dec t))
      by (rewrite str_length_app; cbn [String.length]; lia).
    rewrite substring_prefix. apply dec_reads.
  - unfold format_filename. rewrite Hdt. discriminate.
Qed.

(** The last component of a path is determined by the path. *)
Lemma last_component a : forall a' f f',
  has_sep f = false -> has_sep f' = false ->
  a +:+ "/" +:+ f = a' +:+ "/" +:+ f' -> f = f'.
Proof.
  induction a as [|x a IH]; intros a' f f' Hf Hf' Heq.
  - destruct a' as [|y a']; cbn [String.append] in Heq.
    + now injection Heq.
    + injection Heq as _ Heq. rewrite Heq, has_sep_app in Hf.
      cbn in Hf. now rewrite orb_true_r in Hf.
  - destruct a' as [|y a']; cbn [String.append] in Heq.
    + injection Heq as _ Heq. rewrite <- Heq, has_sep_app in Hf'.
      cbn in Hf'. now rewrite orb_true_r in Hf'.
    + injection Heq as _ Heq. exact (IH _ _ _ Hf Hf' Heq).
Qed.
End NumeralFacts.

Section ExtractionKeys.
Lemma recording_of_entry_keys kv r :
  In r (recording_of_entry kv) ->
  exists sv ev, getitem r "startTime" = Ok sv /\ getitem r "endTime" = Ok ev.
Proof.
  destruct kv as [key value]. unfold recording_of_entry.
  destruct (PyStr.startswith _ key); [|intros []].
  destruct value; try (intros []).
  unfold dict_has, getitem.
  destruct (dict_find "startTime" entries) as [sv|] eqn:Hs; [|intros []].
  destruct (dict_find "endTime" entries) as [ev|] eqn:He; [|intros []].
  cbn [andb]. intros [<-|[]]. rewrite Hs, He. now exists sv, ev.
Qed.

Lemma extract_recordings_flat response :
  extract_recordings response =
    flat_map recording_of_entry (entries_in_sequence response).
Proof.
  destruct response; try reflexivity.
  cbn [extract_recordings entries_in_sequence]. rewrite flat_map_flat_map.
  apply (fold_left_append _ _ extract_recordings_item_appends).
Qed.

Lemma extract_recordings_keys response :
  Forall (fun r => exists sv ev, getitem r "startTime" = Ok sv /\
                                 getitem r "endTime" = Ok ev)
         (extract_recordings response).
Proof.
  rewrite extract_recordings_flat. apply List.Forall_forall.
  intros r [kv [_ Hin]]%in_flat_map. exact (recording_of_entry_keys kv r Hin).
Qed.
End ExtractionKeys.

(** X11. The start time can be read back from the file name: it is the
    decimal number between the first dash and the extension. So a file
    name belongs to one start time only, whatever the time zone. *)
Theorem start_time_read_back_from_the_name (u : Z -> Z) (t : Z) (name : string) :
  format_filename u t = Ok name ->
  timestamp_of_filename name = t /\
  forall u' t', format_filename u' t' = Ok name -> t' = t.
Proof.
  intros H. pose proof (filename_decodes u t name H) as Ht.
  split; [exact Ht|]. intros u' t' H'.
  rewrite <- (filename_decodes u' t' name H'). exact Ht.
Qed.

Lemma start_time_read_back_from_the_name_witness :
  timestamp_of_filename "9870825_165320--31000000000.mp4" = -31000000000.
Proof.
  apply (start_time_read_back_from_the_name (fun _ => 0) (-31000000000)
           "9870825_165320--31000000000.mp4").
  vm_compute. reflexivity.
Defined.

(** X12. Recordings that start at different times are never planned at the
    same path, whatever the output folders and the time zones are. *)
Theorem different_start_times_different_paths (u u' : Z -> Z)
  (out out' : string) (t t' : Z) (art art' : Artifact) :
  plan u out t = Ok art -> plan u' out' t' = Ok art' -> t <> t' ->
  art_filename art <> art_filename art' /\
  art_filepath art <> art_filepath art'.
Proof.
  intros H H' Hne.
  destruct (plan_inv _ _ _ _ H) as (_ & _ & _ & Hfn & _ & _ & Hfp & _).
  destruct (plan_inv _ _ _ _ H') as (_ & _ & _ & Hfn' & _ & _ & Hfp' & _).
  destruct (plan_names _ _ _ _ H) as (_ & Hsep & _).
  destruct (plan_names _ _ _ _ H') as (_ & Hsep' & _).
  assert (Hnames : art_filename art <> art_filename art').
  { intros Heq. apply Hne. rewrite <- (filename_decodes _ _ _ Hfn).
    rewrite Heq. exact (filename_decodes _ _ _ Hfn'). }
  split; [exact Hnames|]. intros Heq. apply Hnames.
  rewrite Hfp, Hfp' in Heq. exact (last_component _ _ _ _ Hsep Hsep' Heq).
Qed.

Lemma different_start_times_different_paths_witness :
  "/videos/2024/07/24/20240724_155234-1721829154.mp4" <>
  "/archive/2024/07/24/20240724_145235-1721829155.mp4".
Proof.
  apply (different_start_times_different_paths (fun _ => 7200) (fun _ => 3600)
           "/videos" "/archive" 1721829154 1721829155
           {| art_date_folder := "2024/07/24";
              art_output_dir := "/videos/2024/07/24";
              art_filename := "20240724_155234-1721829154.mp4";
              art_filepath :=
                "/videos/2024/07/24/20240724_155234-1721829154.mp4" |}
           {| art_date_folder := "2024/07/24";
              art_output_dir := "/archive/2024/07/24";
              art_filename := "20240724_145235-1721829155.mp4";
              art_filepath :=
                "/archive/2024/07/24/20240724_145235-1721829155.mp4" |});
    [vm_compute; reflexivity | vm_compute; reflexivity | lia].
Defined.

(** X13. Every recording [extract_recordings] returns has both a start and
    an end time, so reading them in [download_recording] and in
    [try_delete_recording] cannot raise [KeyError]. *)
Theorem extracted_recordings_have_both_times (response : pyval) :
  Forall (fun r => exists sv ev,
            getitem r "startTime" = Ok sv /\ getitem r "endTime" = Ok ev /\
            delete_attempts r =
              Ok [("deleteRecording", DeleteVideo 0 sv ev); ("do", Delete sv ev)])
         (extract_recordings response).
Proof.
  eapply List.Forall_impl; [|apply extract_recordings_keys].
  intros r (sv & ev & Hs & He). exists sv, ev.
  unfold delete_attempts. now rewrite Hs, He.
Qed.

(** ** The whole run *)

Section CatalogFacts.
Import PyStr PyPath PyTime PyOs.
Context {Cam : Type} (E : Env Cam).

(** A camera method called through [query]: the call is traced, the
    device moves on, the result or the exception is passed on. *)
Lemma query_run ev method (w : World Cam) :
  query ev method w =
    (fst (method (w_cam w)),
     {| w_fs := w_fs w; w_cam := snd (method (w_cam w));
        w_trace := w_trace w ++ [ev] |}).
Proof.
  unfold query. run. destruct (method (w_cam w)) as [[v|x] cam']; reflexivity.
Qed.

Lemma sum_durations_shift recs : forall a b u,
  sum_durations recs a = Ok u -> sum_durations recs b = Ok (u - a + b).
Proof.
  induction recs as [|r l IHl]; intros a b u; cbn [sum_durations].
  - intros [= <-]. f_equal. lia.
  - destruct (getitem r "endTime") as [ev|]; [|discriminate].
    destruct (getitem r "startTime") as [sv|]; [|discriminate].
    cbn [res_bind].
    destruct (as_int ev) as [e|]; [|discriminate].
    destruct (as_int sv) as [s|]; [|discriminate]. cbn [res_bind].
    intros H. rewrite (IHl _ (b + (e - s)) _ H). f_equal. lia.
Qed.

(** A sum of durations that comes out has read every recording. *)
Lemma sum_durations_readable recs : forall acc t,
  sum_durations recs acc = Ok t ->
  Forall readable recs /\ sum_durations recs 0 = Ok (t - acc).
Proof.
  intros acc t H. split.
  - revert acc t H. induction recs as [|r recs IH]; intros acc t;
      cbn [sum_durations]; [constructor|].
    destruct (getitem r "endTime") as [ev|] eqn:He; [|discriminate].
    destruct (getitem r "startTime") as [sv|] eqn:Hs; [|discriminate].
    cbn [res_bind].
    destruct (as_int ev) as [e|] eqn:He'; [|discriminate].
    destruct (as_int sv) as [s|] eqn:Hs'; [|discriminate].
    cbn [res_bind]. intros Hrest. constructor; [|exact (IH _ _ Hrest)].
    exists s, e. unfold recording_times.
    rewrite Hs, He. cbn [res_bind]. now rewrite Hs', He'.
  - rewrite (sum_durations_shift _ _ 0 _ H). f_equal. lia.
Qed.

Lemma sum_durations_app a : forall b ta tb,
  sum_durations a 0 = Ok ta -> sum_durations b 0 = Ok tb ->
  sum_durations (a ++ b) 0 = Ok (ta + tb).
Proof.
  assert (Hgen : forall b tb, sum_durations b 0 = Ok tb ->
            forall acc ta, sum_durations a acc = Ok ta ->
                           sum_durations (a ++ b) acc = Ok (ta + tb)).
  { intros b tb Hb. induction a as [|r a IH]; intros acc ta;
      cbn [sum_durations app].
    - intros [= <-]. rewrite (sum_durations_shift _ _ acc _ Hb). f_equal. lia.
    - destruct (getitem r "endTime") as [ev|]; [|discriminate].
      destruct (getitem r "startTime") as [sv|]; [|discriminate].
      cbn [res_bind].
      destruct (as_int ev) as [e|]; [|discriminate].
      destruct (as_int sv) as [s|]; [|discriminate]. cbn [res_bind].
      apply IH. }
  intros b ta tb Ha Hb. exact (Hgen b tb Hb 0 ta Ha).
Qed.

(** The loop over the dates: one request per date, in order, each followed
    by its summary line; it leaves the disk alone; what it collects can be
    read, and the total is the sum of the durations collected. *)
Lemma collect_run dates : forall acc total (w : World Cam),
  Forall readable acc -> sum_durations acc 0 = Ok total ->
  exists cdelta cam',
    snd (collect E dates acc total w) =
      {| w_fs := w_fs w; w_cam := cam'; w_trace := w_trace w ++ cdelta |} /\
    forallb is_catalog_event cdelta = true /\
    match fst (collect E dates acc total w) with
    | Ok (recs, total') =>
        queries cdelta = map GetRecordings dates /\
        Forall readable recs /\ sum_durations recs 0 = Ok total' /\
        (exists new, recs = acc ++ new)
    | Raise _ =>
        exists k, (k < length dates)%nat /\
                  queries cdelta = map GetRecordings (firstn (S k) dates)
    end.
Proof.
  induction dates as [|date dates IH]; intros acc total w Hacc Hsum.
  - exists [], (w_cam w). cbn. rewrite app_nil_r. destruct w.
    splits; try reflexivity; try assumption. exists []. now rewrite app_nil_r.
  - cbn [collect]. rewrite bind_run, query_run.
    destruct (getRecordings E (w_cam w) date) as [[v|x] cam1]; cbn [fst snd].
    2: { exists [GetRecordings date], cam1. cbn.
         splits; try reflexivity. exists O. split; [lia | reflexivity]. }
    run.
    destruct (sum_durations (extract_recordings v) 0) as [d|x] eqn:Hd; run.
    2: { exists [GetRecordings date], cam1. cbn.
         splits; try reflexivity. exists O. split; [lia | reflexivity]. }
    destruct (sum_durations_readable _ _ _ Hd) as [Hnew _].
    match goal with |- context [collect E dates ?a ?t ?w0] =>
      destruct (IH a t w0) as (cd & cam' & Hsnd & Hev & Hres)
    end.
    { apply Forall_app. now split. }
    { now apply sum_durations_app. }
    rewrite Hsnd. cbn [w_fs w_cam w_trace].
    exists (GetRecordings date
              :: Print (LDateSummary date
                          (Z.of_nat (length (extract_recordings v)))
                          (d / 60) (d mod 60)) :: cd), cam'.
    split; [now rewrite <- !app_assoc|]. split; [exact Hev|].
    match goal with |- context [fst ?run] => destruct (fst run) as [[recs t']|x] end.
    + destruct Hres as (Hq & Hr & Hs & new & ->).
      splits; try assumption.
      * cbn. now rewrite <- Hq.
      * exists (extract_recordings v ++ new). now rewrite app_assoc.
    + destruct Hres as (k & Hk & Hq). exists (S k).
      split; [cbn [length]; lia|]. cbn [firstn map]. cbn. now rewrite <- Hq.
Qed.
End CatalogFacts.

Section RunAnatomy.
Import PyStr PyPath PyTime PyOs.
Context {Cam : Type} (E : Env Cam).

Lemma download_all_videos_anatomy out (w : World Cam) :
  exists delta,
    w_trace (snd (download_all_videos E out w)) = w_trace w ++ delta /\
    anatomy E out w (fst (download_all_videos E out w)) delta.
Proof.
  unfold download_all_videos. run.
  destruct (makedirs (w_fs w) out) as [fs1|x] eqn:Hmk; run.
  2: { exists [Print LScanning]. split; [reflexivity|]. now constructor. }
  rewrite bind_run, query_run. cbn [w_cam w_fs w_trace].
  destruct (getRecordingsList E (w_cam w)) as [[v|x] cam1] eqn:Hlist;
    cbn [fst snd].
  2: { exists (run_head out). split; [now rewrite <- !app_assoc|].
       apply (no_list E out w x fs1 Hmk). now rewrite Hlist. }
  assert (Hv : fst (getRecordingsList E (w_cam w)) = Ok v) by now rewrite Hlist.
  run. destruct (extract_dates v) as [|date dates] eqn:Hdates.
  { run. exists (run_head out ++ [found_line []; Print LNoRecordingsFound]).
    split; [now rewrite <- !app_assoc|]. now apply (no_dates E out w v fs1). }
  rewrite <- Hdates. rewrite bind_run.
  match goal with |- context [collect E ?ds [] 0 ?w0] =>
    destruct (collect_run E ds [] 0 w0 ltac:(constructor) eq_refl)
      as (cdelta & cam2 & Hsnd & Hev & Hres);
    destruct (collect E ds [] 0 w0) as [[[recs total]|x] w3]
  end; cbn [fst snd w_fs w_cam w_trace] in *; subst w3.
  2: { destruct Hres as (k & Hk & Hq).
       exists (run_head out ++ found_line (extract_dates v) :: cdelta).
       split; [unfold run_head, found_line; now rewrite <- !app_assoc|].
       now apply (catalog_raises E out w x v fs1 cdelta k). }
  destruct Hres as (Hq & Hread & Hsum & _). run.
  destruct recs as [|r0 recs0] eqn:Hrecs.
  { cbn [length]. change (Z.of_nat 0 =? 0) with true. cbn iota. run.
    cbn in Hsum. injection Hsum as <-.
    exists (run_head out ++ found_line (extract_dates v) :: cdelta
              ++ [totals_line out [] 0; Print LNothingToDownload]).
    split; [unfold run_head, found_line, totals_line; cbn [length];
            now rewrite <- !app_assoc|].
    apply (no_recordings E out w v fs1 cdelta); auto. congruence. }
  rewrite <- Hrecs in *.
  assert (Hne : recs <> []) by (subst recs; discriminate).
  assert (Hlen : (Z.of_nat (length recs) =? 0) = false).
  { apply Z.eqb_neq. subst recs. cbn [length]. lia. }
  rewrite Hlen. rewrite bind_run, query_run. cbn [w_cam w_fs w_trace].
  destruct (getTimeCorrection E cam2) as [[tc|x] cam3]; cbn [fst snd].
  2: { exists (run_head out ++ found_line (extract_dates v) :: cdelta
                 ++ [totals_line out recs total; GetTimeCorrection]).
       split; [unfold run_head, found_line, totals_line;
               now rewrite <- !app_assoc|].
       now apply (no_correction E out w x v fs1 cdelta recs total). }
  run.
  assert (Hfinish : forall (w0 : World Cam),
            w_trace w0 = w_trace w ++ run_head out
              ++ found_line (extract_dates v) :: cdelta
              ++ totals_line out recs total
              :: loop_start (DELETE_AFTER_DOWNLOAD E) ->
            let run := bind (download_loop E out tc (Z.of_nat (length recs)) 1
                               recs no_counts)
                         (fun c =>
                            bind (print (LCompleted (successful c) (skipped c)
                                    (failed c)
                                    (if DELETE_AFTER_DOWNLOAD E
                                     then Some (deleted c) else None) out))
                              (fun _ => if 0 <? successful c
                                        then print (LFilenameHint out)
                                        else ret tt)) w0 in
            exists delta,
              w_trace (snd run) = w_trace w ++ delta /\
              anatomy E out w (fst run) delta).
  { intros w0 Hw0 run0. subst run0. rewrite bind_run.
    destruct (download_loop_trace E out tc (Z.of_nat (length recs)) 1 recs
                no_counts w0) as (ldelta & Hlt & _).
    destruct (download_loop E out tc (Z.of_nat (length recs)) 1 recs
                no_counts w0) as [[c|x] w6] eqn:Hloop; cbn [fst snd] in *.
    - exists (run_head out ++ found_line (extract_dates v) :: cdelta
                ++ totals_line out recs total
                :: loop_start (DELETE_AFTER_DOWNLOAD E) ++ ldelta
                ++ run_tail (DELETE_AFTER_DOWNLOAD E) out c).
      split.
      + unfold run_tail. destruct (0 <? successful c); run; rewrite Hlt, Hw0;
          rewrite <- !app_assoc; cbn [app]; rewrite <- ?app_assoc;
          cbn [app]; rewrite <- ?app_assoc; reflexivity.
      + destruct (0 <? successful c); run;
          (apply (completed E out w v fs1 cdelta recs total tc w0 ldelta c);
           auto; now rewrite Hloop).
    - exists (run_head out ++ found_line (extract_dates v) :: cdelta
                ++ totals_line out recs total
                :: loop_start (DELETE_AFTER_DOWNLOAD E) ++ ldelta).
      split.
      + rewrite Hlt, Hw0. rewrite <- !app_assoc. cbn [app].
        rewrite <- ?app_assoc. reflexivity.
      + apply (loop_raises E out w x v fs1 cdelta recs total tc w0 ldelta);
          auto; now rewrite Hloop. }
  destruct (DELETE_AFTER_DOWNLOAD E) eqn:Hflag; run; apply Hfinish;
    cbn [w_trace]; unfold run_head, found_line, totals_line, loop_start;
    rewrite <- !app_assoc; reflexivity.
Qed.
End RunAnatomy.

Section EventKinds.
Import PyStr PyPath PyTime PyOs.

Lemma flat_map_quiet {A B} (p : A -> bool) (f : A -> list B) l :
  forallb p l = true -> (forall a, p a = true -> f a = []) ->
  flat_map f l = [].
Proof.
  intros Hl Hf. induction l as [|a l IH]; [reflexivity|].
  cbn [forallb] in Hl. apply andb_true_iff in Hl as [H1 H2].
  cbn [flat_map]. rewrite (Hf a H1). exact (IH H2).
Qed.


Lemma forallb_map_progress lines :
  forallb is_progress_line lines = true ->
  forallb is_loop_event (map Print lines) = true.
Proof.
  induction lines as [|l lines IH]; [reflexivity|].
  cbn [forallb map]. intros [H1 H2]%andb_true_iff.
  rewrite (IH H2), andb_true_r. now destruct l.
Qed.

Lemma progress_line_loop_events n i c :
  forallb is_loop_event (progress_line n i c) = true.
Proof.
  unfold progress_line. now destruct ((i mod 10 =? 0) || (i =? n))%bool.
Qed.

Lemma turn_shape_events u out r tc n i c c' delta :
  turn_shape u out r tc n i c c' delta ->
  forallb is_loop_event delta = true.
Proof.
  intros (s & e & art & _ & _ & [H|[H|H]]).
  - destruct H as (size & _ & ->). rewrite forallb_app.
    now rewrite progress_line_loop_events.
  - destruct H as (lines & x & Hl & _ & ->). unfold transfer_header.
    rewrite !forallb_app, (forallb_map_progress _ Hl),
      progress_line_loop_events. reflexivity.
  - destruct H as (lines & b & dd & Hl & Hdd & _ & ->). unfold transfer_header.
    rewrite !forallb_app, (forallb_map_progress _ Hl),
      progress_line_loop_events.
    assert (Hd : forallb is_loop_event dd = true).
    { destruct Hdd as [[_ ->]|(sv & ev & k & _ & _ & [->| ->] & _ & ->)];
        [reflexivity | |]; now destruct b. }
    now rewrite Hd.
Qed.

Lemma trace_delta_unique {Cam} (w w' : World Cam) a b :
  w_trace w' = w_trace w ++ a -> w_trace w' = w_trace w ++ b -> a = b.
Proof. intros Ha Hb. rewrite Ha in Hb. exact (app_inv_head _ _ _ Hb). Qed.
End EventKinds.

Section LoopEvents.
Import PyStr PyPath PyTime PyOs.
Context {Cam : Type} (E : Env Cam).

(** Whatever the loop adds to the trace is one of its own events. *)
Lemma download_loop_events out tc n i recs c (w : World Cam) delta :
  w_trace (snd (download_loop E out tc n i recs c w)) = w_trace w ++ delta ->
  forallb is_loop_event delta = true.
Proof.
  intros Hdelta.
  assert (Hok : forall recs' c' w',
            download_loop E out tc n i recs' c w = (Ok c', w') ->
            exists d, w_trace w' = w_trace w ++ d /\
                      forallb is_loop_event d = true).
  { intros recs' c' w'.
    apply (download_loop_rule E
      (fun _ _ wj => exists d, w_trace wj = w_trace w ++ d /\
                               forallb is_loop_event d = true)).
    - exists []. now rewrite app_nil_r.
    - intros done r rest cj wj c1 w1 _ (d0 & Ht0 & He0) Hbody.
      destruct (loop_body_turn E _ _ _ _ _ _ _ _ _ Hbody) as (d1 & Ht1 & Hturn & _).
      exists (d0 ++ d1). rewrite Ht1, Ht0, app_assoc. split; [reflexivity|].
      now rewrite forallb_app, He0, (turn_shape_events _ _ _ _ _ _ _ _ _ Hturn). }
  destruct (download_loop E out tc n i recs c w) as [[c'|x] w'] eqn:Hrun;
    cbn [snd] in Hdelta.
  - destruct (Hok _ _ _ Hrun) as (d & Ht & He).
    now rewrite (trace_delta_unique _ _ _ _ Hdelta Ht).
  - destruct (download_loop_raises E _ _ _ _ _ _ _ _ _ Hrun)
      as (done & r & rest & cj & wj & _ & Hdone & _ & ->).
    destruct (Hok _ _ _ Hdone) as (d & Ht & He).
    cbn [with_trace w_trace] in Hdelta. rewrite Ht, <- app_assoc in Hdelta.
    apply app_inv_head in Hdelta. subst delta.
    now rewrite forallb_app, He.
Qed.
End LoopEvents.

Section RunProjections.
Import PyStr PyPath PyTime PyOs.


Lemma entered_app a b : entered (a ++ b) = entered a ++ entered b.
Proof. apply flat_map_app. Qed.


Lemma catalog_events_quiet cdelta :
  forallb is_catalog_event cdelta = true ->
  entered cdelta = [] /\ transfers cdelta = [] /\
  Forall (fun ev => is_delete_request ev = false) cdelta.
Proof.
  intros H. split; [|split].
  - apply (flat_map_quiet is_catalog_event); [exact H|]. now intros [[]| | | | | | |].
  - apply (flat_map_quiet is_catalog_event); [exact H|]. now intros [[]| | | | | | |].
  - apply List.Forall_forall. intros ev Hin.
    rewrite forallb_forall in H. specialize (H ev Hin). now destruct ev.
Qed.


Lemma loop_start_quiet flag :
  queries (loop_start flag) = [GetTimeCorrection] /\
  entered (loop_start flag) = [] /\ transfers (loop_start flag) = [] /\
  Forall (fun ev => is_delete_request ev = false) (loop_start flag).
Proof. destruct flag; repeat split; repeat constructor. Qed.

Lemma run_tail_quiet flag out c :
  queries (run_tail flag out c) = [] /\ entered (run_tail flag out c) = [] /\
  transfers (run_tail flag out c) = [] /\
  Forall (fun ev => is_delete_request ev = false) (run_tail flag out c).
Proof.
  unfold run_tail. destruct (0 <? successful c); repeat split;
    repeat constructor.
Qed.
End RunProjections.

Section RunRequests.
Import PyStr PyPath PyTime PyOs.
Context {Cam : Type} (E : Env Cam).

(** With the flag off a whole run sends no deletion request. *)
Lemma download_all_videos_no_requests out (w : World Cam) :
  DELETE_AFTER_DOWNLOAD E = false ->
  exists delta,
    w_trace (snd (download_all_videos E out w)) = w_trace w ++ delta /\
    Forall (fun ev => is_delete_request ev = false) delta.
Proof.
  intros Hoff.
  destruct (download_all_videos_anatomy E out w) as (delta & Ht & Hanat).
  exists delta. split; [exact Ht|]. clear Ht.
  assert (Hloop : forall tc n recs w5 ldelta,
            w_trace (snd (download_loop E out tc n 1 recs no_counts w5))
              = w_trace w5 ++ ldelta ->
            Forall (fun ev => is_delete_request ev = false) ldelta).
  { intros tc n recs w5 ldelta Hlt.
    destruct (download_loop_run E out tc n recs 1 no_counts w5)
      as (d & Hd & Hreq & _).
    rewrite (trace_delta_unique _ _ _ _ Hlt Hd). exact (Hreq Hoff). }
  pose proof (loop_start_quiet (DELETE_AFTER_DOWNLOAD E)) as (_ & _ & _ & HL).
  destruct Hanat;
    repeat match goal with
    | H : forallb is_catalog_event _ = true |- _ =>
        apply catalog_events_quiet in H as (_ & _ & H)
    | H : w_trace (snd (download_loop _ _ _ _ _ _ _ _)) = _ |- _ =>
        apply Hloop in H
    end;
    unfold run_head, found_line, totals_line;
    repeat first
      [ assumption
      | rewrite Hoff
      | apply List.Forall_nil
      | apply run_tail_quiet
      | apply List.Forall_cons; [reflexivity|]
      | apply Forall_app; split ].
Qed.
End RunRequests.



(** X15. In a run that downloads, the totals line announces as many
    recordings as the loop then enters, and a duration that is the sum of
    their durations split into hours, minutes below 60 and seconds below 60;
    the closing summary shows counters of which [successful], [skipped] and
    [failed] add up to that number and [deleted] does not exceed
    [successful]. *)
Theorem totals_and_summary_agree (Cam : Type) (E : Env Cam)
  (out : string) (w : World Cam) (r0 : pydict) (more : list pydict) :
  let run := download_all_videos E out w in
  fst run = Ok tt ->
  (exists delta, w_trace (snd run) = w_trace w ++ delta /\
                 entered delta = r0 :: more) ->
  exists pre mid total c,
    w_trace (snd run) =
      w_trace w ++ pre ++ totals_line out (r0 :: more) total :: mid
        ++ run_tail (DELETE_AFTER_DOWNLOAD E) out c /\
    entered mid = r0 :: more /\
    sum_durations (r0 :: more) 0 = Ok total /\
    (total / 3600) * 3600 + ((total mod 3600) / 60) * 60 + total mod 60 = total /\
    0 <= (total mod 3600) / 60 < 60 /\ 0 <= total mod 60 < 60 /\
    successful c + skipped c + failed c = Z.of_nat (length (r0 :: more)) /\
    0 <= deleted c <= successful c.
Proof.
  intros run Hrun (delta0 & Ht0 & Hent0). subst run.
  destruct (download_all_videos_anatomy E out w) as (delta & Ht & Hanat).
  rewrite Hrun in Hanat.
  rewrite (trace_delta_unique _ _ _ _ Ht0 Ht) in Hent0. rewrite Ht.
  clear Ht0 Ht Hrun delta0.
  inversion Hanat as
    [ | | v fs1 Hmk Hv Hd | | v fs1 cdelta Hmk Hv Hd Hc Hq | |
    | v fs1 cdelta recs total tc w5 ldelta c Hmk Hv Hc Hq Hne Hread Hsum
        Hloop Hlt ]; subst.
  - discriminate Hent0.
  - destruct (catalog_events_quiet _ Hc) as (He & _).
    change (found_line (extract_dates v) :: cdelta ++ ?x)
      with ([found_line (extract_dates v)] ++ cdelta ++ x) in Hent0.
    rewrite !entered_app, He in Hent0. discriminate Hent0.
  - pose proof (download_loop_events E _ _ _ _ _ _ _ _ Hlt) as Hev.
    destruct (download_loop_trace E out tc (Z.of_nat (length recs)) 1 recs
                no_counts w5) as (ld & Hld & _ & _ & Hent).
    rewrite Hloop in Hent. destruct Hent as [Hent _].
    rewrite (trace_delta_unique _ _ _ _ Hld Hlt) in Hent.
    destruct (catalog_events_quiet _ Hc) as (He & _).
    destruct (loop_start_quiet (DELETE_AFTER_DOWNLOAD E)) as (_ & L2 & _).
    destruct (run_tail_quiet (DELETE_AFTER_DOWNLOAD E) out c) as (_ & T2 & _).
    assert (Hrecs : recs = r0 :: more).
    { change (found_line (extract_dates v) :: cdelta ++ ?x)
        with ([found_line (extract_dates v)] ++ cdelta ++ x) in Hent0.
      change (totals_line out recs total :: ?x)
        with ([totals_line out recs total] ++ x) in Hent0.
      rewrite !entered_app, He, L2, T2, Hent in Hent0.
      cbn in Hent0. now rewrite app_nil_r in Hent0. }
    rewrite <- Hrecs. clear Hent0 Hrecs.
    destruct (download_loop_run E out tc (Z.of_nat (length recs))
                recs 1 no_counts w5) as (d & _ & _ & Hres).
    rewrite Hloop in Hres. destruct Hres as (Hp & Hd0 & Hds & _).
    change (processed no_counts) with 0 in Hp.
    change (deleted no_counts) with 0 in *.
    change (successful no_counts) with 0 in *.
    exists (run_head out ++ found_line (extract_dates v) :: cdelta),
           (loop_start (DELETE_AFTER_DOWNLOAD E) ++ ldelta), total, c.
    split; [now rewrite <- !app_assoc|].
    split; [now rewrite entered_app, L2, Hent|].
    split; [exact Hsum|].
    unfold processed in Hp.
    repeat split; try lia; Z.to_euclidean_division_equations; lia.
Qed.

Lemma totals_and_summary_agree_witness :
  exists pre mid total c,
    w_trace (snd (download_all_videos (Sample.env true) Sample.videos
                    (Sample.start Sample.empty_disk))) =
      w_trace (Sample.start Sample.empty_disk) ++ pre
        ++ totals_line Sample.videos [Sample.rec_a; Sample.rec_b; Sample.rec_c]
             total
        :: mid ++ run_tail (DELETE_AFTER_DOWNLOAD (Sample.env true))
                    Sample.videos c /\
    entered mid = [Sample.rec_a; Sample.rec_b; Sample.rec_c] /\
    sum_durations [Sample.rec_a; Sample.rec_b; Sample.rec_c] 0 = Ok total /\
    successful c + skipped c + failed c = 3.
Proof.
  destruct (totals_and_summary_agree nat (Sample.env true) Sample.videos
              (Sample.start Sample.empty_disk) Sample.rec_a
              [Sample.rec_b; Sample.rec_c])
    as (pre & mid & total & c & H1 & H2 & H3 & _ & _ & _ & H4 & _).
  - vm_compute. reflexivity.
  - eexists. split; [vm_compute; reflexivity | reflexivity].
  - exists pre, mid, total, c. repeat split; assumption.
Defined.

(** X16. A run of [download_all_videos] enters the download of a recording
    only after the durations of all collected recordings were added up, so
    every recording it enters has both times and both are integers: reading
    them in [download_recording] cannot raise there. *)
Theorem only_readable_recordings_are_entered (Cam : Type) (E : Env Cam)
  (out : string) (w : World Cam) :
  exists delta,
    w_trace (snd (download_all_videos E out w)) = w_trace w ++ delta /\
    Forall readable (entered delta).
Proof.
  destruct (download_all_videos_anatomy E out w) as (delta & Ht & Hanat).
  exists delta. split; [exact Ht|]. clear Ht.
  assert (Hloop : forall tc recs w5 ldelta,
            Forall readable recs ->
            w_trace (snd (download_loop E out tc (Z.of_nat (length recs)) 1
                            recs no_counts w5)) = w_trace w5 ++ ldelta ->
            Forall readable (entered ldelta)).
  { intros tc recs w5 ldelta Hread Hlt.
    destruct (download_loop_trace E out tc (Z.of_nat (length recs)) 1 recs
                no_counts w5) as (ld & Hld & _ & _ & Hent).
    rewrite (trace_delta_unique _ _ _ _ Hlt Hld).
    destruct (fst (download_loop E out tc (Z.of_nat (length recs)) 1 recs
                     no_counts w5)).
    - destruct Hent as [-> _]. exact Hread.
    - destruct Hent as (done & r & rest & -> & -> & _).
      apply Forall_app in Hread as [Hd Hr]. apply Forall_app. split; [exact Hd|].
      inversion Hr; subst. now constructor. }
  destruct Hanat;
    repeat match goal with
    | H : forallb is_catalog_event _ = true |- _ =>
        apply catalog_events_quiet in H as (H & _ & _)
    end;
    try match goal with
    | H : w_trace (snd (download_loop _ _ _ _ _ _ _ _)) = _,
      Hr : Forall readable _ |- _ => apply (Hloop _ _ _ _ Hr) in H
    end;
    pose proof (loop_start_quiet (DELETE_AFTER_DOWNLOAD E)) as (_ & HL & _);
    repeat match goal with
    | |- context [?a :: ?l ++ ?x] =>
        change (a :: l ++ x) with ([a] ++ l ++ x)
    end;
    rewrite ?entered_app;
    repeat match goal with
    | H : entered _ = [] |- _ => rewrite H
    end;
    rewrite ?(proj1 (proj2 (run_tail_quiet _ _ _)));
    cbn [entered flat_map app run_head found_line totals_line];
    rewrite ?app_nil_r; try assumption; try constructor;
    match goal with
    | H : entered ?l = [] |- context [flat_map _ ?l] =>
        fold (entered l); rewrite H; constructor
    end.
Qed.

(** X17. The first thing a run does is make the output folder. When that
    fails, for instance because a file stands where the folder should be,
    the run raises with one line printed and the camera is never contacted;
    otherwise the folder is a directory, no entry of the disk was touched,
    and only then is the list of dates requested. *)
Theorem output_folder_is_made_before_the_camera_is_asked (Cam : Type)
  (E : Env Cam) (out : string) (w : World Cam) :
  match PyOs.makedirs (w_fs w) out with
  | Raise x =>
      download_all_videos E out w = (Raise x, with_trace w [Print LScanning])
  | Ok fs1 =>
      PyOs.isdir fs1 out = true /\
      (forall q nd, w_fs w !! q = Some nd -> fs1 !! q = Some nd) /\
      exists rest,
        w_trace (snd (download_all_videos E out w)) =
          w_trace w ++ run_head out ++ rest
  end.
Proof.
  destruct (download_all_videos_anatomy E out w) as (delta & Ht & Hanat).
  destruct (PyOs.makedirs (w_fs w) out) as [fs1|x] eqn:Hmk.
  - destruct (makedirs_spec _ _ _ Hmk) as (Hd & Hk & _).
    split; [exact Hd|]. split; [exact Hk|]. rewrite Ht.
    destruct Hanat; try congruence;
      try (eexists; rewrite <- ?app_assoc; reflexivity).
  - unfold download_all_videos. run. rewrite Hmk. run. reflexivity.
Qed.

Lemma output_folder_is_made_before_the_camera_is_asked_witness :
  download_all_videos (Sample.env false) "/videos"
    {| w_fs := {[ "/videos" := Sample.new_file ]}; w_cam := O; w_trace := [] |}
  = (Raise OSError,
     with_trace {| w_fs := {[ "/videos" := Sample.new_file ]}; w_cam := O;
                   w_trace := [] |} [Print LScanning]).
Proof.
  exact (output_folder_is_made_before_the_camera_is_asked nat (Sample.env false)
           "/videos"
           {| w_fs := {[ "/videos" := Sample.new_file ]}; w_cam := O;
              w_trace := [] |}).
Defined.

(** ** The progress bar and the entry point *)

Section BarFacts.
Context {Cam : Type}.



End BarFacts.



(** X19. [main] overwrites the module's delete flag with the command-line
    option before anything else runs: without [--delete] nothing that is
    printed or called in the whole program is a deletion request, whatever
    the flag was when the module was loaded. *)
Theorem without_the_delete_option_nothing_is_deleted (Cam : Type)
  (H : Host Cam) (args : Args) (fs : PyOs.FS) (cam : Cam) :
  args_delete args = false ->
  Forall (fun o => match o with
                   | inr ev => is_delete_request ev = false
                   | inl _ => True
                   end)
         (fst (main H args fs cam)).
Proof.
  intros Hoff. unfold main.
  destruct (Tapo H _ _ _ _ cam) as [[e|] cam1]; cbn [fst].
  - apply List.Forall_forall. intros o [r [<- _]]%in_map_iff. exact I.
  - match goal with |- context [download_all_videos ?E ?o ?w1] =>
      destruct (download_all_videos_no_requests E o w1) as (delta & Ht & Hall);
      [rewrite <- Hoff; reflexivity|];
      destruct (download_all_videos E o w1) as [result w2]
    end.
    cbn [fst snd w_trace app] in *.
    assert (Hinl : forall l : list Report,
              Forall (fun o : Report + Event =>
                        match o with
                        | inr ev => is_delete_request ev = false
                        | inl _ => True
                        end) (map inl l)).
    { intros l. apply List.Forall_forall. intros o [r [<- _]]%in_map_iff.
      exact I. }
    rewrite Ht. apply Forall_app. split; [apply Hinl|].
    apply Forall_app. split.
    + apply List.Forall_forall. intros o [ev [<- Hin]]%in_map_iff.
      rewrite List.Forall_forall in Hall. now apply Hall.
    + destruct result; [constructor | apply Hinl].
Qed.

Lemma without_the_delete_option_nothing_is_deleted_witness :
  Forall (fun o => match o with
                   | inr ev => is_delete_request ev = false
                   | inl _ => True
                   end)
         (fst (main {| host_env := Sample.env true;
                       Tapo := fun _ _ _ _ cam => (None, cam) |}
                    {| args_ip := "192.168.1.100"; args_password := "secret";
                       args_user := "admin"; args_output := "/videos";
                       args_delete := false |}
                    Sample.empty_disk O)).
Proof.
  apply (without_the_delete_option_nothing_is_deleted nat
           {| host_env := Sample.env true;
              Tapo := fun _ _ _ _ cam => (None, cam) |}
           {| args_ip := "192.168.1.100"; args_password := "secret";
              args_user := "admin"; args_output := "/videos";
              args_delete := false |}
           Sample.empty_disk O).
  reflexivity.
Defined.

(** ** The calendar and the date folders *)

Section CalendarRoundTrip.
Import PyStr PyPath PyTime.

Lemma month_day_days n leap :
  0 <= n <= 364 ->
  let '(m, d) := month_day n leap in
  DAYS_BEFORE_MONTH m + b2z ((2 <? m) && leap) + d = n + 1.
Proof.
  intros H.
  assert (Hall : forall b, all_below 365 (month_day_back b) = true)
    by (intros []; vm_compute; reflexivity).
  pose proof (all_below_spec 365 _ (Hall leap) n ltac:(lia)) as Hok.
  unfold month_day_back in Hok. destruct (month_day n leap) as [m d].
  now apply Z.eqb_eq in Hok.
Qed.

(** The ordinal of the date of an ordinal is that ordinal. *)
Lemma ymd2ord_ord2ymd o : ymd2ord (ord2ymd o) = o.
Proof.
  unfold ord2ymd, DI400Y, DI100Y, DI4Y.
  set (n := o - 1).
  set (n400 := n / 146097). set (r400 := n mod 146097).
  set (n100 := r400 / 36524). set (r100 := r400 mod 36524).
  set (n4 := r100 / 1461). set (r4 := r100 mod 1461).
  set (n1 := r4 / 365). set (r1 := r4 mod 365).
  assert (H400 : n = 146097 * n400 + r400 /\ 0 <= r400 < 146097)
    by (unfold n400, r400; Z.to_euclidean_division_equations; lia).
  assert (H100 : r400 = 36524 * n100 + r100 /\ 0 <= r100 < 36524)
    by (unfold n100, r100; Z.to_euclidean_division_equations; lia).
  assert (H4 : r100 = 1461 * n4 + r4 /\ 0 <= r4 < 1461)
    by (unfold n4, r4; Z.to_euclidean_division_equations; lia).
  assert (H1 : r4 = 365 * n1 + r1 /\ 0 <= r1 < 365)
    by (unfold n1, r1; Z.to_euclidean_division_equations; lia).
  assert (Ho : o = n + 1) by (unfold n; lia).
  clearbody n400 r400 n100 r100 n4 r4 n1 r1 n.
  destruct ((n1 =? 4) || (n100 =? 4))%bool eqn:Hspecial.
  - unfold ymd2ord, days_before_year, days_before_month, is_leap.
    change (DAYS_BEFORE_MONTH 12) with 334. change (2 <? 12) with true.
    cbn [andb].
    set (y := n400 * 400 + 1 + n100 * 100 + n4 * 4 + n1 - 1).
    assert (Hy4 : y mod 4 = 0 /\
                  (y mod 100 <> 0 \/ y mod 400 = 0) /\
                  (y - 1) * 365 + (y - 1) / 4 - (y - 1) / 100 + (y - 1) / 400
                    = n - 365).
    { apply orb_true_iff in Hspecial as [H|H]; apply Z.eqb_eq in H;
        unfold y; Z.to_euclidean_division_equations; lia. }
    destruct Hy4 as (Hy4 & Hy100 & Hdays).
    rewrite Hdays.
    destruct (Z.eqb_spec (y mod 4) 0) as [_|]; [|contradiction].
    destruct (Z.eqb_spec (y mod 100) 0) as [E100|E100];
      destruct (Z.eqb_spec (y mod 400) 0) as [E400|E400];
      cbn [negb orb andb b2z]; lia.
  - apply orb_false_iff in Hspecial as [Hn1 Hn100].
    apply Z.eqb_neq in Hn1, Hn100.
    set (leap := ((n1 =? 3) && (negb (n4 =? 24) || (n100 =? 3)))%bool).
    pose proof (month_day_days r1 leap ltac:(lia)) as Hmd.
    destruct (month_day r1 leap) as [m d].
    unfold ymd2ord, days_before_year, days_before_month.
    set (y := n400 * 400 + 1 + n100 * 100 + n4 * 4 + n1).
    assert (Hleap : is_leap y = leap).
    { unfold is_leap, leap, y.
      destruct (Z.eqb_spec n1 3); destruct (Z.eqb_spec n4 24);
        destruct (Z.eqb_spec n100 3);
        destruct (Z.eqb_spec ((n400 * 400 + 1 + n100 * 100 + n4 * 4 + n1) mod 4) 0);
        destruct (Z.eqb_spec ((n400 * 400 + 1 + n100 * 100 + n4 * 4 + n1) mod 100) 0);
        destruct (Z.eqb_spec ((n400 * 400 + 1 + n100 * 100 + n4 * 4 + n1) mod 400) 0);
        cbn [negb orb andb]; try reflexivity; exfalso;
        Z.to_euclidean_division_equations; lia. }
    rewrite Hleap.
    assert (Hdays : (y - 1) * 365 + (y - 1) / 4 - (y - 1) / 100 + (y - 1) / 400
                      = n - r1)
      by (unfold y; Z.to_euclidean_division_equations; lia).
    rewrite Hdays. lia.
Qed.

Lemma ord2ymd_inj o o' : ord2ymd o = ord2ymd o' -> o = o'.
Proof.
  intros H. rewrite <- (ymd2ord_ord2ymd o), <- (ymd2ord_ord2ymd o'). now f_equal.
Qed.
End CalendarRoundTrip.

Section DateFolderFacts.
Import PyStr PyPath PyTime.

Lemma digits_reads w : forall n v,
  0 <= n < 10 ^ Z.of_nat w ->
  read_digits v (digits w n) = v * 10 ^ Z.of_nat w + n.
Proof.
  induction w as [|w IH]; intros n v H.
  - cbn in *. lia.
  - rewrite Nat2Z.inj_succ, Z.pow_succ_r in * by lia.
    cbn [digits]. rewrite read_digits_app, IH
      by (Z.to_euclidean_division_equations; nia).
    cbn [read_digits]. rewrite digit_value_char by (apply Z.mod_pos_bound; lia).
    Z.to_euclidean_division_equations. lia.
Qed.

Lemma digits_inj w a b :
  0 <= a < 10 ^ Z.of_nat w -> 0 <= b < 10 ^ Z.of_nat w ->
  digits w a = digits w b -> a = b.
Proof.
  intros Ha Hb H.
  pose proof (digits_reads w a 0 Ha) as Ra.
  pose proof (digits_reads w b 0 Hb) as Rb.
  rewrite H in Ra. lia.
Qed.

Lemma str_app_inj_length a : forall a' b b',
  String.length a = String.length a' ->
  a +:+ b = a' +:+ b' -> a = a' /\ b = b'.
Proof.
  induction a as [|x a IH]; intros [|x' a'] b b' Hl H; try discriminate Hl.
  - now split.
  - cbn [String.append] in H. injection H as -> H. injection Hl as Hl.
    destruct (IH _ _ _ Hl H) as [-> ->]. now split.
Qed.

(** What stands before the first separator, and what follows it. *)
Lemma first_component a : forall a' b b',
  has_sep a = false -> has_sep a' = false ->
  a +:+ "/" +:+ b = a' +:+ "/" +:+ b' -> a = a' /\ b = b'.
Proof.
  induction a as [|x a IH]; intros [|x' a'] b b' Ha Ha' H;
    cbn [String.append has_sep] in *.
  - injection H as ->. now split.
  - injection H as <- _. discriminate Ha'.
  - injection H as -> _. discriminate Ha.
  - injection H as -> H.
    apply orb_false_iff in Ha as [_ Ha], Ha' as [_ Ha'].
    destruct (IH _ _ _ Ha Ha' H) as [-> ->]. now split.
Qed.

(** The folder [Y/MM/DD] spells one date only. *)
Lemma date_dir_inj dt dt' :
  calendar_fields dt -> calendar_fields dt' -> date_dir dt = date_dir dt' ->
  (year dt, month dt, day dt) = (year dt', month dt', day dt').
Proof.
  intros (Hy & Hm & Hd & _) (Hy' & Hm' & Hd' & _) H. unfold date_dir in H.
  apply first_component in H as [Ey H]; [|apply dec_no_sep ..].
  apply str_app_inj_length in H as [Em H]; [|now rewrite !digits_length].
  apply (str_app_inj_length "/" "/") in H as [_ Ed]; [|reflexivity].
  apply (f_equal read_int) in Ey. rewrite !dec_reads in Ey.
  apply digits_inj in Em; [|change (10 ^ Z.of_nat 2) with 100; lia ..].
  apply digits_inj in Ed; [|change (10 ^ Z.of_nat 2) with 100; lia ..].
  congruence.
Qed.

Lemma fromtimestamp_date u t dt :
  fromtimestamp u t = Ok dt ->
  (year dt, month dt, day dt) = ord2ymd (local_day u t + EPOCH_ORDINAL).
Proof.
  intros [Hl _]%fromtimestamp_inv.
  now destruct (localtime_inv _ _ _ Hl) as (Hd & _).
Qed.

Lemma get_date_folder_inv u t f :
  get_date_folder u t = Ok f ->
  exists dt, fromtimestamp u t = Ok dt /\ f = date_dir dt.
Proof.
  intros H. destruct (fromtimestamp u t) as [dt|x] eqn:Hdt.
  - exists dt. split; [reflexivity|].
    rewrite (get_date_folder_shape _ _ _ Hdt) in H.
    apply (f_equal (fun r => match r with Ok a => a | Raise _ => f end)) in H.
    now symmetry.
  - unfold get_date_folder in H. rewrite Hdt in H. discriminate H.
Qed.

End DateFolderFacts.

(** X20. Recordings are filed by the local day they start on: two start
    times get the same date folder exactly when they fall on the same day
    of the local calendar. One folder never mixes two days, and one day is
    never spread over two folders. *)
Theorem one_date_folder_per_local_day (utcoffset : Z -> Z) (t1 t2 : Z)
  (folder1 folder2 : string) :
  get_date_folder utcoffset t1 = Ok folder1 ->
  get_date_folder utcoffset t2 = Ok folder2 ->
  (folder1 = folder2 <-> local_day utcoffset t1 = local_day utcoffset t2).
Proof.
  intros H1 H2.
  apply get_date_folder_inv in H1 as (dt1 & Hdt1 & ->).
  apply get_date_folder_inv in H2 as (dt2 & Hdt2 & ->).
  pose proof (fromtimestamp_fields _ _ _ Hdt1) as Hf1.
  pose proof (fromtimestamp_fields _ _ _ Hdt2) as Hf2.
  pose proof (fromtimestamp_date _ _ _ Hdt1) as Hd1.
  pose proof (fromtimestamp_date _ _ _ Hdt2) as Hd2.
  split.
  - intros H. apply (date_dir_inj _ _ Hf1 Hf2) in H.
    rewrite Hd1, Hd2 in H. apply ord2ymd_inj in H. lia.
  - intros H. rewrite H in Hd1. rewrite <- Hd2 in Hd1.
    unfold date_dir. congruence.
Qed.

Lemma one_date_folder_per_local_day_witness :
  "2024/01/01"%string = "2024/01/02"%string <->
  local_day (fun _ => 7200) 1704144600 = local_day (fun _ => 7200) 1704148200.
Proof.
  apply (one_date_folder_per_local_day (fun _ => 7200) 1704144600 1704148200);
    vm_compute; reflexivity.
Defined.

(** X21. [format_filename] and [get_date_folder] accept the same start times
    and raise the same exception on the others. When they return, the date
    the file name begins with is the date of the folder: the characters
    before the underscore of the name are the folder written without its
    separators. *)
Theorem file_name_begins_with_the_folder_date (utcoffset : Z -> Z) (t : Z) :
  match get_date_folder utcoffset t, format_filename utcoffset t with
  | Ok folder, Ok name => without_sep folder = before_underscore name
  | Raise x, Raise y => x = y
  | _, _ => False
  end.
Proof.
  destruct (PyTime.fromtimestamp utcoffset t) as [dt|x] eqn:Hdt.
  - rewrite (get_date_folder_shape _ _ _ Hdt), (format_filename_shape _ _ _ Hdt).
    destruct (fromtimestamp_fields _ _ _ Hdt) as (Hy & _).
    unfold date_dir, stamp. rewrite !without_sep_app.
    rewrite (without_sep_plain (PyStr.dec _)) by apply dec_no_sep.
    rewrite !(without_sep_plain (digits _ _)) by apply digits_no_sep.
    change (without_sep "/") with "".
    change ("" +:+ digits 2 (PyTime.month dt)) with (digits 2 (PyTime.month dt)).
    change ("" +:+ digits 2 (PyTime.day dt)) with (digits 2 (PyTime.day dt)).
    replace ((PyStr.dec (PyTime.year dt) +:+ digits 2 (PyTime.month dt)
                +:+ digits 2 (PyTime.day dt) +:+ "_"
                +:+ digits 2 (PyTime.hour dt) +:+ digits 2 (PyTime.minute dt)
                +:+ digits 2 (PyTime.second dt))
               +:+ "-" +:+ PyStr.dec t +:+ ".mp4")
      with ((PyStr.dec (PyTime.year dt) +:+ digits 2 (PyTime.month dt)
               +:+ digits 2 (PyTime.day dt))
              +:+ "_" +:+ (digits 2 (PyTime.hour dt)
                             +:+ digits 2 (PyTime.minute dt)
                             +:+ digits 2 (PyTime.second dt)
                             +:+ "-" +:+ PyStr.dec t +:+ ".mp4"))
      by (now rewrite !str_app_assoc).
    rewrite before_underscore_app; [reflexivity|].
    apply all_digits_has_char; [reflexivity|].
    apply stamp_date_digits. lia.
  - unfold get_date_folder, format_filename. now rewrite Hdt.
Qed.
